(** * Data-quality validation engine of the Coventry DW pipeline

    A shallow embedding of [src/data_quality/validator.py]
    (class [DataQualityValidator]) and of the part of
    [src/schema/manager.py] it calls, followed by the properties of the
    engine: scoring, thresholds, quarantine and failure behaviour.

    Modelling conventions.
    - Python floats are modelled by exact rationals [Q]; every score of the
      engine is a quotient of two counts or a mean of such quotients.
      Equality of scores is [Qeq] ([==]).  The module [Binary64] computes
      a rule's score and pass flag in IEEE binary64, to compare the two at
      the 0.95 boundary.
    - A Python exception is a value of [exn]; code that may raise returns
      [result].  A [try ... except Exception] is a [match] on the result.
    - pandas is modelled by the operations the validator uses (column
      lookup, [notna], comparison with a scalar, [to_datetime], [max],
      [duplicated], [dropna], [apply(type)], [unique]).  The date parser of
      pandas, the schema store and the pandera validation are external
      collaborators: they are variables of the section [Validator].
    - The clock ([datetime.utcnow()]) is one instant per validation call,
      in nanoseconds since the epoch.
    - Writing a quarantine file appends a record to the file store carried
      in the state; the warnings the validator logs are appended to a
      log. *)

From Stdlib Require Import List String Ascii Bool Arith ZArith QArith Lia Lqa.
From Stdlib Require PrimFloat Uint63.
Import ListNotations.

Set Implicit Arguments.

(* ------------------------------------------------------------------ *)
(** ** Python values, exceptions and results *)

Module Py.

Inductive exn : Type :=
| KeyError (key : string)
| TypeError (msg : string)
| ValueError (msg : string)
| SchemaError (msg : string)
| OtherError (msg : string).

(** [str(e)] *)
Definition str (e : exn) : string :=
  match e with
  | KeyError key => ("'" ++ key ++ "'")%string
  | TypeError msg => msg
  | ValueError msg => msg
  | SchemaError msg => msg
  | OtherError msg => msg
  end.

Inductive result (A : Type) : Type :=
| Ok (a : A)
| Raise (e : exn).

Arguments Ok {A} a.
Arguments Raise {A} e.

Definition bind {A B : Type} (m : result A) (k : A -> result B) : result B :=
  match m with
  | Ok a => k a
  | Raise e => Raise e
  end.

(** [d[key]] on a dict whose key may be absent. *)
Definition subscript {A : Type} (field : option A) (key : string) : result A :=
  match field with
  | Some v => Ok v
  | None => Raise (KeyError key)
  end.

(** [d.get(key, default)] *)
Definition get {A : Type} (field : option A) (default : A) : A :=
  match field with
  | Some v => v
  | None => default
  end.

(** Evaluate [f] on the elements from left to right; the first exception
    aborts the traversal. *)
Fixpoint mapM {A B : Type} (f : A -> result B) (l : list A) : result (list B) :=
  match l with
  | [] => Ok []
  | x :: xs =>
      bind (f x) (fun y => bind (mapM f xs) (fun ys => Ok (y :: ys)))
  end.

(** [sum(1 for x in l if p x)] and [.sum()] of a boolean column *)
Definition count {A : Type} (p : A -> bool) (l : list A) : nat :=
  List.length (filter p l).

(** [a / b] on two counts, as a float *)
Definition truediv (a b : nat) : Q :=
  inject_Z (Z.of_nat a) / inject_Z (Z.of_nat b).

(** [sum(l)] *)
Definition sum (l : list Q) : Q := fold_left Qplus l 0.

(** [x >= y] and [x < y] on floats *)
Definition ge (x y : Q) : bool := Qle_bool y x.
Definition lt (x y : Q) : bool := negb (Qle_bool y x).

(** [c.lower()] on ASCII *)
Definition lower_ascii (c : ascii) : ascii :=
  let n := nat_of_ascii c in
  if (65 <=? n)%nat && (n <=? 90)%nat then ascii_of_nat (n + 32) else c.

Fixpoint lower (s : string) : string :=
  match s with
  | EmptyString => EmptyString
  | String c s' => String (lower_ascii c) (lower s')
  end.

(** [s.startswith(p)] *)
Definition startswith (s p : string) : bool := String.prefix p s.

(** [sub in s] on strings *)
Fixpoint contains (sub s : string) : bool :=
  String.prefix sub s ||
  match s with
  | EmptyString => false
  | String _ s' => contains sub s'
  end.

(** [x in l] on a list of strings *)
Definition mem (x : string) (l : list string) : bool :=
  existsb (String.eqb x) l.

End Py.

Import Py.

(** The score of a rule and its comparison with 0.95 in binary64, the
    arithmetic of Python floats. *)
Module Binary64.

Import PrimFloat.

Definition of_count (n : nat) : PrimFloat.float :=
  PrimFloat.of_uint63 (Uint63.of_Z (Z.of_nat n)).

(** [a / b] on two counts *)
Definition truediv (a b : nat) : PrimFloat.float :=
  PrimFloat.div (of_count a) (of_count b).

(** [passed_rows / total_rows if total_rows > 0 else 0] *)
Definition ratio (passed_rows total_rows : nat) : PrimFloat.float :=
  if (0 <? total_rows)%nat then truediv passed_rows total_rows
  else PrimFloat.zero.

(** The literal [0.95]: the binary64 number nearest to 95/100. *)
Definition literal_0_95 : PrimFloat.float := 0x1.e666666666666p-1%float.

(** [score >= 0.95] *)
Definition rule_passed (score : PrimFloat.float) : bool :=
  PrimFloat.leb literal_0_95 score.

End Binary64.

Declare Scope py_scope.
Delimit Scope py_scope with py.
Notation "x <- m ;; k" := (Py.bind m (fun x => k))
  (at level 61, m at next level, right associativity) : py_scope.

(* ------------------------------------------------------------------ *)
(** ** The fragment of pandas used by the validator *)

Module Pandas.

(** A cell of a data frame.  [NA] stands for [None], [NaN] and [NaT]. *)
Inductive cell : Type :=
| NA
| PyInt (z : Z)
| PyFloat (q : Q)
| PyStr (s : string)
| Timestamp (ns : Z).

(** [type(x).__name__] of a non-null cell *)
Inductive pytype : Type := t_int | t_float | t_str | t_Timestamp.

Definition pytype_eqb (a b : pytype) : bool :=
  match a, b with
  | t_int, t_int | t_float, t_float | t_str, t_str
  | t_Timestamp, t_Timestamp => true
  | _, _ => false
  end.

Definition type_name (t : pytype) : string :=
  match t with
  | t_int => "int"
  | t_float => "float"
  | t_str => "str"
  | t_Timestamp => "Timestamp"
  end.

Inductive Dtype : Type := object | int64 | float64 | datetime64.

Definition is_object (d : Dtype) : bool :=
  match d with object => true | _ => false end.

Record Series : Type := mkSeries { dtype : Dtype; values : list cell }.

Record Column : Type := mkColumn { label : string; col_dtype : Dtype }.

(** A data frame: the column index and the rows.  A row shorter than the
    header reads as [NA] in the missing positions. *)
Record DataFrame : Type := mkDataFrame {
  header : list Column;
  rows : list (list cell)
}.

(** [df.columns] *)
Definition columns (df : DataFrame) : list string := map label (header df).

(** [len(df)] *)
Definition len (df : DataFrame) : nat := List.length (rows df).

Fixpoint find_column (column : string) (h : list Column) (i : nat)
  : option (nat * Dtype) :=
  match h with
  | [] => None
  | c :: h' =>
      if String.eqb column (label c) then Some (i, col_dtype c)
      else find_column column h' (S i)
  end.

(** [df[column]]: the column with that label; [KeyError] when absent. *)
Definition getitem (df : DataFrame) (column : string) : result Series :=
  match find_column column (header df) 0 with
  | Some (i, d) => Ok (mkSeries d (map (fun r => nth i r NA) (rows df)))
  | None => Raise (KeyError column)
  end.

(** [s.notna()] elementwise *)
Definition notna (c : cell) : bool :=
  match c with NA => false | _ => true end.

(** [s.notna().sum()] *)
Definition notna_sum (s : Series) : nat := Py.count notna (values s).

(** [x > value] for one cell against a number.  A null compares false; a
    string or a timestamp against a number raises [TypeError]. *)
Definition gt_scalar (value : Q) (c : cell) : result bool :=
  match c with
  | NA => Ok false
  | PyInt z => Ok (negb (Qle_bool (inject_Z z) value))
  | PyFloat q => Ok (negb (Qle_bool q value))
  | PyStr _ =>
      Raise (TypeError "'>' not supported between instances of 'str' and 'int'")
  | Timestamp _ =>
      Raise (TypeError "Invalid comparison between dtype=datetime64[ns] and int")
  end.

(** [s > value] *)
Definition gt (s : Series) (value : Q) : result (list bool) :=
  Py.mapM (gt_scalar value) (values s).

(** [mask.sum()] *)
Definition sum_bool (mask : list bool) : nat := Py.count (fun b => b) mask.

(** [.max()] of a datetime column, skipping [NaT]; [None] is [NaT]. *)
Fixpoint max_datetime (l : list (option Z)) : option Z :=
  match l with
  | [] => None
  | None :: l' => max_datetime l'
  | Some t :: l' =>
      match max_datetime l' with
      | None => Some t
      | Some m => Some (Z.max t m)
      end
  end.

(** Equality of cells as [duplicated] sees it: nulls are equal to each
    other, an int equals the float of the same value. *)
Definition cell_eqb (a b : cell) : bool :=
  match a, b with
  | NA, NA => true
  | PyInt x, PyInt y => Z.eqb x y
  | PyInt x, PyFloat q | PyFloat q, PyInt x => Qeq_bool (inject_Z x) q
  | PyFloat p, PyFloat q => Qeq_bool p q
  | PyStr s, PyStr t => String.eqb s t
  | Timestamp x, Timestamp y => Z.eqb x y
  | _, _ => false
  end.

Fixpoint row_eqb (r1 r2 : list cell) : bool :=
  match r1, r2 with
  | [], [] => true
  | a :: r1', b :: r2' => cell_eqb a b && row_eqb r1' r2'
  | _, _ => false
  end.

(** The rows of the frame restricted to the given columns. *)
Definition project (cols : list Series) (n : nat) : list (list cell) :=
  map (fun i => map (fun s => nth i (values s) NA) cols) (seq 0 n).

(** Marks every row equal to an earlier one ([keep='first']). *)
Fixpoint mark_duplicates (seen : list (list cell)) (rs : list (list cell))
  : list bool :=
  match rs with
  | [] => []
  | r :: rs' => existsb (row_eqb r) seen :: mark_duplicates (r :: seen) rs'
  end.

(** [df.duplicated(subset=subset)].  An empty frame gives an empty mask;
    an empty [subset] on a frame with rows raises [ValueError] (pandas
    unpacks the factorised columns into two lists). *)
Definition duplicated (df : DataFrame) (subset : list string)
  : result (list bool) :=
  match rows df, header df with
  | [], _ | _, [] => Ok []
  | _, _ =>
      (cols <- Py.mapM (getitem df) subset ;;
       match cols with
       | [] => Raise (ValueError "not enough values to unpack (expected 2, got 0)")
       | _ => Ok (mark_duplicates [] (project cols (len df)))
       end)%py
  end.

(** [type(x)] for a non-null cell *)
Definition type_of (c : cell) : option pytype :=
  match c with
  | NA => None
  | PyInt _ => Some t_int
  | PyFloat _ => Some t_float
  | PyStr _ => Some t_str
  | Timestamp _ => Some t_Timestamp
  end.

(** [.unique()] in order of first appearance *)
Fixpoint unique (seen : list pytype) (l : list pytype) : list pytype :=
  match l with
  | [] => []
  | t :: l' =>
      if existsb (pytype_eqb t) seen then unique seen l'
      else t :: unique (t :: seen) l'
  end.

(** [s.dropna().apply(type).unique()] *)
Definition dropna_types_unique (s : Series) : list pytype :=
  unique [] (flat_map (fun c => match type_of c with
                                | Some t => [t]
                                | None => []
                                end) (values s)).

End Pandas.

Import Pandas.

(* ------------------------------------------------------------------ *)
(** ** Configuration, results and the state outside the engine *)

(** A business rule as read from the configuration: a dict whose keys may
    be absent. *)
Record Rule : Type := mkRule {
  r_name : option string;
  r_column : option string;
  r_check : option string;
  r_value : option Q;
  r_min_date : option cell;
  r_max_date : option cell
}.

(** [config.get_data_quality_config()] as far as the validator reads it. *)
Record QualityConfig : Type := mkQualityConfig {
  coverage_threshold : option Q;
  rules : option (list Rule)
}.

(** [SchemaField] and [SchemaVersion] of [schema/manager.py]. *)
Record SchemaField : Type := mkSchemaField {
  sf_name : string;
  sf_dtype : string;
  sf_nullable : bool
}.

Record SchemaVersion : Type := mkSchemaVersion {
  version : string;
  created_at : string;
  fields : list SchemaField
}.

(** The dict returned by [SchemaManager.validate_dataframe]. *)
Inductive SchemaReport : Type :=
| SchemaNotFound
| SchemaValid (rows_validated : nat) (schema_version : string)
| SchemaInvalid (error : string) (schema_version : string).

(** One entry of [rule_results]. *)
Inductive RuleResult : Type :=
| RuleScored (rule : string) (passed : bool) (score : Q)
             (passed_rows total_rows : nat)
| RuleFailed (rule : string) (error : string).

Definition rule_of (r : RuleResult) : string :=
  match r with
  | RuleScored rule _ _ _ _ => rule
  | RuleFailed rule _ => rule
  end.

Definition rule_passed (r : RuleResult) : bool :=
  match r with
  | RuleScored _ p _ _ _ => p
  | RuleFailed _ _ => false
  end.

Record ColumnStat : Type := mkColumnStat {
  completeness : Q;
  non_null_count : nat;
  total_count : nat
}.

Inductive ConsistencyCheck : Type :=
| DuplicateRecords (duplicate_count : nat) (duplicate_rate : Q) (passed : bool)
| TypeConsistency (passed : bool) (type_issues : list (string * list string)).

Definition consistency_passed (c : ConsistencyCheck) : bool :=
  match c with
  | DuplicateRecords _ _ p => p
  | TypeConsistency p _ => p
  end.

(** One entry of [freshness_checks]; [None] is a [nan] age. *)
Inductive FreshnessCheck : Type :=
| IngestionFreshness (hours_since_ingestion : option Q) (passed : bool)
| BusinessDateFreshness (check : string) (days_since_latest : option Z)
                        (passed : bool).

Definition freshness_passed (c : FreshnessCheck) : bool :=
  match c with
  | IngestionFreshness _ p => p
  | BusinessDateFreshness _ _ p => p
  end.

Inductive Details : Type :=
| SchemaDetails (d : SchemaReport)
| NoDetails
| RuleResults (rule_results : list RuleResult)
| ColumnCompleteness (column_completeness : list (string * ColumnStat))
| ConsistencyChecks (consistency_checks : list ConsistencyCheck)
| FreshnessChecks (freshness_checks : list FreshnessCheck).

(** The dict every checker returns. *)
Record CheckResult : Type := mkCheckResult {
  passed : bool;
  score : Q;
  error : option string;
  details : Details;
  check_type : string
}.

(** [validation_results["checks"]] *)
Record Checks : Type := mkChecks {
  schema_validation : CheckResult;
  business_rules : CheckResult;
  completeness_check : CheckResult;
  consistency : CheckResult;
  freshness : CheckResult
}.

(** [validation_results] *)
Record ValidationResult : Type := mkValidationResult {
  source_name : string;
  validation_timestamp : Z;
  total_rows : nat;
  checks : Checks;
  overall_score : Q;
  vr_passed : bool;
  quarantined_rows : nat
}.

(** What one quarantine leaves on disk: the parquet file and its sidecar
    metadata. *)
Record QuarantineRecord : Type := mkQuarantineRecord {
  q_source_name : string;
  q_timestamp : Z;
  q_data : DataFrame;
  q_quarantined_rows : nat;
  q_total_rows : nat;
  q_reason : ValidationResult
}.

(** A [logger.warning] call of the validator. *)
Inductive Warning : Type :=
| BusinessRuleFailed (rule_name : string)
| Quarantined (rows : nat) (source_name : string) (timestamp : Z).

(** The quarantine directory and the log. *)
Record World : Type := mkWorld {
  quarantine_files : list QuarantineRecord;
  warnings : list Warning
}.

(** [self] *)
Record DataQualityValidator : Type := mkValidator {
  quality_config : QualityConfig
}.

(* ------------------------------------------------------------------ *)
(** ** The validator *)

Section Validator.

Local Open Scope py_scope.

(** External collaborators. *)

(** [SchemaManager.load_schema]: reads the stored schema, [None] when the
    file does not exist. *)
Variable load_schema : string -> result (option SchemaVersion).

(** [create_pandera_schema(schema_version).validate(df)]: returns, or
    raises ([pa.errors.SchemaError] on a frame that does not conform). *)
Variable pandera_validate : SchemaVersion -> DataFrame -> result unit.

(** [pd.to_datetime] on one value: a timestamp, [NaT] ([None]) or an
    exception on a value it cannot parse. *)
Variable to_datetime_scalar : cell -> result (option Z).

(** [datetime.utcnow()], nanoseconds since the epoch. *)
Variable utcnow : Z.

(** [pd.to_datetime(s)] *)
Definition to_datetime (s : Series) : result (list (option Z)) :=
  Py.mapM to_datetime_scalar (values s).

(** [pd.to_datetime(s, errors='coerce')] *)
Definition to_datetime_coerce (s : Series) : list (option Z) :=
  map (fun c => match to_datetime_scalar c with
                | Ok t => t
                | Raise _ => None
                end) (values s).

(** *** [SchemaManager.validate_dataframe] *)

Definition is_SchemaError (e : exn) : bool :=
  match e with SchemaError _ => true | _ => false end.

Definition validate_dataframe (df : DataFrame) (schema_name : string)
  : result (bool * SchemaReport) :=
  schema_version <- load_schema schema_name ;;
  match schema_version with
  | None => Ok (false, SchemaNotFound)
  | Some sv =>
      match pandera_validate sv df with
      | Ok _ => Ok (true, SchemaValid (len df) (version sv))
      | Raise e =>
          if is_SchemaError e
          then Ok (false, SchemaInvalid (Py.str e) (version sv))
          else Raise e
      end
  end.

(** *** [_validate_schema] *)

Definition _validate_schema (df : DataFrame) (source_name : string)
  : bool * CheckResult :=
  match validate_dataframe df source_name with
  | Ok (is_valid, schema_result) =>
      (is_valid,
       mkCheckResult is_valid (if is_valid then 1 else 0) None
                     (SchemaDetails schema_result) "schema_validation")
  | Raise e =>
      (false,
       mkCheckResult false 0 (Some (Py.str e)) NoDetails "schema_validation")
  end.

(** *** [_validate_business_rules] *)

(** [passed_rows / total_rows if total_rows > 0 else 0] *)
Definition ratio (passed_rows total_rows : nat) : Q :=
  if (0 <? total_rows)%nat then Py.truediv passed_rows total_rows else 0.

(** [(date_col >= min_date) & (date_col <= max_date)] for one value; a
    comparison with [NaT] is false. *)
Definition in_date_range (min_date max_date : option Z) (d : option Z) : bool :=
  match d, min_date, max_date with
  | Some t, Some lo, Some hi => (lo <=? t)%Z && (t <=? hi)%Z
  | _, _, _ => false
  end.

(** The body of the [try]: score, passed rows and total rows of a rule
    on an existing column. *)
Definition evaluate_rule (df : DataFrame) (rule : Rule) (column check_type : string)
  : result (Q * nat * nat) :=
  if String.eqb check_type "not_null" then
    s <- getitem df column ;;
    let passed_rows := notna_sum s in
    let total_rows := len df in
    Ok (ratio passed_rows total_rows, passed_rows, total_rows)
  else if String.eqb check_type "greater_than" then
    value <- Py.subscript (r_value rule) "value" ;;
    s <- getitem df column ;;
    mask <- gt s value ;;
    let passed_rows := sum_bool mask in
    let total_rows := len df in
    Ok (ratio passed_rows total_rows, passed_rows, total_rows)
  else if String.eqb check_type "date_range" then
    lo <- Py.subscript (r_min_date rule) "min_date" ;;
    min_date <- to_datetime_scalar lo ;;
    hi <- Py.subscript (r_max_date rule) "max_date" ;;
    max_date <- to_datetime_scalar hi ;;
    s <- getitem df column ;;
    let date_col := to_datetime_coerce s in
    let passed_rows := Py.count (in_date_range min_date max_date) date_col in
    let total_rows := len df in
    Ok (ratio passed_rows total_rows, passed_rows, total_rows)
  else
    Ok (0, 0%nat, len df).

(** The [for rule in rules] loop, carrying [rule_results] and
    [total_score].  The three key lookups at the head of the body are
    outside the [try]. *)
Fixpoint rules_loop (df : DataFrame) (rules : list Rule)
         (rule_results : list RuleResult) (total_score : Q)
  : result (list RuleResult * Q) :=
  match rules with
  | [] => Ok (rule_results, total_score)
  | rule :: rest =>
      rule_name <- Py.subscript (r_name rule) "name" ;;
      column <- Py.subscript (r_column rule) "column" ;;
      check_type <- Py.subscript (r_check rule) "check" ;;
      if negb (Py.mem column (columns df)) then
        rules_loop df rest
          (rule_results ++
           [RuleFailed rule_name ("Column " ++ column ++ " not found")%string])
          total_score
      else
        match evaluate_rule df rule column check_type with
        | Ok (score, passed_rows, total_rows) =>
            rules_loop df rest
              (rule_results ++
               [RuleScored rule_name (Py.ge score (95 # 100)) score
                           passed_rows total_rows])
              (total_score + score)
        | Raise e =>
            rules_loop df rest
              (rule_results ++ [RuleFailed rule_name (Py.str e)])
              total_score
        end
  end.

Definition _validate_business_rules (self : DataQualityValidator)
           (df : DataFrame) (source_name : string)
  : result (bool * CheckResult) :=
  let rules := Py.get (rules (quality_config self)) [] in
  r <- rules_loop df rules [] 0 ;;
  let '(rule_results, total_score) := r in
  let overall_score :=
    match rules with
    | [] => 1
    | _ => total_score / inject_Z (Z.of_nat (List.length rules))
    end in
  let overall_passed := Py.ge overall_score (95 # 100) in
  Ok (overall_passed,
      mkCheckResult overall_passed overall_score None
                    (RuleResults rule_results) "business_rules").

(** *** [_validate_completeness] *)

(** [[col for col in df.columns if not col.startswith('_')]] *)
Definition business_columns (df : DataFrame) : list string :=
  filter (fun col => negb (Py.startswith col "_")) (columns df).

(** The [for column in business_columns] loop, carrying
    [completeness_stats] and [total_completeness]. *)
Fixpoint completeness_loop (df : DataFrame) (cols : list string)
         (completeness_stats : list (string * ColumnStat))
         (total_completeness : Q)
  : result (list (string * ColumnStat) * Q) :=
  match cols with
  | [] => Ok (completeness_stats, total_completeness)
  | column :: rest =>
      s <- getitem df column ;;
      let non_null_count := notna_sum s in
      let total_count := len df in
      let completeness := ratio non_null_count total_count in
      completeness_loop df rest
        (completeness_stats ++
         [(column, mkColumnStat completeness non_null_count total_count)])
        (total_completeness + completeness)
  end.

Definition _validate_completeness (df : DataFrame)
  : result (bool * CheckResult) :=
  let business_columns := business_columns df in
  r <- completeness_loop df business_columns [] 0 ;;
  let '(completeness_stats, total_completeness) := r in
  let overall_completeness :=
    match business_columns with
    | [] => 1
    | _ => total_completeness
           / inject_Z (Z.of_nat (List.length business_columns))
    end in
  let passed := Py.ge overall_completeness (9 # 10) in
  Ok (passed,
      mkCheckResult passed overall_completeness None
                    (ColumnCompleteness completeness_stats) "completeness").

(** *** [_validate_consistency] *)

(** The [for column in df.columns] loop of the type check, carrying
    [type_consistency] and [type_issues]. *)
Fixpoint type_loop (df : DataFrame) (cols : list string)
         (type_consistency : bool) (type_issues : list (string * list string))
  : result (bool * list (string * list string)) :=
  match cols with
  | [] => Ok (type_consistency, type_issues)
  | column :: rest =>
      if Py.startswith column "_" then
        type_loop df rest type_consistency type_issues
      else
        s <- getitem df column ;;
        if is_object (dtype s) then
          let sample_types := dropna_types_unique s in
          if (1 <? List.length sample_types)%nat then
            type_loop df rest false
              (type_issues ++ [(column, map type_name sample_types)])
          else type_loop df rest type_consistency type_issues
        else type_loop df rest type_consistency type_issues
  end.

Definition _validate_consistency (df : DataFrame)
  : result (bool * CheckResult) :=
  let business_columns := business_columns df in
  mask <- duplicated df business_columns ;;
  let duplicate_count := sum_bool mask in
  let duplicate_rate := ratio duplicate_count (len df) in
  let consistency_checks :=
    [DuplicateRecords duplicate_count duplicate_rate
                      (Py.lt duplicate_rate (1 # 100))] in
  r <- type_loop df (columns df) true [] ;;
  let '(type_consistency, type_issues) := r in
  let consistency_checks :=
    consistency_checks ++ [TypeConsistency type_consistency type_issues] in
  let passed_checks := Py.count consistency_passed consistency_checks in
  let consistency_score :=
    match consistency_checks with
    | [] => 1
    | _ => Py.truediv passed_checks (List.length consistency_checks)
    end in
  let passed := Py.ge consistency_score (9 # 10) in
  Ok (passed,
      mkCheckResult passed consistency_score None
                    (ConsistencyChecks consistency_checks) "consistency").

(** *** [_validate_freshness] *)

Definition ns_per_hour : Z := 3600 * 1000000000.
Definition ns_per_day : Z := 24 * ns_per_hour.

(** [(datetime.utcnow() - latest).total_seconds() / 3600]; [nan] for
    [NaT]. *)
Definition hours_since (latest : option Z) : option Q :=
  match latest with
  | Some t => Some (inject_Z (utcnow - t) / inject_Z ns_per_hour)
  | None => None
  end.

(** [(datetime.utcnow() - latest).days]; [nan] for [NaT]. *)
Definition days_since (latest : option Z) : option Z :=
  match latest with
  | Some t => Some ((utcnow - t) / ns_per_day)%Z
  | None => None
  end.

(** The ingestion check; the conversion is not inside a [try]. *)
Definition ingestion_check (df : DataFrame) : result (list FreshnessCheck) :=
  if Py.mem "_ingestion_timestamp" (columns df) then
    s <- getitem df "_ingestion_timestamp" ;;
    ts <- to_datetime s ;;
    let hours_since_ingestion := hours_since (max_datetime ts) in
    Ok [IngestionFreshness hours_since_ingestion
          match hours_since_ingestion with
          | Some h => Py.lt h 24
          | None => false
          end]
  else Ok [].

(** [[col for col in df.columns
      if 'date' in col.lower() and not col.startswith('_')]] *)
Definition date_columns (df : DataFrame) : list string :=
  filter (fun col => Py.contains "date" (Py.lower col)
                     && negb (Py.startswith col "_")) (columns df).

(** The body of the [try] for one business date column. *)
Definition business_date_check (df : DataFrame) (date_col : string)
  : result FreshnessCheck :=
  s <- getitem df date_col ;;
  ts <- to_datetime s ;;
  let days_since_business_date := days_since (max_datetime ts) in
  Ok (BusinessDateFreshness (date_col ++ "_freshness")%string
        days_since_business_date
        match days_since_business_date with
        | Some d => (d <? 7)%Z
        | None => false
        end).

(** The [for date_col in date_columns] loop; a column whose conversion
    raises is skipped. *)
Fixpoint date_loop (df : DataFrame) (cols : list string)
         (freshness_checks : list FreshnessCheck) : list FreshnessCheck :=
  match cols with
  | [] => freshness_checks
  | date_col :: rest =>
      match business_date_check df date_col with
      | Ok c => date_loop df rest (freshness_checks ++ [c])
      | Raise _ => date_loop df rest freshness_checks
      end
  end.

Definition _validate_freshness (df : DataFrame)
  : result (bool * CheckResult) :=
  freshness_checks <- ingestion_check df ;;
  let freshness_checks := date_loop df (date_columns df) freshness_checks in
  let '(freshness_score, passed) :=
    match freshness_checks with
    | [] => (1, true)
    | _ =>
        let passed_checks := Py.count freshness_passed freshness_checks in
        let freshness_score :=
          Py.truediv passed_checks (List.length freshness_checks) in
        (freshness_score, Py.ge freshness_score (8 # 10))
    end in
  Ok (passed,
      mkCheckResult passed freshness_score None
                    (FreshnessChecks freshness_checks) "freshness").

(** *** [_quarantine_bad_data] *)

(** [df[mask]] for a boolean mask *)
Fixpoint select_rows (rs : list (list cell)) (mask : list bool)
  : list (list cell) :=
  match rs, mask with
  | r :: rs', b :: mask' =>
      if b then r :: select_rows rs' mask' else select_rows rs' mask'
  | _, _ => []
  end.

Definition getitem_mask (df : DataFrame) (mask : list bool) : DataFrame :=
  mkDataFrame (header df) (select_rows (rows df) mask).

(** [business_result.get("rule_results", [])] *)
Definition get_rule_results (c : CheckResult) : list RuleResult :=
  match details c with
  | RuleResults l => l
  | _ => []
  end.

(** The warnings of the [for rule_result in ...] loop. *)
Definition failed_rule_warnings (l : list RuleResult) : list Warning :=
  map (fun rule_result => BusinessRuleFailed (rule_of rule_result))
      (filter (fun rule_result => negb (rule_passed rule_result)) l).

Definition _quarantine_bad_data (df : DataFrame)
           (validation_results : ValidationResult) (source_name : string)
           (w : World) : nat * World :=
  let quarantine_mask := repeat false (len df) in
  let schema_result := schema_validation (checks validation_results) in
  let quarantine_mask :=
    if negb (passed schema_result) then repeat true (len df)
    else quarantine_mask in
  let business_result := business_rules (checks validation_results) in
  let w := mkWorld (quarantine_files w)
                   (warnings w
                    ++ failed_rule_warnings (get_rule_results business_result)) in
  let quarantined_df := getitem_mask df quarantine_mask in
  let w :=
    if (0 <? len quarantined_df)%nat then
      mkWorld (quarantine_files w
               ++ [mkQuarantineRecord source_name utcnow quarantined_df
                     (len quarantined_df) (len df) validation_results])
              (warnings w
               ++ [Quarantined (len quarantined_df) source_name utcnow])
    else w in
  (len quarantined_df, w).

(** *** [validate_data] *)

Definition validate_data (self : DataQualityValidator) (df : DataFrame)
           (source_name : string) (w : World)
  : result (bool * ValidationResult * World) :=
  let '(schema_valid, schema_result) := _validate_schema df source_name in
  business <- _validate_business_rules self df source_name ;;
  let '(business_valid, business_result) := business in
  completeness <- _validate_completeness df ;;
  let '(completeness_valid, completeness_result) := completeness in
  consistency <- _validate_consistency df ;;
  let '(consistency_valid, consistency_result) := consistency in
  freshness <- _validate_freshness df ;;
  let '(freshness_valid, freshness_result) := freshness in
  let checks :=
    mkChecks schema_result business_result completeness_result
             consistency_result freshness_result in
  let check_scores :=
    [score schema_result; score business_result; score completeness_result;
     score consistency_result; score freshness_result] in
  let overall_score :=
    Py.sum check_scores / inject_Z (Z.of_nat (List.length check_scores)) in
  let threshold := Py.get (coverage_threshold (quality_config self)) (95 # 100) in
  let passed := Py.ge overall_score threshold in
  let validation_results :=
    mkValidationResult source_name utcnow (len df) checks overall_score
                       passed 0 in
  if negb passed then
    let '(quarantined_rows, w') :=
      _quarantine_bad_data df validation_results source_name w in
    Ok (passed,
        mkValidationResult source_name utcnow (len df) checks overall_score
                           passed quarantined_rows,
        w')
  else Ok (passed, validation_results, w).


(** *** [_generate_recommendations] and [generate_quality_report] *)

Definition _generate_recommendations (validation_results : ValidationResult)
  : list string :=
  let recommendations : list string := [] in
  let schema_result := schema_validation (checks validation_results) in
  let recommendations :=
    if negb (passed schema_result) then
      recommendations
      ++ ["Review and update schema definitions to match incoming data structure"%string]
    else recommendations in
  let completeness_result := completeness_check (checks validation_results) in
  let recommendations :=
    if Py.lt (score completeness_result) (9 # 10) then
      recommendations
      ++ ["Investigate data sources for missing values and implement data collection improvements"%string]
    else recommendations in
  let consistency_result := consistency (checks validation_results) in
  let recommendations :=
    if negb (passed consistency_result) then
      recommendations
      ++ ["Implement data standardization processes to ensure consistency"%string]
    else recommendations in
  let freshness_result := freshness (checks validation_results) in
  let recommendations :=
    if negb (passed freshness_result) then
      recommendations
      ++ ["Review data ingestion schedules to ensure timely data delivery"%string]
    else recommendations in
  let business_result := business_rules (checks validation_results) in
  let recommendations :=
    if negb (passed business_result) then
      recommendations
      ++ ["Review business rules and data validation logic"%string]
    else recommendations in
  recommendations.

(** [report["overall_assessment"]] *)
Record OverallAssessment : Type := mkOverallAssessment {
  oa_passed : bool;
  oa_score : Q;
  oa_total_rows : nat;
  oa_quarantined_rows : nat
}.

(** The quality report. *)
Record QualityReport : Type := mkQualityReport {
  report_timestamp : Z;
  report_source_name : string;
  overall_assessment : OverallAssessment;
  detailed_results : Checks;
  recommendations : list string
}.

Definition generate_quality_report (validation_results : ValidationResult)
  : QualityReport :=
  mkQualityReport utcnow
    (source_name validation_results)
    (mkOverallAssessment (vr_passed validation_results)
                         (overall_score validation_results)
                         (total_rows validation_results)
                         (quarantined_rows validation_results))
    (checks validation_results)
    (_generate_recommendations validation_results).

(** *** Python dicts with string keys

    A dict keeps its keys in the order of their first insertion; setting
    an existing key replaces its value in place. *)

(** [d[k] = v] *)
Fixpoint dict_set (V : Type) (k : string) (v : V) (d : list (string * V))
  : list (string * V) :=
  match d with
  | [] => [(k, v)]
  | (k', v') :: d' =>
      if String.eqb k k' then (k, v) :: d' else (k', v') :: dict_set k v d'
  end.

(** [d.get(k)] *)
Fixpoint dict_get (V : Type) (k : string) (d : list (string * V)) : option V :=
  match d with
  | [] => None
  | (k', v') :: d' => if String.eqb k k' then Some v' else dict_get k d'
  end.

(** [k in d] *)
Definition dict_mem (V : Type) (k : string) (d : list (string * V)) : bool :=
  match dict_get k d with Some _ => true | None => false end.

(** [{key(x): x for x in l}] *)
Definition dict_comprehension (V : Type) (key : V -> string) (l : list V)
  : list (string * V) :=
  fold_left (fun d x => dict_set (key x) x d) l [].

(** *** [SchemaManager.compare_schemas] *)

Record TypeChange : Type := mkTypeChange {
  tc_field : string;
  old_type : string;
  new_type : string
}.

Record NullableChange : Type := mkNullableChange {
  nc_field : string;
  old_nullable : bool;
  new_nullable : bool
}.

(** The [differences] dict. *)
Record Differences : Type := mkDifferences {
  added_fields : list string;
  removed_fields : list string;
  modified_fields : list string;
  type_changes : list TypeChange;
  nullable_changes : list NullableChange
}.

(** The schema directory as far as [compare_schemas] writes it: the
    content of [schema_diff.json]. *)
Record SchemaDir : Type := mkSchemaDir {
  schema_diff : option Differences
}.

(** The first two loops: the keys of [d1] that are not keys of [d2]. *)
Definition keys_not_in (d1 d2 : list (string * SchemaField)) : list string :=
  map fst (filter (fun kv => negb (dict_mem (fst kv) d2)) d1).

(** The third loop, carrying [type_changes] and [nullable_changes]. *)
Fixpoint modified_loop (current_fields reference_fields : list (string * SchemaField))
         (type_changes : list TypeChange)
         (nullable_changes : list NullableChange)
  : list TypeChange * list NullableChange :=
  match current_fields with
  | [] => (type_changes, nullable_changes)
  | (field_name, current_field) :: rest =>
      match dict_get field_name reference_fields with
      | Some reference_field =>
          let type_changes :=
            if negb (String.eqb (sf_dtype current_field)
                                (sf_dtype reference_field))
            then type_changes
                 ++ [mkTypeChange field_name (sf_dtype reference_field)
                                  (sf_dtype current_field)]
            else type_changes in
          let nullable_changes :=
            if negb (Bool.eqb (sf_nullable current_field)
                              (sf_nullable reference_field))
            then nullable_changes
                 ++ [mkNullableChange field_name (sf_nullable reference_field)
                                      (sf_nullable current_field)]
            else nullable_changes in
          modified_loop rest reference_fields type_changes nullable_changes
      | None =>
          modified_loop rest reference_fields type_changes nullable_changes
      end
  end.

Definition compare_schemas (current_schema reference_schema : SchemaVersion)
           (dir : SchemaDir) : Differences * SchemaDir :=
  let current_fields := dict_comprehension sf_name (fields current_schema) in
  let reference_fields := dict_comprehension sf_name (fields reference_schema) in
  let added := keys_not_in current_fields reference_fields in
  let removed := keys_not_in reference_fields current_fields in
  let '(type_changes, nullable_changes) :=
    modified_loop current_fields reference_fields [] [] in
  let differences := mkDifferences added removed [] type_changes nullable_changes in
  (differences, mkSchemaDir (Some differences)).

(** *** [DataPipelineOrchestrator._run_quality_assessment]
    ([orchestrator/pipeline.py]) *)

(** A path of a Bronze file. *)
Record Path : Type := mkPath {
  parent : string;
  stem : string
}.

(** [pd.read_parquet] *)
Variable read_parquet : Path -> result DataFrame.

(** [s.split('_')[0]] *)
Fixpoint split_first (s : string) : string :=
  match s with
  | EmptyString => EmptyString
  | String c s' =>
      if Ascii.eqb c "_"%char then EmptyString else String c (split_first s')
  end.

(** A value of [quality_results]: the validation results, or the error
    dict of the [except] branch. *)
Inductive QualityEntry : Type :=
| ValidationEntry (validation_result : ValidationResult)
| ErrorEntry (error : string).

(** [result["passed"]] *)
Definition entry_passed (e : QualityEntry) : bool :=
  match e with
  | ValidationEntry r => vr_passed r
  | ErrorEntry _ => false
  end.

(** The [for bronze_file in bronze_files] loop, carrying
    [quality_results]. *)
Fixpoint assessment_loop (self : DataQualityValidator) (bronze_files : list Path)
         (quality_results : list (string * QualityEntry)) (w : World)
  : list (string * QualityEntry) * World :=
  match bronze_files with
  | [] => (quality_results, w)
  | bronze_file :: rest =>
      let source_name := split_first (stem bronze_file) in
      match (df <- read_parquet bronze_file ;;
             validate_data self df source_name w) with
      | Ok (is_valid, validation_result, w') =>
          assessment_loop self rest
            (dict_set source_name (ValidationEntry validation_result)
                      quality_results)
            w'
      | Raise e =>
          assessment_loop self rest
            (dict_set (stem bronze_file) (ErrorEntry (Py.str e))
                      quality_results)
            w
      end
  end.

Definition _run_quality_assessment (self : DataQualityValidator)
           (bronze_files : list Path) (w : World)
  : list (string * QualityEntry) * World :=
  assessment_loop self bronze_files [] w.

(** [any(not result["passed"] for result in quality_results.values())] of
    [run_full_pipeline] *)
Definition quality_has_failures (quality_results : list (string * QualityEntry))
  : bool :=
  existsb (fun kv => negb (entry_passed (snd kv))) quality_results.

(* ------------------------------------------------------------------ *)
(** ** Notions used in the statements *)

(** A rule has the three keys read at the head of the loop body. *)
Definition has_required_keys (rule : Rule) : Prop :=
  r_name rule <> None /\ r_column rule <> None /\ r_check rule <> None.

(** The arithmetic mean of a list of scores. *)
Definition mean (l : list Q) : Q :=
  Py.sum l / inject_Z (Z.of_nat (List.length l)).

(** The non-null ratio of a column as the completeness scorer computes
    it. *)
Definition non_null_ratio (df : DataFrame) (column : string) : Q :=
  match getitem df column with
  | Ok s => ratio (notna_sum s) (len df)
  | Raise _ => 0
  end.

(** The entry of [column_completeness] for a column. *)
Definition column_stat (df : DataFrame) (column : string) : string * ColumnStat :=
  match getitem df column with
  | Ok s => (column, mkColumnStat (ratio (notna_sum s) (len df))
                                  (notna_sum s) (len df))
  | Raise _ => (column, mkColumnStat 0 0 (len df))
  end.

(** [s.isna().sum()] *)
Definition isna_sum (s : Series) : nat :=
  Py.count (fun c => negb (notna c)) (values s).

(** Two frames with the same column index and the same number of rows
    that hold the same values in every business column: they differ at
    most in the values of metadata columns. *)
Definition same_business_data (df1 df2 : DataFrame) : Prop :=
  header df1 = header df2
  /\ len df1 = len df2
  /\ forall column, Py.startswith column "_" = false ->
                    getitem df1 column = getitem df2 column.

(** The rule names a business column (or no column at all). *)
Definition on_business_column (rule : Rule) : Prop :=
  forall column, r_column rule = Some column ->
                 Py.startswith column "_" = false.

(** A cell that [>] can compare with a number. *)
Definition numeric_or_null (c : cell) : bool :=
  match c with
  | NA | PyInt _ | PyFloat _ => true
  | PyStr _ | Timestamp _ => false
  end.

(** [value > rule.value] on a numeric or null cell. *)
Definition exceeds (value : Q) (c : cell) : bool :=
  match c with
  | PyInt z => negb (Qle_bool (inject_Z z) value)
  | PyFloat q => negb (Qle_bool q value)
  | _ => false
  end.

(** The ingestion timestamps of the frame, when it has the column, can
    all be converted. *)
Definition ingestion_parses (df : DataFrame) : Prop :=
  Py.mem "_ingestion_timestamp" (columns df) = true ->
  forall s, getitem df "_ingestion_timestamp" = Ok s ->
            exists ts, to_datetime s = Ok ts.

(** [duplicated] has a column to look at, or nothing to do. *)
Definition has_business_column (df : DataFrame) : Prop :=
  rows df = [] \/ header df = [] \/ business_columns df <> [].

(** The score an entry of [rule_results] added to [total_score]: an entry
    with an error added nothing. *)
Definition entry_score (r : RuleResult) : Q :=
  match r with
  | RuleScored _ _ s _ _ => s
  | RuleFailed _ _ => 0
  end.

(** [rule["name"]] of a rule that has the key. *)
Definition name_of (rule : Rule) : string := Py.get (r_name rule) ""%string.

(** A scored entry carries the flag [score >= 0.95] of a score between 0
    and 1. *)
Definition entry_well_formed (r : RuleResult) : Prop :=
  match r with
  | RuleScored _ p s _ _ => p = Py.ge s (95 # 100) /\ 0 <= s <= 1
  | RuleFailed _ _ => True
  end.


(** The check kinds the engine evaluates. *)
Definition known_check (check_type : string) : bool :=
  String.eqb check_type "not_null"
  || String.eqb check_type "greater_than"
  || String.eqb check_type "date_range".

(** A rule with its three keys that names a missing column or an unknown
    check kind. *)
Definition scores_nothing (df : DataFrame) (rule : Rule) : Prop :=
  exists name column check_type,
    r_name rule = Some name /\ r_column rule = Some column
    /\ r_check rule = Some check_type
    /\ (Py.mem column (columns df) = false \/ known_check check_type = false).

(** The non-null values of a business column of dtype [object] have at
    most one runtime type; other columns are not looked at. *)
Definition column_types_consistent (df : DataFrame) (column : string) : bool :=
  Py.startswith column "_"
  || match getitem df column with
     | Ok s => negb (is_object (dtype s))
               || (List.length (dropna_types_unique s) <=? 1)%nat
     | Raise _ => true
     end.

(** The five results of [checks], in the order of the aggregator. *)
Definition checks_list (c : Checks) : list CheckResult :=
  [schema_validation c; business_rules c; completeness_check c;
   consistency c; freshness c].

(** The number of checks whose [passed] flag is false. *)
Definition failed_checks (c : Checks) : nat :=
  Py.count (fun x => negb (passed x)) (checks_list c).

(** The last element of [l] whose key is [k]. *)
Definition last_with_key (V : Type) (key : V -> string) (k : string)
           (l : list V) : option V :=
  find (fun x => String.eqb k (key x)) (rev l).

(** The field of a schema under a name, as the dict comprehension of
    [compare_schemas] keeps it: the last field of that name. *)
Definition field_named (schema : SchemaVersion) (name : string)
  : option SchemaField :=
  last_with_key sf_name name (fields schema).

(** What the loop of [_run_quality_assessment] stores for one Bronze file:
    the validation results under the source name, or the error under the
    stem of the file. *)
Definition file_outcome (self : DataQualityValidator) (bronze_file : Path)
  : string * QualityEntry :=
  let source_name := split_first (stem bronze_file) in
  match (df <- read_parquet bronze_file ;;
         validate_data self df source_name (mkWorld [] []))%py with
  | Ok (_, validation_result, _) =>
      (source_name, ValidationEntry validation_result)
  | Raise e => (stem bronze_file, ErrorEntry (Py.str e))
  end.

(** The type change [compare_schemas] reports for a field present in both
    schemas, if any. *)
Definition type_change_of (reference_fields : list (string * SchemaField))
           (kv : string * SchemaField) : list TypeChange :=
  match dict_get (fst kv) reference_fields with
  | Some g =>
      if negb (String.eqb (sf_dtype (snd kv)) (sf_dtype g))
      then [mkTypeChange (fst kv) (sf_dtype g) (sf_dtype (snd kv))]
      else []
  | None => []
  end.

(** The nullability change reported for a field present in both schemas,
    if any. *)
Definition nullable_change_of (reference_fields : list (string * SchemaField))
           (kv : string * SchemaField) : list NullableChange :=
  match dict_get (fst kv) reference_fields with
  | Some g =>
      if negb (Bool.eqb (sf_nullable (snd kv)) (sf_nullable g))
      then [mkNullableChange (fst kv) (sf_nullable g) (sf_nullable (snd kv))]
      else []
  | None => []
  end.

(* ------------------------------------------------------------------ *)
(** ** Sample collaborators, configurations and datasets *)

(** A schema store holding one schema, for the source "transactions". *)
Definition sample_load_schema (schema_name : string)
  : result (option SchemaVersion) :=
  if String.eqb schema_name "transactions"
  then Ok (Some (mkSchemaVersion "1.0.0" "2024-01-01T00:00:00"
                   [mkSchemaField "amount" "float64" true]))
  else Ok None.

(** A schema validation that requires the columns of the schema. *)
Definition sample_pandera_validate (sv : SchemaVersion) (df : DataFrame)
  : result unit :=
  if forallb (fun f => Py.mem (sf_name f) (columns df)) (fields sv)
  then Ok tt
  else Raise (SchemaError "column not in dataframe").

(** A date parser that accepts timestamps, integers (epoch nanoseconds)
    and nulls, and rejects everything else. *)
Definition sample_to_datetime_scalar (c : cell) : result (option Z) :=
  match c with
  | NA => Ok None
  | Timestamp t => Ok (Some t)
  | PyInt z => Ok (Some z)
  | PyFloat _ | PyStr _ => Raise (ValueError "Unknown datetime string format")
  end.

(** 2024-01-01T00:00:00 *)
Definition sample_utcnow : Z := 1704067200000000000.

(** The rule of the test configuration ([tests/conftest.py]). *)
Definition amount_not_null : Rule :=
  mkRule (Some "amount_not_null"%string) (Some "amount"%string)
         (Some "not_null"%string) None None None.

Definition amount_positive : Rule :=
  mkRule (Some "amount_positive"%string) (Some "amount"%string)
         (Some "greater_than"%string) (Some 0) None None.

(** A rule on a metadata column. *)
Definition batch_not_null : Rule :=
  mkRule (Some "batch_not_null"%string) (Some "_batch"%string)
         (Some "not_null"%string) None None None.

Definition validator_with (rules : list Rule) : DataQualityValidator :=
  mkValidator (mkQualityConfig (Some (95 # 100)) (Some rules)).

(** A frame with the single column [amount]: first [nulls] null rows, then
    [filled] rows holding 10.0. *)
Definition amount_frame (nulls filled : nat) : DataFrame :=
  mkDataFrame [mkColumn "amount" float64]
              (repeat [NA] nulls ++ repeat [PyFloat 10] filled).

(** Two rows of [amount], one of them null. *)
Definition half_null_frame : DataFrame :=
  mkDataFrame [mkColumn "amount" float64] [[NA]; [PyFloat 25]].

(** An [amount] column holding a number and a string. *)
Definition mixed_amount_frame : DataFrame :=
  mkDataFrame [mkColumn "amount" object] [[PyInt 5]; [PyStr "abc"]].

(** Two frames that differ only in the value of the metadata column
    [_batch]. *)
Definition batch_frame (batch : cell) : DataFrame :=
  mkDataFrame [mkColumn "amount" float64; mkColumn "_batch" object]
              [[PyFloat 25; batch]].

(** A frame whose ingestion timestamp is not a date. *)
Definition bad_ingestion_frame : DataFrame :=
  mkDataFrame [mkColumn "amount" float64;
               mkColumn "_ingestion_timestamp" object]
              [[PyFloat 25; PyStr "yesterday"]].

Definition empty_world : World := mkWorld [] [].

(** A schema store whose file cannot be decoded. *)
Definition broken_load_schema (schema_name : string)
  : result (option SchemaVersion) :=
  Raise (OtherError "Expecting value: line 1 column 1 (char 0)").

(** 2023-12-31T12:00:00 and 2023-12-20T00:00:00: 12 hours and 12 days
    before [sample_utcnow]. *)
Definition ts_recent : Z := 1704024000000000000.
Definition ts_old : Z := 1703030400000000000.

(** A frame with a business date and an ingestion timestamp. *)
Definition dated_frame : DataFrame :=
  mkDataFrame [mkColumn "amount" float64;
               mkColumn "transaction_date" datetime64;
               mkColumn "_ingestion_timestamp" datetime64]
              [[PyFloat 25; Timestamp ts_recent; Timestamp ts_recent];
               [PyFloat 30; Timestamp ts_old; NA]].

(** A frame whose date column holds text the sample parser rejects. *)
Definition text_date_frame : DataFrame :=
  mkDataFrame [mkColumn "order_date" object] [[PyStr "soon"]].

(** A [greater_than] rule without its ["value"]. *)
Definition amount_min_no_value : Rule :=
  mkRule (Some "amount_min"%string) (Some "amount"%string)
         (Some "greater_than"%string) None None None.


(** A rule of a check kind the engine does not know. *)
Definition amount_format : Rule :=
  mkRule (Some "amount_format"%string) (Some "amount"%string)
         (Some "regex"%string) None None None.

(** A rule on a column the sample frames do not have. *)
Definition branch_not_null : Rule :=
  mkRule (Some "branch_not_null"%string) (Some "branch"%string)
         (Some "not_null"%string) None None None.

Definition schema_v1 : SchemaVersion :=
  mkSchemaVersion "1.0.0" "2024-01-01T00:00:00"
    [mkSchemaField "account_id" "object" false;
     mkSchemaField "amount" "float64" true].

Definition schema_v2 : SchemaVersion :=
  mkSchemaVersion "2.0.0" "2024-02-01T00:00:00"
    [mkSchemaField "account_id" "object" false;
     mkSchemaField "amount" "int64" false;
     mkSchemaField "branch" "object" true].

(** Two Bronze files of the source "transactions" and one of "accounts". *)
Definition transactions_2024 : Path := mkPath "output/bronze" "transactions_2024".
Definition transactions_2025 : Path := mkPath "output/bronze" "transactions_2025".
Definition accounts_2024 : Path := mkPath "output/bronze" "accounts_2024".

(** The first file holds a null amount, the second is clean, the third
    cannot be read. *)
Definition sample_read_parquet (bronze_file : Path) : result DataFrame :=
  if String.eqb (stem bronze_file) "transactions_2024" then Ok half_null_frame
  else if String.eqb (stem bronze_file) "transactions_2025"
       then Ok (amount_frame 0 1)
       else Raise (OtherError "No such file or directory").

(* ------------------------------------------------------------------ *)
(** ** Counting and ratios *)

Lemma count_le_length (A : Type) (p : A -> bool) (l : list A) :
  (Py.count p l <= List.length l)%nat.
Proof.
  unfold Py.count.
  induction l as [|x l IH]; simpl; [lia|].
  destruct (p x); simpl; lia.
Qed.

Lemma inject_nat_nonneg (n : nat) : 0 <= inject_Z (Z.of_nat n).
Proof.
  change 0 with (inject_Z 0). rewrite <- Zle_Qle. lia.
Qed.

Lemma inject_nat_pos (n : nat) : (0 < n)%nat -> 0 < inject_Z (Z.of_nat n).
Proof.
  intros H. change 0 with (inject_Z 0). rewrite <- Zlt_Qlt. lia.
Qed.

Lemma inject_nat_S (n : nat) :
  inject_Z (Z.of_nat (S n)) == inject_Z (Z.of_nat n) + 1.
Proof.
  rewrite Nat2Z.inj_succ. unfold Z.succ. rewrite inject_Z_plus. reflexivity.
Qed.

Lemma truediv_bounds (p n : nat) :
  (0 < n)%nat -> (p <= n)%nat -> 0 <= Py.truediv p n <= 1.
Proof.
  intros Hn Hp. unfold Py.truediv.
  pose proof (inject_nat_pos Hn) as Hpos.
  split.
  - apply Qle_shift_div_l; [assumption|].
    rewrite Qmult_0_l. apply inject_nat_nonneg.
  - apply Qle_shift_div_r; [assumption|].
    rewrite Qmult_1_l. rewrite <- Zle_Qle. lia.
Qed.

Lemma truediv_same (n : nat) : (0 < n)%nat -> Py.truediv n n == 1.
Proof.
  intros Hn. unfold Py.truediv, Qdiv. apply Qmult_inv_r.
  pose proof (inject_nat_pos Hn) as Hpos. intros E. rewrite E in Hpos.
  now apply Qlt_irrefl in Hpos.
Qed.

Lemma ratio_bounds (p n : nat) : (p <= n)%nat -> 0 <= ratio p n <= 1.
Proof.
  intros Hp. unfold ratio.
  destruct (Nat.ltb_spec 0 n) as [Hn|Hn].
  - now apply truediv_bounds.
  - split; [apply Qle_refl | discriminate].
Qed.

Lemma ratio_full (n : nat) : (0 < n)%nat -> ratio n n == 1.
Proof.
  intros Hn. unfold ratio.
  destruct (Nat.ltb_spec 0 n) as [_|Hn']; [now apply truediv_same | lia].
Qed.

Lemma ratio_zero (n : nat) : ratio 0 n == 0.
Proof.
  unfold ratio, Py.truediv. destruct (0 <? n)%nat; [|reflexivity].
  simpl. unfold Qdiv. apply Qmult_0_l.
Qed.

(* ------------------------------------------------------------------ *)
(** ** Facts about the pandas fragment *)

Lemma bind_Ok (A B : Type) (m : result A) (k : A -> result B) (b : B) :
  Py.bind m k = Ok b -> exists a, m = Ok a /\ k a = Ok b.
Proof.
  destruct m as [a|e]; simpl; intros H; [now exists a | discriminate].
Qed.

(** Forget the collaborators a statement does not mention. *)
Ltac clear_unused := repeat match goal with x : _ |- _ => clear x end.

Ltac bind_inv H :=
  let a := fresh "a" in
  let Ha := fresh "Ha" in
  apply bind_Ok in H; destruct H as (a & Ha & H).

Lemma mapM_length (A B : Type) (f : A -> result B) (l : list A) (l' : list B) :
  Py.mapM f l = Ok l' -> List.length l' = List.length l.
Proof.
  revert l'. induction l as [|x l IH]; simpl; intros l' H.
  - now inversion H.
  - bind_inv H. bind_inv H. inversion H; subst. simpl. f_equal. now apply IH.
Qed.

Lemma mapM_total (A B : Type) (f : A -> result B) (l : list A) :
  (forall x, In x l -> exists y, f x = Ok y) -> exists l', Py.mapM f l = Ok l'.
Proof.
  induction l as [|x l IH]; simpl; intros H.
  - now exists [].
  - destruct (H x (or_introl eq_refl)) as (y & Hy). rewrite Hy. simpl.
    destruct IH as (l' & Hl'); [intros z Hz; apply H; now right|].
    rewrite Hl'. simpl. now exists (y :: l').
Qed.

Lemma mapM_ext_in (A B : Type) (f g : A -> result B) (l : list A) :
  (forall x, In x l -> f x = g x) -> Py.mapM f l = Py.mapM g l.
Proof.
  induction l as [|x l IH]; simpl; intros H; [reflexivity|].
  rewrite (H x (or_introl eq_refl)), IH; [reflexivity|].
  intros y Hy. apply H. now right.
Qed.

Lemma find_column_mem (column : string) (h : list Column) (i : nat) :
  Py.mem column (map label h) = true ->
  exists j d, find_column column h i = Some (j, d).
Proof.
  revert i. induction h as [|c h IH]; simpl; intros i H; [discriminate|].
  destruct (String.eqb column (label c)); [now eauto|].
  simpl in H. now apply IH.
Qed.

Lemma find_column_not_mem (column : string) (h : list Column) (i : nat) :
  Py.mem column (map label h) = false -> find_column column h i = None.
Proof.
  revert i. induction h as [|c h IH]; simpl; intros i H; [reflexivity|].
  destruct (String.eqb column (label c)); [discriminate|].
  simpl in H. now apply IH.
Qed.

(** [df[column]] returns for every label of [df.columns]. *)
Lemma getitem_mem (df : DataFrame) (column : string) :
  Py.mem column (columns df) = true -> exists s, getitem df column = Ok s.
Proof.
  intros H. unfold getitem, columns in *.
  destruct (find_column_mem _ _ 0 H) as (j & d & E). rewrite E. eauto.
Qed.

Lemma mem_In (x : string) (l : list string) : In x l -> Py.mem x l = true.
Proof.
  intros H. unfold Py.mem. apply existsb_exists. exists x. split; [assumption|].
  apply String.eqb_refl.
Qed.

Lemma getitem_In (df : DataFrame) (column : string) :
  In column (columns df) -> exists s, getitem df column = Ok s.
Proof. intros H. apply getitem_mem. now apply mem_In. Qed.

(** Every column has as many values as the frame has rows. *)
Lemma getitem_length (df : DataFrame) (column : string) (s : Series) :
  getitem df column = Ok s -> List.length (values s) = len df.
Proof.
  unfold getitem, len. destruct (find_column column (header df) 0) as [[i d]|];
    intros H; inversion H; subst; simpl. apply length_map.
Qed.

Lemma notna_sum_le (df : DataFrame) (column : string) (s : Series) :
  getitem df column = Ok s -> (notna_sum s <= len df)%nat.
Proof.
  intros H. rewrite <- (getitem_length _ _ H). apply count_le_length.
Qed.

Lemma business_columns_In (df : DataFrame) (c : string) :
  In c (business_columns df) ->
  In c (columns df) /\ Py.startswith c "_" = false.
Proof.
  unfold business_columns. rewrite filter_In. intros [H1 H2].
  split; [assumption|]. now apply negb_true_iff.
Qed.

(* ------------------------------------------------------------------ *)
(** ** The business rule engine *)

(** Whatever a rule evaluates to is the ratio of two counts of the
    frame. *)
Lemma evaluate_rule_ratio df rule column check_type sc p n :
  evaluate_rule df rule column check_type = Ok (sc, p, n) ->
  sc == ratio p n /\ n = len df /\ (p <= n)%nat.
Proof.
  unfold evaluate_rule.
  destruct (String.eqb check_type "not_null").
  { intros H. bind_inv H. inversion H; subst.
    split; [reflexivity|split; [reflexivity|]]. eapply notna_sum_le; eassumption. }
  destruct (String.eqb check_type "greater_than").
  { intros H. do 3 bind_inv H. inversion H; subst.
    split; [reflexivity|split; [reflexivity|]]. unfold sum_bool.
    etransitivity; [apply count_le_length|].
    unfold gt in Ha1. rewrite (mapM_length _ _ Ha1).
    erewrite getitem_length by eassumption. lia. }
  destruct (String.eqb check_type "date_range").
  { intros H. do 5 bind_inv H. inversion H; subst.
    split; [reflexivity|split; [reflexivity|]].
    etransitivity; [apply count_le_length|].
    unfold to_datetime_coerce. rewrite length_map.
    erewrite getitem_length by eassumption. lia. }
  intros H. inversion H; subst.
  split; [symmetry; apply ratio_zero | split; [reflexivity | lia]].
Qed.

Lemma evaluate_rule_bounds df rule column check_type sc p n :
  evaluate_rule df rule column check_type = Ok (sc, p, n) -> 0 <= sc <= 1.
Proof.
  intros H. apply evaluate_rule_ratio in H. destruct H as (E & _ & Hp).
  rewrite E. now apply ratio_bounds.
Qed.

(** The loop adds to [total_score] at most one per rule. *)
Lemma rules_loop_bounds df rules :
  forall rule_results total_score rule_results' total_score',
    rules_loop df rules rule_results total_score
    = Ok (rule_results', total_score') ->
    total_score <= total_score'
    /\ total_score' <= total_score + inject_Z (Z.of_nat (List.length rules)).
Proof.
  induction rules as [|rule rest IH]; intros rr ts rr' ts' H.
  - inversion H; subst. simpl. change (inject_Z 0) with 0. split; lra.
  - cbn [List.length]. rewrite inject_nat_S.
    unfold rules_loop in H. simpl in H. do 3 bind_inv H.
    destruct (negb (Py.mem a0 (columns df))).
    + apply IH in H. lra.
    + destruct (evaluate_rule df rule a0 a1)
        as [[[sc p] n]|e] eqn:E.
      * apply evaluate_rule_bounds in E. apply IH in H. lra.
      * apply IH in H. lra.
Qed.

(** The loop returns exactly when every rule has its three keys. *)
Lemma rules_loop_total df rules :
  Forall has_required_keys rules ->
  forall rule_results total_score,
  exists out, rules_loop df rules rule_results total_score = Ok out.
Proof.
  induction 1 as [|rule rest (Hn & Hc & Hk) _ IH]; intros rr ts.
  - simpl. eauto.
  - unfold rules_loop. simpl.
    destruct (r_name rule) as [name|]; [|congruence].
    destruct (r_column rule) as [column|]; [|congruence].
    destruct (r_check rule) as [check_type|]; [|congruence].
    simpl.
    destruct (negb (Py.mem column (columns df))); [apply IH|].
    destruct (evaluate_rule df rule column check_type)
      as [[[sc p] n]|e]; apply IH.
Qed.

Lemma rules_loop_raises df rules :
  forall rule_results total_score e,
    rules_loop df rules rule_results total_score = Raise e ->
    Exists (fun rule => ~ has_required_keys rule) rules.
Proof using Type.
  clear_unused.
  induction rules as [|rule rest IH]; intros rr ts e H; [discriminate|].
  unfold rules_loop in H. simpl in H.
  destruct (r_name rule) as [name|] eqn:En;
    [|left; unfold has_required_keys; rewrite En; tauto].
  destruct (r_column rule) as [column|] eqn:Ec;
    [|left; unfold has_required_keys; rewrite Ec; tauto].
  destruct (r_check rule) as [check_type|] eqn:Ek;
    [|left; unfold has_required_keys; rewrite Ek; tauto].
  simpl in H. right.
  destruct (negb (Py.mem column (columns df))); [now apply IH in H|].
  destruct (evaluate_rule df rule column check_type)
    as [[[sc p] n]|e']; now apply IH in H.
Qed.

Lemma mean_bounds (total : Q) (n : nat) :
  (0 < n)%nat -> 0 <= total -> total <= inject_Z (Z.of_nat n) ->
  0 <= total / inject_Z (Z.of_nat n) <= 1.
Proof.
  intros Hn H0 H1. pose proof (inject_nat_pos Hn) as Hpos. split.
  - apply Qle_shift_div_l; [assumption|]. now rewrite Qmult_0_l.
  - apply Qle_shift_div_r; [assumption|]. now rewrite Qmult_1_l.
Qed.

Lemma business_rules_score_bounds self df source_name b c :
  _validate_business_rules self df source_name = Ok (b, c) ->
  0 <= score c <= 1.
Proof.
  unfold _validate_business_rules.
  intros H. bind_inv H. destruct a as [rr ts].
  inversion H; subst; clear H. simpl.
  apply rules_loop_bounds in Ha.
  destruct (Py.get (rules (quality_config self)) []) as [|rule rest].
  - split; discriminate.
  - apply mean_bounds; [simpl; lia | lra | lra].
Qed.


(* ------------------------------------------------------------------ *)
(** ** The completeness scorer *)

(** On labels of the frame the loop never raises; it appends one entry per
    column and adds the column's ratio to the running total. *)
Lemma completeness_loop_spec df cols :
  (forall c, In c cols -> In c (columns df)) ->
  forall stats total,
    completeness_loop df cols stats total
    = Ok (stats ++ map (column_stat df) cols,
          fold_left Qplus (map (non_null_ratio df) cols) total).
Proof.
  induction cols as [|c cols IH]; intros Hin stats total; simpl.
  - now rewrite app_nil_r.
  - destruct (getitem_In df c) as (s & Hs); [apply Hin; now left|].
    assert (E1 : column_stat df c
                 = (c, mkColumnStat (ratio (notna_sum s) (len df))
                                    (notna_sum s) (len df)))
      by (unfold column_stat; now rewrite Hs).
    assert (E2 : non_null_ratio df c = ratio (notna_sum s) (len df))
      by (unfold non_null_ratio; now rewrite Hs).
    rewrite Hs, E1, E2. simpl.
    rewrite IH by (intros c' Hc'; apply Hin; now right).
    rewrite <- (app_assoc stats [_] _). reflexivity.
Qed.

Lemma fold_left_Qplus_ones (l : list Q) (acc : Q) :
  (forall x, In x l -> x == 1) ->
  fold_left Qplus l acc == acc + inject_Z (Z.of_nat (List.length l)).
Proof.
  revert acc. induction l as [|x l IH]; intros acc H.
  - simpl. change (inject_Z 0) with 0. lra.
  - cbn [fold_left List.length]. rewrite IH by (intros y Hy; apply H; now right).
    rewrite inject_nat_S. rewrite (H x (or_introl eq_refl)). lra.
Qed.

Lemma fold_left_Qplus_bounds (l : list Q) (acc : Q) :
  (forall x, In x l -> 0 <= x <= 1) ->
  acc <= fold_left Qplus l acc
  /\ fold_left Qplus l acc <= acc + inject_Z (Z.of_nat (List.length l)).
Proof.
  revert acc. induction l as [|x l IH]; intros acc H.
  - simpl. change (inject_Z 0) with 0. split; lra.
  - cbn [fold_left List.length]. rewrite inject_nat_S.
    pose proof (H x (or_introl eq_refl)) as Hx.
    destruct (IH (acc + x)) as [H1 H2]; [intros y Hy; apply H; now right|].
    split; lra.
Qed.

Lemma non_null_ratio_bounds df column : 0 <= non_null_ratio df column <= 1.
Proof.
  unfold non_null_ratio. destruct (getitem df column) as [s|e] eqn:E.
  - apply ratio_bounds. eapply notna_sum_le; eassumption.
  - split; [apply Qle_refl | discriminate].
Qed.

(** The completeness scorer is total, and its result is determined by the
    ratios of the business columns. *)
Lemma _validate_completeness_spec df :
  let score :=
    match business_columns df with
    | [] => 1
    | _ => mean (map (non_null_ratio df) (business_columns df))
    end in
  _validate_completeness df
  = Ok (Py.ge score (9 # 10),
        mkCheckResult (Py.ge score (9 # 10)) score None
          (ColumnCompleteness (map (column_stat df) (business_columns df)))
          "completeness").
Proof.
  unfold _validate_completeness.
  rewrite completeness_loop_spec
    by (intros c Hc; now apply business_columns_In in Hc).
  simpl. unfold mean, Py.sum. rewrite length_map.
  destruct (business_columns df); reflexivity.
Qed.

Lemma completeness_score_bounds df b c :
  _validate_completeness df = Ok (b, c) -> 0 <= score c <= 1.
Proof.
  rewrite _validate_completeness_spec. intros H. inversion H; subst; clear H.
  simpl. destruct (business_columns df) as [|c0 cols] eqn:E.
  - split; discriminate.
  - unfold mean, Py.sum.
    pose proof (@fold_left_Qplus_bounds
                  (map (non_null_ratio df) (c0 :: cols)) 0) as [H1 H2].
    { intros x Hx. apply in_map_iff in Hx. destruct Hx as (c & <- & _).
      apply non_null_ratio_bounds. }
    apply mean_bounds; [simpl; lia | lra | lra].
Qed.

(* ------------------------------------------------------------------ *)
(** ** The schema checker *)

Lemma _validate_schema_score df source_name :
  let c := snd (_validate_schema df source_name) in
  score c = (if passed c then 1 else 0)
  /\ fst (_validate_schema df source_name) = passed c.
Proof.
  unfold _validate_schema.
  destruct (validate_dataframe df source_name) as [[is_valid report]|e]; simpl.
  - destruct is_valid; split; reflexivity.
  - split; reflexivity.
Qed.

Lemma schema_score_bounds df source_name :
  0 <= score (snd (_validate_schema df source_name)) <= 1.
Proof.
  destruct (_validate_schema_score df source_name) as [E _]. rewrite E.
  destruct (passed _); split; discriminate.
Qed.

(* ------------------------------------------------------------------ *)
(** ** The consistency scorer *)

Lemma type_loop_total df cols :
  (forall c, In c cols -> In c (columns df)) ->
  forall type_consistency type_issues,
  exists out, type_loop df cols type_consistency type_issues = Ok out.
Proof.
  induction cols as [|c cols IH]; intros Hin tc ti; simpl; [eauto|].
  assert (Hin' : forall c', In c' cols -> In c' (columns df))
    by (intros c' Hc'; apply Hin; now right).
  destruct (Py.startswith c "_"); [now apply IH|].
  destruct (getitem_In df c) as (s & Hs); [apply Hin; now left|].
  rewrite Hs. simpl.
  destruct (is_object (dtype s)); [|now apply IH].
  destruct (1 <? _)%nat; now apply IH.
Qed.

Lemma duplicated_total df :
  has_business_column df ->
  exists mask, duplicated df (business_columns df) = Ok mask.
Proof.
  unfold duplicated. intros H.
  destruct (rows df) as [|r rs] eqn:Er; [destruct (header df); eauto|].
  destruct (header df) as [|c h] eqn:Eh; [eauto|].
  destruct H as [H|[H|H]]; [congruence|congruence|].
  destruct (@mapM_total _ _ (getitem df) (business_columns df)) as (cols & Hc).
  { intros x Hx. apply getitem_In. now apply business_columns_In in Hx. }
  rewrite Hc. simpl.
  destruct cols as [|s cols]; [|eauto].
  apply mapM_length in Hc. destruct (business_columns df); [tauto|discriminate].
Qed.

Lemma _validate_consistency_total df :
  has_business_column df ->
  exists b c, _validate_consistency df = Ok (b, c).
Proof.
  intros H. unfold _validate_consistency.
  destruct (duplicated_total H) as (mask & ->). simpl.
  destruct (@type_loop_total df (columns df) (fun c Hc => Hc) true [])
    as ([tc ti] & ->).
  simpl. eauto.
Qed.

(** The score is the number of passing sub-checks over two. *)
Lemma consistency_score_bounds df b c :
  _validate_consistency df = Ok (b, c) -> 0 <= score c <= 1.
Proof.
  unfold _validate_consistency. intros H. do 2 bind_inv H.
  destruct a0 as [tc ti]. inversion H; subst; clear H. simpl.
  apply truediv_bounds; [lia|].
  apply (count_le_length consistency_passed [_; _]).
Qed.

(* ------------------------------------------------------------------ *)
(** ** The freshness scorer *)

Lemma _validate_freshness_total df :
  ingestion_parses df -> exists b c, _validate_freshness df = Ok (b, c).
Proof.
  intros H. unfold _validate_freshness, ingestion_check.
  unfold ingestion_parses in H.
  destruct (Py.mem "_ingestion_timestamp" (columns df)) eqn:E.
  - destruct (getitem_mem _ _ E) as (s & Hs). rewrite Hs. simpl.
    destruct (H eq_refl s Hs) as (ts & ->). simpl.
    destruct (date_loop df (date_columns df) _); eauto.
  - simpl. destruct (date_loop df (date_columns df) _); eauto.
Qed.

Lemma freshness_score_bounds df b c :
  _validate_freshness df = Ok (b, c) -> 0 <= score c <= 1.
Proof.
  unfold _validate_freshness. intros H. bind_inv H.
  destruct (date_loop df (date_columns df) a) as [|fc fcs].
  - inversion H; subst. simpl. split; discriminate.
  - inversion H; subst; clear H. simpl.
    apply truediv_bounds; [simpl; lia|].
    apply (count_le_length freshness_passed (fc :: fcs)).
Qed.

(* ------------------------------------------------------------------ *)
(** ** Quarantine *)

Lemma select_rows_all (rs : list (list cell)) :
  select_rows rs (repeat true (List.length rs)) = rs.
Proof. induction rs as [|r rs IH]; simpl; [reflexivity | now rewrite IH]. Qed.

Lemma select_rows_none (rs : list (list cell)) :
  select_rows rs (repeat false (List.length rs)) = [].
Proof. induction rs as [|r rs IH]; simpl; [reflexivity | assumption]. Qed.

(** What [_quarantine_bad_data] returns and writes: everything when the
    schema check failed, nothing otherwise; the failed business rules are
    only logged. *)
Lemma _quarantine_bad_data_spec df validation_results source_name w :
  let log :=
    warnings w
    ++ failed_rule_warnings
         (get_rule_results (business_rules (checks validation_results))) in
  _quarantine_bad_data df validation_results source_name w
  = if passed (schema_validation (checks validation_results))
    then (0%nat, mkWorld (quarantine_files w) log)
    else (len df,
          if (0 <? len df)%nat
          then mkWorld (quarantine_files w
                        ++ [mkQuarantineRecord source_name utcnow df (len df)
                              (len df) validation_results])
                       (log ++ [Quarantined (len df) source_name utcnow])
          else mkWorld (quarantine_files w) log).
Proof.
  unfold _quarantine_bad_data, getitem_mask, len.
  destruct (passed (schema_validation (checks validation_results))); simpl.
  - now rewrite select_rows_none.
  - rewrite select_rows_all. destruct df as [h rs]; simpl.
    destruct rs; reflexivity.
Qed.

(* ------------------------------------------------------------------ *)
(** ** The aggregator *)

(** Everything a returned [validate_data] did. *)
Lemma validate_data_inv self df source w p r w' :
  validate_data self df source w = Ok (p, r, w') ->
  exists bv br cv cr kv kr fv fr,
    _validate_business_rules self df source = Ok (bv, br)
    /\ _validate_completeness df = Ok (cv, cr)
    /\ _validate_consistency df = Ok (kv, kr)
    /\ _validate_freshness df = Ok (fv, fr)
    /\ checks r = mkChecks (snd (_validate_schema df source)) br cr kr fr
    /\ overall_score r
       = mean [score (snd (_validate_schema df source)); score br; score cr;
               score kr; score fr]
    /\ vr_passed r
       = Py.ge (overall_score r)
               (Py.get (coverage_threshold (quality_config self)) (95 # 100))
    /\ p = vr_passed r
    /\ total_rows r = len df
    /\ source_name r = source
    /\ (quarantined_rows r, w')
       = if vr_passed r then (0%nat, w)
         else _quarantine_bad_data df
                (mkValidationResult source utcnow (len df) (checks r)
                                    (overall_score r) false 0)
                source w.
Proof.
  unfold validate_data. intros H.
  destruct (_validate_schema df source) as [sv sr].
  bind_inv H. destruct a as [bv br].
  bind_inv H. destruct a as [cv cr].
  bind_inv H. destruct a as [kv kr].
  bind_inv H. destruct a as [fv fr].
  exists bv, br, cv, cr, kv, kr, fv, fr.
  repeat (split; [assumption|]).
  cbv zeta in H.
  match type of H with
  | context [Py.ge ?o ?t] => set (overall := o) in *; set (thr := t) in *
  end.
  destruct (Py.ge overall thr) eqn:E; cbn [negb] in H.
  - inversion H; subst; clear H. simpl. rewrite E. repeat split.
  - match type of H with
    | context [_quarantine_bad_data ?d ?v ?s ?x] =>
        destruct (_quarantine_bad_data d v s x) as [n wq] eqn:Eq
    end.
    inversion H; subst; clear H. simpl. rewrite E. repeat split.
    now rewrite Eq.
Qed.

(** [validate_data] returns on every input on which the three checkers
    that can raise do return. *)
Lemma validate_data_returns self df source w :
  Forall has_required_keys (Py.get (rules (quality_config self)) []) ->
  has_business_column df ->
  ingestion_parses df ->
  exists p r w', validate_data self df source w = Ok (p, r, w').
Proof.
  intros Hr Hb Hi. unfold validate_data.
  destruct (_validate_schema df source) as [sv sr].
  unfold _validate_business_rules.
  destruct (rules_loop_total df Hr [] 0) as ([rr ts] & ->). cbn [Py.bind].
  rewrite _validate_completeness_spec. cbv zeta. cbn [Py.bind].
  destruct (_validate_consistency_total Hb) as (kv & kr & ->). cbn [Py.bind].
  destruct (_validate_freshness_total Hi) as (fv & fr & ->). cbn [Py.bind].
  match goal with |- context [negb ?b] => destruct b end; cbn [negb]; [eauto|].
  match goal with
  | |- context [_quarantine_bad_data ?d ?v ?s ?x] =>
      destruct (_quarantine_bad_data d v s x)
  end.
  eauto.
Qed.

Lemma mean5 (a b c d e : Q) : mean [a; b; c; d; e] == (a + b + c + d + e) / 5.
Proof.
  unfold mean, Py.sum. simpl. change (inject_Z 5) with 5. field.
Qed.

Lemma mean5_bounds (a b c d e : Q) :
  0 <= a <= 1 -> 0 <= b <= 1 -> 0 <= c <= 1 -> 0 <= d <= 1 -> 0 <= e <= 1 ->
  0 <= mean [a; b; c; d; e] <= 1.
Proof.
  intros Ha Hb Hc Hd He. rewrite mean5. split.
  - apply Qle_shift_div_l; [reflexivity | lra].
  - apply Qle_shift_div_r; [reflexivity | lra].
Qed.

Lemma ge_iff (x y : Q) : Py.ge x y = true <-> y <= x.
Proof. unfold Py.ge. apply Qle_bool_iff. Qed.

(* ------------------------------------------------------------------ *)
(** ** Properties of the aggregate result *)

(** C1.  Whenever [validate_data] returns, the five entries of [checks] are
    the results of the five checkers on the dataset, [overall_score] is the
    arithmetic mean of their five scores with equal weights, and it lies
    between 0 and 1. *)
Theorem overall_score_is_mean self df source w p r w' :
  validate_data self df source w = Ok (p, r, w') ->
  let c := checks r in
  schema_validation c = snd (_validate_schema df source)
  /\ (exists b, _validate_business_rules self df source = Ok (b, business_rules c))
  /\ (exists b, _validate_completeness df = Ok (b, completeness_check c))
  /\ (exists b, _validate_consistency df = Ok (b, consistency c))
  /\ (exists b, _validate_freshness df = Ok (b, freshness c))
  /\ overall_score r
     == (score (schema_validation c) + score (business_rules c)
         + score (completeness_check c) + score (consistency c)
         + score (freshness c)) / 5
  /\ 0 <= overall_score r <= 1.
Proof.
  intros H. apply validate_data_inv in H.
  destruct H as (bv & br & cv & cr & kv & kr & fv & fr
                 & Hb & Hc & Hk & Hf & Hchecks & Hscore & _).
  cbv zeta. rewrite Hchecks, Hscore. cbn [schema_validation business_rules
    completeness_check consistency freshness].
  split; [reflexivity|].
  split; [now exists bv|]. split; [now exists cv|].
  split; [now exists kv|]. split; [now exists fv|].
  split; [apply mean5|].
  apply mean5_bounds.
  - apply schema_score_bounds.
  - eapply business_rules_score_bounds; eassumption.
  - eapply completeness_score_bounds; eassumption.
  - eapply consistency_score_bounds; eassumption.
  - eapply freshness_score_bounds; eassumption.
Qed.

(** C6.  Whenever [validate_data] returns, the aggregate [passed] flag (and
    the boolean returned with the result) is true exactly when
    [overall_score >= coverage_threshold], the threshold being the
    configured one, or 0.95 when none is configured. *)
Theorem passed_iff_score_reaches_threshold self df source w p r w' :
  validate_data self df source w = Ok (p, r, w') ->
  p = vr_passed r
  /\ (forall t, coverage_threshold (quality_config self) = Some t ->
                (vr_passed r = true <-> t <= overall_score r))
  /\ (coverage_threshold (quality_config self) = None ->
      (vr_passed r = true <-> 95 # 100 <= overall_score r)).
Proof.
  intros H. apply validate_data_inv in H.
  destruct H as (bv & br & cv & cr & kv & kr & fv & fr
                 & _ & _ & _ & _ & _ & _ & Hp & Hret & _).
  split; [assumption|]. rewrite Hp. split.
  - intros t ->. apply ge_iff.
  - intros ->. apply ge_iff.
Qed.

(** C2.  Whenever [validate_data] returns a failing result, quarantine
    depends on the schema check alone: if the schema check failed, every
    row is quarantined ([quarantined_rows = total_rows], and a non-empty
    dataset is written whole to the quarantine store, with the validation
    results as the reason); if the schema check passed,
    [quarantined_rows = 0] and nothing is written, whatever the other four
    checks say: the failed business rules are only logged. *)
Theorem quarantine_only_on_schema_failure self df source w p r w' :
  validate_data self df source w = Ok (p, r, w') ->
  vr_passed r = false ->
  (passed (schema_validation (checks r)) = false ->
   quarantined_rows r = total_rows r
   /\ ((0 < total_rows r)%nat ->
       quarantine_files w'
       = quarantine_files w
         ++ [mkQuarantineRecord source utcnow df (total_rows r) (total_rows r)
               (mkValidationResult source utcnow (total_rows r) (checks r)
                                   (overall_score r) false 0)]))
  /\ (passed (schema_validation (checks r)) = true ->
      quarantined_rows r = 0%nat
      /\ quarantine_files w' = quarantine_files w
      /\ warnings w'
         = warnings w
           ++ failed_rule_warnings
                (get_rule_results (business_rules (checks r)))).
Proof.
  intros H Hfail. apply validate_data_inv in H.
  destruct H as (bv & br & cv & cr & kv & kr & fv & fr
                 & _ & _ & _ & _ & _ & _ & _ & _ & Hrows & _ & Hq).
  rewrite Hfail, _quarantine_bad_data_spec in Hq. cbn [checks] in Hq.
  rewrite Hrows.
  destruct (passed (schema_validation (checks r))).
  - inversion Hq; subst; clear Hq. cbn [quarantine_files warnings].
    split; [discriminate|]. intros _. repeat split.
  - split; [|discriminate].
    intros _. split; [now inversion Hq|]. intros Hpos.
    apply Nat.ltb_lt in Hpos. rewrite Hpos in Hq.
    inversion Hq; subst; clear Hq. reflexivity.
Qed.

(** C10.  Whenever [validate_data] returns, the number of quarantined rows
    it reports is 0 or the number of rows of the dataset. *)
Theorem quarantine_all_or_nothing self df source w p r w' :
  validate_data self df source w = Ok (p, r, w') ->
  quarantined_rows r = 0%nat \/ quarantined_rows r = total_rows r.
Proof.
  intros H. apply validate_data_inv in H.
  destruct H as (bv & br & cv & cr & kv & kr & fv & fr
                 & _ & _ & _ & _ & _ & _ & _ & _ & Hrows & _ & Hq).
  rewrite Hrows. destruct (vr_passed r).
  - left. now inversion Hq.
  - rewrite _quarantine_bad_data_spec in Hq.
    destruct (passed _); [left | right]; now inversion Hq.
Qed.

(* ------------------------------------------------------------------ *)
(** ** Properties of the business rule engine *)

Lemma getitem_Ok_mem df column s :
  getitem df column = Ok s -> Py.mem column (columns df) = true.
Proof.
  intros H. destruct (Py.mem column (columns df)) eqn:E; [reflexivity|].
  unfold getitem, columns in *.
  now rewrite (find_column_not_mem _ _ 0 E) in H.
Qed.

(** One step of the loop on a rule with its three keys, on an existing
    column. *)
Lemma rules_loop_single df rule name column check_type s :
  r_name rule = Some name ->
  r_column rule = Some column ->
  r_check rule = Some check_type ->
  getitem df column = Ok s ->
  rules_loop df [rule] [] 0
  = match evaluate_rule df rule column check_type with
    | Ok (score, passed_rows, total_rows) =>
        Ok ([RuleScored name (Py.ge score (95 # 100)) score
                        passed_rows total_rows], 0 + score)
    | Raise e => Ok ([RuleFailed name (Py.str e)], 0)
    end.
Proof.
  intros Hn Hc Hk Hs. simpl. rewrite Hn, Hc, Hk. simpl.
  rewrite (getitem_Ok_mem _ _ Hs). simpl.
  destruct (evaluate_rule df rule column check_type) as [[[sc p] n]|e];
    reflexivity.
Qed.

Lemma notna_isna_sum (s : Series) :
  (notna_sum s + isna_sum s = List.length (values s))%nat.
Proof.
  unfold notna_sum, isna_sum, Py.count.
  induction (values s) as [|c l IH]; simpl; [reflexivity|].
  destruct (notna c); simpl; lia.
Qed.

(** C7.  With an empty rule list (configured empty, or not configured at
    all) the business rule engine returns score exactly 1.0 and
    [passed = true], for every dataset. *)
Theorem no_rules_vacuous_pass self df source :
  Py.get (rules (quality_config self)) [] = [] ->
  _validate_business_rules self df source
  = Ok (true, mkCheckResult true 1 None (RuleResults []) "business_rules").
Proof.
  intros H. unfold _validate_business_rules. rewrite H. reflexivity.
Qed.

(** In binary64 the quotient 95/100 is the literal 0.95 and passes, 94/100
    fails; on 100 rows the binary64 pass flag is the one of the rational
    model for every count of passing rows. *)
Lemma binary64_boundary :
  PrimFloat.eqb (Binary64.ratio 95 100) Binary64.literal_0_95 = true
  /\ Binary64.rule_passed (Binary64.ratio 95 100) = true
  /\ Binary64.rule_passed (Binary64.ratio 94 100) = false
  /\ forallb (fun passed_rows =>
                Bool.eqb (Binary64.rule_passed (Binary64.ratio passed_rows 100))
                         (Py.ge (ratio passed_rows 100) (95 # 100)))
             (seq 0 101) = true.
Proof. repeat split; vm_compute; reflexivity. Qed.

(** C8.  A [not_null] rule on an existing column scores the ratio of
    non-null rows; its [passed] flag is [score >= 0.95], equality
    included.  With 100 rows of which exactly 5 are null the score is 0.95
    and the rule passes; with 94 non-null rows out of 100 it fails. *)
Theorem not_null_rule_boundary df rule name column s :
  r_name rule = Some name ->
  r_column rule = Some column ->
  r_check rule = Some "not_null"%string ->
  getitem df column = Ok s ->
  let sc := ratio (notna_sum s) (len df) in
  rules_loop df [rule] [] 0
  = Ok ([RuleScored name (Py.ge sc (95 # 100)) sc (notna_sum s) (len df)],
        0 + sc)
  /\ (Py.ge sc (95 # 100) = true <-> 95 # 100 <= sc)
  /\ (len df = 100%nat -> isna_sum s = 5%nat ->
      sc == 95 # 100 /\ Py.ge sc (95 # 100) = true)
  /\ (len df = 100%nat -> notna_sum s = 94%nat ->
      Py.ge sc (95 # 100) = false).
Proof.
  intros Hn Hc Hk Hs sc. split.
  - rewrite (@rules_loop_single df rule name column _ s Hn Hc Hk Hs).
    unfold evaluate_rule. simpl. rewrite Hs. reflexivity.
  - split; [apply ge_iff|]. split.
    + intros Hlen Hna.
      assert (E : notna_sum s = 95%nat).
      { pose proof (notna_isna_sum s) as Hsum.
        rewrite (getitem_length _ _ Hs), Hlen, Hna in Hsum. lia. }
      subst sc. rewrite Hlen, E. split; reflexivity.
    + intros Hlen E. subst sc. rewrite Hlen, E. reflexivity.
Qed.

(** [s > value] on a column of numbers and nulls. *)
Lemma gt_numeric s value :
  forallb numeric_or_null (values s) = true ->
  gt s value = Ok (map (exceeds value) (values s)).
Proof.
  unfold gt. induction (values s) as [|c l IH]; simpl; [reflexivity|].
  intros H. apply andb_true_iff in H. destruct H as [Hc Hl].
  rewrite (IH Hl). destruct c; try discriminate; reflexivity.
Qed.

(** [s > value] on a column holding a string or a timestamp. *)
Lemma gt_not_numeric s value :
  forallb numeric_or_null (values s) = false ->
  exists msg, gt s value = Raise (TypeError msg).
Proof.
  unfold gt. induction (values s) as [|c l IH]; simpl; [discriminate|].
  intros H. apply andb_false_iff in H.
  destruct c; cbn [numeric_or_null gt_scalar Py.bind] in *;
    try (eexists; reflexivity);
    (destruct H as [H|H]; [discriminate|]);
    destruct (IH H) as (msg & E); rewrite E; cbn [Py.bind]; eauto.
Qed.

Lemma count_map (A B : Type) (f : A -> B) (p : B -> bool) (l : list A) :
  Py.count p (map f l) = Py.count (fun x => p (f x)) l.
Proof.
  unfold Py.count. induction l as [|x l IH]; simpl; [reflexivity|].
  destruct (p (f x)); simpl; now rewrite IH.
Qed.

(** C5 (amended).  A [greater_than] rule on an existing column whose values
    are all numbers or nulls scores the fraction of rows whose value is
    strictly greater than [rule.value], nulls counting as failing rows.  On
    a column holding a string or a timestamp the comparison raises inside
    the rule's [try]: the rule is recorded as failed with the error
    message, without a score, and adds nothing to the engine's total; no
    exception leaves the loop. *)
Theorem greater_than_rule_score df rule name column value s :
  r_name rule = Some name ->
  r_column rule = Some column ->
  r_check rule = Some "greater_than"%string ->
  r_value rule = Some value ->
  getitem df column = Ok s ->
  (forallb numeric_or_null (values s) = true ->
   let passed_rows := Py.count (exceeds value) (values s) in
   let sc := ratio passed_rows (len df) in
   rules_loop df [rule] [] 0
   = Ok ([RuleScored name (Py.ge sc (95 # 100)) sc passed_rows (len df)],
         0 + sc))
  /\ (forallb numeric_or_null (values s) = false ->
      exists msg, rules_loop df [rule] [] 0 = Ok ([RuleFailed name msg], 0)).
Proof.
  intros Hn Hc Hk Hv Hs.
  rewrite (@rules_loop_single df rule name column _ s Hn Hc Hk Hs).
  unfold evaluate_rule. simpl. rewrite Hv, Hs. simpl. split.
  - intros Hnum. rewrite (gt_numeric _ value Hnum). simpl.
    unfold sum_bool. rewrite count_map. reflexivity.
  - intros Hnum. destruct (gt_not_numeric _ value Hnum) as (msg & ->).
    simpl. eauto.
Qed.

(* ------------------------------------------------------------------ *)
(** ** Properties of the completeness scorer *)

Lemma non_null_ratio_no_nulls df column s :
  (0 < len df)%nat -> getitem df column = Ok s -> isna_sum s = 0%nat ->
  non_null_ratio df column == 1.
Proof.
  intros Hpos Hs Hna. unfold non_null_ratio. rewrite Hs.
  pose proof (notna_isna_sum s) as Hsum.
  rewrite (getitem_length _ _ Hs), Hna, Nat.add_0_r in Hsum.
  rewrite Hsum. now apply ratio_full.
Qed.

Lemma mean_ones (l : list Q) :
  l <> [] -> (forall x, In x l -> x == 1) -> mean l == 1.
Proof.
  intros Hne H. unfold mean, Py.sum.
  rewrite (fold_left_Qplus_ones l 0 H), Qplus_0_l.
  unfold Qdiv. apply Qmult_inv_r.
  assert (Hpos : 0 < inject_Z (Z.of_nat (List.length l)))
    by (apply inject_nat_pos; destruct l; [congruence | simpl; lia]).
  intros E. rewrite E in Hpos. now apply Qlt_irrefl in Hpos.
Qed.

(** C9.  The completeness scorer returns on every dataset.  Its score is
    the mean, over the business columns, of each column's non-null ratio
    (1.0 when there is no business column), and [passed] is
    [score >= 0.90].  When every business column has non-null ratio 1, in
    particular when the dataset has rows and no business column holds a
    null, the score is 1.0. *)
Theorem completeness_is_mean_of_ratios df :
  exists r,
    _validate_completeness df = Ok (passed r, r)
    /\ (business_columns df <> [] ->
        score r = mean (map (non_null_ratio df) (business_columns df)))
    /\ (business_columns df = [] -> score r = 1)
    /\ (passed r = true <-> 9 # 10 <= score r)
    /\ ((forall column, In column (business_columns df) ->
                        non_null_ratio df column == 1) ->
        score r == 1)
    /\ ((0 < len df)%nat ->
        (forall column s, In column (business_columns df) ->
                          getitem df column = Ok s -> isna_sum s = 0%nat) ->
        score r == 1).
Proof.
  pose proof (_validate_completeness_spec df) as Hspec. cbv zeta in Hspec.
  match type of Hspec with _ = Ok (_, ?c) => exists c end.
  split; [exact Hspec|]. clear Hspec.
  cbn [score passed].
  assert (Hall : (forall column, In column (business_columns df) ->
                                 non_null_ratio df column == 1) ->
                 match business_columns df with
                 | [] => 1
                 | _ :: _ => mean (map (non_null_ratio df) (business_columns df))
                 end == 1).
  { intros H. destruct (business_columns df) as [|c cols] eqn:E; [reflexivity|].
    apply mean_ones; [discriminate|].
    intros x Hx. apply in_map_iff in Hx. destruct Hx as (c' & <- & Hc').
    now apply H. }
  split; [|split; [|split; [|split]]].
  - destruct (business_columns df); [congruence | reflexivity].
  - now intros ->.
  - apply ge_iff.
  - exact Hall.
  - intros Hpos Hnn. apply Hall. intros column Hin.
    destruct (getitem_In df column) as (s & Hs);
      [now apply business_columns_In in Hin|].
    eapply non_null_ratio_no_nulls; eauto.
Qed.

(** A dataset without rows scores 0 on every business column: the ratio of
    an empty column is 0, not 1. *)
Lemma non_null_ratio_no_rows df column :
  len df = 0%nat -> non_null_ratio df column == 0.
Proof.
  intros H. unfold non_null_ratio, ratio. rewrite H.
  destruct (getitem df column); reflexivity.
Qed.

(* ------------------------------------------------------------------ *)
(** ** Malformed rules *)

(** C3.  A rule without the key ["name"] makes [validate_data] raise
    [KeyError]: the lookup is at the head of the loop body, outside the
    [try], and nothing between it and the caller of [validate_data] catches
    the exception. *)
Theorem rule_without_name_raises threshold df source w :
  validate_data
    (mkValidator
       (mkQualityConfig threshold
          (Some [mkRule None (Some "amount"%string) (Some "not_null"%string)
                        None None None])))
    df source w
  = Raise (KeyError "name").
Proof.
  unfold validate_data. destruct (_validate_schema df source). reflexivity.
Qed.

(** The same happens for ["column"] and ["check"], and in general as soon
    as the business rule engine raises. *)
Lemma validate_data_raises_with_rules self df source w e :
  _validate_business_rules self df source = Raise e ->
  validate_data self df source w = Raise e.
Proof.
  intros H. unfold validate_data. destruct (_validate_schema df source).
  now rewrite H.
Qed.

(** An ingestion timestamp that cannot be converted makes the freshness
    scorer raise: the conversion is not inside a [try]. *)
Lemma ingestion_check_raises df s e :
  getitem df "_ingestion_timestamp" = Ok s ->
  to_datetime s = Raise e ->
  _validate_freshness df = Raise e.
Proof.
  intros Hs Ht. unfold _validate_freshness, ingestion_check.
  rewrite (getitem_Ok_mem _ _ Hs), Hs. simpl. now rewrite Ht.
Qed.

(* ------------------------------------------------------------------ *)
(** ** Metadata columns *)

Lemma same_business_columns df1 df2 :
  same_business_data df1 df2 ->
  columns df1 = columns df2 /\ business_columns df1 = business_columns df2.
Proof.
  intros (Hh & _ & _). unfold business_columns, columns. now rewrite Hh.
Qed.

Lemma same_business_stats df1 df2 column :
  same_business_data df1 df2 ->
  Py.startswith column "_" = false ->
  non_null_ratio df1 column = non_null_ratio df2 column
  /\ column_stat df1 column = column_stat df2 column.
Proof.
  intros (_ & Hlen & Hget) Hb.
  unfold non_null_ratio, column_stat. now rewrite (Hget _ Hb), Hlen.
Qed.

Lemma same_business_completeness df1 df2 :
  same_business_data df1 df2 ->
  _validate_completeness df1 = _validate_completeness df2.
Proof.
  intros H. rewrite !_validate_completeness_spec. cbv zeta.
  destruct (same_business_columns H) as [_ <-].
  assert (E1 : map (non_null_ratio df1) (business_columns df1)
               = map (non_null_ratio df2) (business_columns df1)).
  { apply map_ext_in. intros c Hc. apply business_columns_In in Hc.
    now apply same_business_stats. }
  assert (E2 : map (column_stat df1) (business_columns df1)
               = map (column_stat df2) (business_columns df1)).
  { apply map_ext_in. intros c Hc. apply business_columns_In in Hc.
    now apply same_business_stats. }
  now rewrite E1, E2.
Qed.

Lemma same_business_duplicated df1 df2 :
  same_business_data df1 df2 ->
  duplicated df1 (business_columns df1) = duplicated df2 (business_columns df2).
Proof.
  intros H. destruct (same_business_columns H) as [_ <-].
  destruct H as (Hh & Hlen & Hget). unfold duplicated.
  rewrite <- Hh, <- Hlen.
  assert (E : Py.mapM (getitem df1) (business_columns df1)
              = Py.mapM (getitem df2) (business_columns df1)).
  { apply mapM_ext_in. intros c Hc. apply business_columns_In in Hc.
    now apply Hget. }
  rewrite <- E. unfold len in Hlen.
  destruct (rows df1), (rows df2); try discriminate; reflexivity.
Qed.

Lemma same_business_type_loop df1 df2 cols :
  same_business_data df1 df2 ->
  forall type_consistency type_issues,
    type_loop df1 cols type_consistency type_issues
    = type_loop df2 cols type_consistency type_issues.
Proof.
  intros (_ & _ & Hget).
  induction cols as [|c cols IH]; intros tc ti; simpl; [reflexivity|].
  destruct (Py.startswith c "_") eqn:E; [apply IH|].
  rewrite (Hget _ E). destruct (getitem df2 c) as [s|e]; simpl; [|reflexivity].
  destruct (is_object (dtype s)); [|apply IH].
  destruct (1 <? _)%nat; apply IH.
Qed.

Lemma same_business_consistency df1 df2 :
  same_business_data df1 df2 ->
  _validate_consistency df1 = _validate_consistency df2.
Proof.
  intros H. unfold _validate_consistency.
  rewrite (same_business_duplicated H), (@same_business_type_loop df1 df2 _ H).
  destruct (same_business_columns H) as [<- _].
  destruct H as (_ & <- & _). reflexivity.
Qed.

Lemma same_business_evaluate_rule df1 df2 rule column check_type :
  same_business_data df1 df2 ->
  Py.startswith column "_" = false ->
  evaluate_rule df1 rule column check_type
  = evaluate_rule df2 rule column check_type.
Proof.
  intros (_ & Hlen & Hget) Hb. unfold evaluate_rule.
  now rewrite (Hget _ Hb), Hlen.
Qed.

Lemma same_business_rules_loop df1 df2 rules :
  same_business_data df1 df2 ->
  Forall on_business_column rules ->
  forall rule_results total_score,
    rules_loop df1 rules rule_results total_score
    = rules_loop df2 rules rule_results total_score.
Proof.
  intros H. induction 1 as [|rule rest Hrule _ IH]; intros rr ts;
    [reflexivity|].
  simpl. destruct (r_name rule) as [name|]; [|reflexivity].
  destruct (r_column rule) as [column|] eqn:Ec; [|reflexivity].
  destruct (r_check rule) as [check_type|]; [|reflexivity].
  simpl. destruct (same_business_columns H) as [<- _].
  rewrite (@same_business_evaluate_rule df1 df2 rule column check_type H
             (Hrule _ Ec)).
  destruct (negb _); [apply IH|].
  destruct (evaluate_rule df2 rule column check_type) as [[[sc p] n]|e];
    apply IH.
Qed.

(** C4 (amended).  Two datasets that differ only in the values of their
    metadata columns get the same completeness result and the same
    consistency result; they get the same business-rule result provided no
    configured rule names a metadata column.  (The business rule engine
    evaluates the column each rule names and does not look at the
    underscore prefix.) *)
Theorem metadata_values_do_not_influence self df1 df2 source :
  same_business_data df1 df2 ->
  _validate_completeness df1 = _validate_completeness df2
  /\ _validate_consistency df1 = _validate_consistency df2
  /\ (Forall on_business_column (Py.get (rules (quality_config self)) []) ->
      _validate_business_rules self df1 source
      = _validate_business_rules self df2 source).
Proof.
  intros H. split; [now apply same_business_completeness|].
  split; [now apply same_business_consistency|].
  intros Hrules. unfold _validate_business_rules.
  now rewrite (same_business_rules_loop H Hrules).
Qed.
(* ------------------------------------------------------------------ *)
(** ** The schema manager and the schema checker *)


(** [validate_dataframe] returns [True] exactly when a schema is stored
    and pandera accepts the frame. *)
Lemma validate_dataframe_valid_iff df schema_name report :
  validate_dataframe df schema_name = Ok (true, report) <->
  exists sv u, load_schema schema_name = Ok (Some sv)
               /\ pandera_validate sv df = Ok u
               /\ report = SchemaValid (len df) (version sv).
Proof.
  unfold validate_dataframe.
  destruct (load_schema schema_name) as [[sv|]|e0]; cbn [Py.bind].
  - destruct (pandera_validate sv df) as [u|e1] eqn:Ep.
    + split.
      * intros H. inversion H; subst. exists sv, u. auto.
      * intros (sv' & u' & Hsv & _ & ->). inversion Hsv; subst. reflexivity.
    + split.
      * destruct (is_SchemaError e1); discriminate.
      * intros (sv' & u' & Hsv & Hu & _). inversion Hsv; subst. congruence.
  - split; [discriminate|]. intros (sv' & u' & Hsv & _). discriminate.
  - split; [discriminate|]. intros (sv' & u' & Hsv & _). discriminate.
Qed.

(** X2.  [_validate_schema] never raises: whatever the schema manager raises
    becomes a failed result carrying the message.  The score is 1 when the
    check passes and 0 otherwise, and the check passes exactly when a schema
    is stored and pandera accepts the frame. *)
Theorem _validate_schema_absorbs_errors df source :
  let c := snd (_validate_schema df source) in
  fst (_validate_schema df source) = passed c
  /\ score c = (if passed c then 1 else 0)
  /\ (passed c = true <->
      exists sv u, load_schema source = Ok (Some sv)
                   /\ pandera_validate sv df = Ok u)
  /\ (forall e, validate_dataframe df source = Raise e ->
                c = mkCheckResult false 0 (Some (Py.str e)) NoDetails
                                  "schema_validation")
  /\ (forall report, validate_dataframe df source = Ok (false, report) ->
                     c = mkCheckResult false 0 None (SchemaDetails report)
                                       "schema_validation").
Proof.
  cbv zeta. destruct (_validate_schema_score df source) as [Hs Hf].
  cbv zeta in Hs, Hf. split; [exact Hf|]. split; [exact Hs|].
  pose proof (validate_dataframe_valid_iff df source) as Hvalid.
  unfold _validate_schema.
  destruct (validate_dataframe df source) as [[is_valid report]|e];
    cbn [snd passed].
  - split; [|split; [discriminate|]].
    + split.
      * intros ->.
        destruct (proj1 (Hvalid report) eq_refl) as (sv & u & H1 & H2 & _).
        eauto.
      * intros (sv & u & H1 & H2).
        assert (H : Ok (is_valid, report)
                    = Ok (true, SchemaValid (len df) (version sv)))
          by (apply Hvalid; eauto).
        now inversion H.
    + intros report' H. inversion H; subst. reflexivity.
  - split; [|split; [|discriminate]].
    + split; [discriminate|].
      intros (sv & u & H1 & H2).
      assert (H : @Raise (bool * SchemaReport) e
                  = Ok (true, SchemaValid (len df) (version sv)))
        by (apply Hvalid; eauto).
      discriminate.
    + intros e' H. now inversion H.
Qed.

(* ------------------------------------------------------------------ *)
(** ** More on the business rule engine *)

Lemma subscript_Ok (A : Type) (field : option A) (key : string) (v : A) :
  Py.subscript field key = Ok v -> field = Some v.
Proof. destruct field; simpl; intros H; now inversion H. Qed.

Lemma sum_acc (l : list Q) (acc : Q) :
  fold_left Qplus l acc == acc + Py.sum l.
Proof.
  unfold Py.sum. revert acc. induction l as [|x l IH]; intros acc; simpl.
  - lra.
  - rewrite (IH (acc + x)), (IH (0 + x)). lra.
Qed.

Lemma sum_cons (x : Q) (l : list Q) : Py.sum (x :: l) == x + Py.sum l.
Proof. unfold Py.sum at 1. simpl. rewrite sum_acc. lra. Qed.

(** What the loop appends: one entry per rule, in order, under the rule's
    name; the running total grows by the scores of the scored entries. *)
Lemma rules_loop_entries df rules :
  forall rule_results total_score rule_results' total_score',
    rules_loop df rules rule_results total_score
    = Ok (rule_results', total_score') ->
    exists entries,
      rule_results' = rule_results ++ entries
      /\ map rule_of entries = map name_of rules
      /\ Forall entry_well_formed entries
      /\ total_score' == total_score + Py.sum (map entry_score entries).
Proof.
  induction rules as [|rule rest IH]; intros rr ts rr' ts' H.
  - inversion H; subst. exists []. rewrite app_nil_r.
    repeat split; [constructor | unfold Py.sum; simpl; lra].
  - simpl in H. do 3 bind_inv H.
    apply subscript_Ok in Ha. unfold name_of at 1. cbn [map]. rewrite Ha.
    cbn [Py.get].
    destruct (negb (Py.mem a0 (columns df))).
    + apply IH in H. destruct H as (new & -> & Hn & Hwf & Hts).
      exists (RuleFailed a ("Column " ++ a0 ++ " not found") :: new).
      rewrite <- app_assoc. split; [reflexivity|].
      split; [simpl; now rewrite Hn|].
      split; [constructor; [exact I | assumption]|].
      cbn [map entry_score]. rewrite sum_cons. lra.
    + destruct (evaluate_rule df rule a0 a1) as [[[sc p] n]|e] eqn:E.
      * apply IH in H. destruct H as (new & -> & Hn & Hwf & Hts).
        exists (RuleScored a (Py.ge sc (95 # 100)) sc p n :: new).
        rewrite <- app_assoc. split; [reflexivity|].
        split; [simpl; now rewrite Hn|].
        split.
        { constructor; [|assumption]. split; [reflexivity|].
          eapply evaluate_rule_bounds; eassumption. }
        cbn [map entry_score]. rewrite sum_cons. lra.
      * apply IH in H. destruct H as (new & -> & Hn & Hwf & Hts).
        exists (RuleFailed a (Py.str e) :: new).
        rewrite <- app_assoc. split; [reflexivity|].
        split; [simpl; now rewrite Hn|].
        split; [constructor; [exact I | assumption]|].
        cbn [map entry_score]. rewrite sum_cons. lra.
Qed.

(** The only exceptions of the loop are the [KeyError]s of the three
    lookups at the head of its body. *)
Lemma rules_loop_raises_KeyError df rules :
  forall rule_results total_score e,
    rules_loop df rules rule_results total_score = Raise e ->
    e = KeyError "name" \/ e = KeyError "column" \/ e = KeyError "check".
Proof.
  induction rules as [|rule rest IH]; intros rr ts e H; [discriminate|].
  simpl in H.
  destruct (r_name rule) as [name|];
    [|inversion H; auto].
  destruct (r_column rule) as [column|];
    [|inversion H; auto].
  destruct (r_check rule) as [check_type|];
    [|inversion H; auto].
  simpl in H.
  destruct (negb (Py.mem column (columns df))); [now apply IH in H|].
  destruct (evaluate_rule df rule column check_type) as [[[sc p] n]|e'];
    now apply IH in H.
Qed.

(** The loop returns only on rules that have their three keys. *)
Lemma rules_loop_returns_keys df rules :
  forall rule_results total_score out,
    rules_loop df rules rule_results total_score = Ok out ->
    Forall has_required_keys rules.
Proof.
  induction rules as [|rule rest IH]; intros rr ts out H; [constructor|].
  simpl in H. do 3 bind_inv H.
  apply subscript_Ok in Ha, Ha0, Ha1. constructor.
  { unfold has_required_keys. rewrite Ha, Ha0, Ha1.
    repeat split; discriminate. }
  destruct (negb (Py.mem a0 (columns df))); [eapply IH; eassumption|].
  destruct (evaluate_rule df rule a0 a1) as [[[sc p] n]|e];
    eapply IH; eassumption.
Qed.

(** X3.  The business rule engine returns exactly when every configured rule
    has the keys ["name"], ["column"] and ["check"]; otherwise it raises
    the [KeyError] of one of these three keys.  No other key and no value
    of the dataset can make it raise. *)
Theorem business_rules_raise_only_on_missing_key self df source :
  let rules := Py.get (rules (quality_config self)) [] in
  (Forall has_required_keys rules <->
   exists b c, _validate_business_rules self df source = Ok (b, c))
  /\ (forall e, _validate_business_rules self df source = Raise e ->
                (e = KeyError "name" \/ e = KeyError "column"
                 \/ e = KeyError "check")
                /\ Exists (fun rule => ~ has_required_keys rule) rules).
Proof using Type.
  clear_unused.
  cbv zeta. unfold _validate_business_rules.
  destruct (rules_loop df (Py.get (rules (quality_config self)) []) [] 0)
    as [[rr ts]|e] eqn:E; cbn [Py.bind].
  - split; [|discriminate]. split; [eauto|]. intros _.
    eapply rules_loop_returns_keys; eassumption.
  - split.
    + split.
      * intros Hall. destruct (rules_loop_total df Hall [] 0) as (out & Hout).
        rewrite Hout in E. discriminate.
      * intros (b & c & H). discriminate.
    + intros e' H. inversion H; subst. split.
      * eapply rules_loop_raises_KeyError; eassumption.
      * eapply rules_loop_raises; eassumption.
Qed.

(** What a returned [_validate_business_rules] computed. *)
Lemma _validate_business_rules_inv self df source b c :
  _validate_business_rules self df source = Ok (b, c) ->
  let rules := Py.get (rules (quality_config self)) [] in
  exists entries,
    details c = RuleResults entries
    /\ map rule_of entries = map name_of rules
    /\ Forall entry_well_formed entries
    /\ (rules <> [] ->
        score c == Py.sum (map entry_score entries)
                   / inject_Z (Z.of_nat (List.length rules)))
    /\ b = passed c
    /\ (passed c = true <-> 95 # 100 <= score c).
Proof.
  unfold _validate_business_rules. intros H. bind_inv H.
  destruct a as [rr ts]. inversion H; subst; clear H. cbv zeta.
  apply rules_loop_entries in Ha.
  destruct Ha as (entries & Hrr & Hnames & Hwf & Hts).
  simpl in Hrr. subst rr. exists entries. cbn [details score passed].
  split; [reflexivity|]. split; [assumption|]. split; [assumption|].
  split; [|split; [reflexivity | apply ge_iff]].
  intros Hne.
  destruct (Py.get (rules (quality_config self)) []) as [|r0 l];
    [congruence|].
  rewrite Hts. apply Qdiv_comp; [lra | reflexivity].
Qed.

(** X4.  When the engine returns, [rule_results] holds one entry per configured
    rule, in the order of the rules and under their names, and the engine's
    score is the sum of the entries' scores divided by the number of rules:
    a rule on a missing column or with an error counts in the denominator
    with score 0. *)
Theorem business_rules_score_counts_every_rule self df source b c :
  _validate_business_rules self df source = Ok (b, c) ->
  let rules := Py.get (rules (quality_config self)) [] in
  exists entries,
    details c = RuleResults entries
    /\ List.length entries = List.length rules
    /\ map rule_of entries = map name_of rules
    /\ (rules <> [] ->
        score c == Py.sum (map entry_score entries)
                   / inject_Z (Z.of_nat (List.length rules)))
    /\ b = passed c
    /\ (passed c = true <-> 95 # 100 <= score c).
Proof.
  intros H. apply _validate_business_rules_inv in H. cbv zeta in *.
  destruct H as (entries & Hd & Hnames & _ & Hscore & Hb & Hpass).
  exists entries. split; [assumption|]. split.
  { rewrite <- (length_map rule_of), Hnames. apply length_map. }
  split; [assumption|]. split; [assumption|].
  split; assumption.
Qed.



(** X6.  A missing ["value"], ["min_date"] or ["max_date"] key, or a date bound
    that cannot be converted, is caught by the rule's [try]: the rule is
    recorded as failed with the message of the exception and adds nothing
    to the total. *)
Theorem rule_parameter_errors_are_caught df rule name column s :
  r_name rule = Some name ->
  r_column rule = Some column ->
  getitem df column = Ok s ->
  (r_check rule = Some "greater_than"%string -> r_value rule = None ->
   rules_loop df [rule] [] 0 = Ok ([RuleFailed name "'value'"], 0))
  /\ (r_check rule = Some "date_range"%string -> r_min_date rule = None ->
      rules_loop df [rule] [] 0 = Ok ([RuleFailed name "'min_date'"], 0))
  /\ (forall lo e,
        r_check rule = Some "date_range"%string ->
        r_min_date rule = Some lo -> to_datetime_scalar lo = Raise e ->
        rules_loop df [rule] [] 0 = Ok ([RuleFailed name (Py.str e)], 0))
  /\ (forall lo min_date,
        r_check rule = Some "date_range"%string ->
        r_min_date rule = Some lo -> to_datetime_scalar lo = Ok min_date ->
        r_max_date rule = None ->
        rules_loop df [rule] [] 0 = Ok ([RuleFailed name "'max_date'"], 0)).
Proof.
  intros Hn Hc Hs. repeat split.
  - intros Hk Hv.
    rewrite (@rules_loop_single df rule name column _ s Hn Hc Hk Hs).
    unfold evaluate_rule. simpl. rewrite Hv. reflexivity.
  - intros Hk Hv.
    rewrite (@rules_loop_single df rule name column _ s Hn Hc Hk Hs).
    unfold evaluate_rule. simpl. rewrite Hv. reflexivity.
  - intros lo e Hk Hv He.
    rewrite (@rules_loop_single df rule name column _ s Hn Hc Hk Hs).
    unfold evaluate_rule. simpl. rewrite Hv. simpl. rewrite He. reflexivity.
  - intros lo min_date Hk Hv Hlo Hmax.
    rewrite (@rules_loop_single df rule name column _ s Hn Hc Hk Hs).
    unfold evaluate_rule. simpl. rewrite Hv. simpl. rewrite Hlo. simpl.
    rewrite Hmax. reflexivity.
Qed.




Lemma known_check_false check_type :
  known_check check_type = false ->
  String.eqb check_type "not_null" = false
  /\ String.eqb check_type "greater_than" = false
  /\ String.eqb check_type "date_range" = false.
Proof using Type.
  clear_unused.
  unfold known_check. intros H.
  apply orb_false_iff in H. destruct H as [H H3].
  apply orb_false_iff in H. tauto.
Qed.

Lemma rules_loop_scores_nothing df rules :
  Forall (scores_nothing df) rules ->
  forall rule_results total_score,
  exists entries total_score',
    rules_loop df rules rule_results total_score
    = Ok (rule_results ++ entries, total_score')
    /\ total_score' == total_score
    /\ Forall (fun entry => rule_passed entry = false) entries.
Proof using Type.
  clear_unused.
  induction 1 as [|rule rest (name & column & check_type & Hn & Hc & Hk & Hor)
                    _ IH]; intros rr ts.
  - exists [], ts. rewrite app_nil_r.
    split; [reflexivity | split; [reflexivity | constructor]].
  - cbn [rules_loop]. rewrite Hn, Hc, Hk. cbn [Py.subscript Py.bind].
    destruct (Py.mem column (columns df)) eqn:Em; cbn [negb].
    + destruct Hor as [Hor|Hor]; [discriminate|].
      apply known_check_false in Hor. destruct Hor as (E1 & E2 & E3).
      unfold evaluate_rule. rewrite E1, E2, E3.
      destruct (IH (rr ++ [RuleScored name (Py.ge 0 (95 # 100)) 0 0 (len df)])
                   (ts + 0)) as (entries & ts' & -> & Hts & Hall).
      exists (RuleScored name (Py.ge 0 (95 # 100)) 0 0 (len df) :: entries), ts'.
      rewrite <- app_assoc. split; [reflexivity|].
      split; [rewrite Hts; lra|].
      constructor; [reflexivity | assumption].
    + match goal with
      | |- context [rules_loop df rest ?r ts] =>
          destruct (IH r ts) as (entries & ts' & -> & Hts & Hall)
      end.
      eexists (_ :: entries), ts'.
      rewrite <- app_assoc. split; [reflexivity|].
      split; [assumption|].
      constructor; [reflexivity | assumption].
Qed.

(** X8.  If every configured rule names a missing column or an unknown check
    kind, the engine returns score 0 and fails, and no entry passes: an
    unknown check kind is scored 0 without an error. *)
Theorem business_rules_unknown_or_missing_score_zero self df source :
  let rules := Py.get (rules (quality_config self)) [] in
  rules <> [] ->
  Forall (scores_nothing df) rules ->
  exists c,
    _validate_business_rules self df source = Ok (false, c)
    /\ score c == 0
    /\ Forall (fun entry => rule_passed entry = false) (get_rule_results c).
Proof using Type.
  clear_unused.
  cbv zeta. intros Hne Hall. unfold _validate_business_rules.
  destruct (rules_loop_scores_nothing Hall [] 0)
    as (entries & ts & -> & Hts & Hentries).
  cbn [Py.bind app].
  destruct (Py.get (rules (quality_config self)) []) as [|r0 l] eqn:E;
    [congruence|].
  assert (Hs : ts / inject_Z (Z.of_nat (List.length (r0 :: l))) == 0).
  { rewrite Hts. unfold Qdiv. apply Qmult_0_l. }
  assert (Hp : Py.ge (ts / inject_Z (Z.of_nat (List.length (r0 :: l))))
                     (95 # 100) = false).
  { unfold Py.ge. rewrite Hs. reflexivity. }
  rewrite Hp. eexists. split; [reflexivity|].
  cbn [score]. split; [exact Hs | exact Hentries].
Qed.

(* ------------------------------------------------------------------ *)
(** ** More on the consistency scorer *)

(** What a returned [_validate_consistency] computed. *)
Lemma _validate_consistency_inv df b c :
  _validate_consistency df = Ok (b, c) ->
  exists mask type_consistency type_issues,
    duplicated df (business_columns df) = Ok mask
    /\ type_loop df (columns df) true [] = Ok (type_consistency, type_issues)
    /\ let duplicate_rate := ratio (sum_bool mask) (len df) in
       let checks :=
         [DuplicateRecords (sum_bool mask) duplicate_rate
                           (Py.lt duplicate_rate (1 # 100));
          TypeConsistency type_consistency type_issues] in
       let sc := Py.truediv (Py.count consistency_passed checks) 2 in
       b = Py.ge sc (9 # 10)
       /\ c = mkCheckResult (Py.ge sc (9 # 10)) sc None
                            (ConsistencyChecks checks) "consistency".
Proof.
  unfold _validate_consistency. intros H. do 2 bind_inv H.
  destruct a0 as [tc ti]. inversion H; subst; clear H.
  exists a, tc, ti. repeat split; assumption.
Qed.

(** X9.  The consistency result holds exactly two sub-checks, the duplicate
    check and the type check, in this order.  Its score is 0, 1/2 or 1, and
    it passes exactly when both sub-checks pass, that is when the score
    is 1. *)
Theorem consistency_needs_both_checks df b c :
  _validate_consistency df = Ok (b, c) ->
  exists duplicate_count duplicate_rate dup_passed type_passed type_issues,
    details c
    = ConsistencyChecks
        [DuplicateRecords duplicate_count duplicate_rate dup_passed;
         TypeConsistency type_passed type_issues]
    /\ b = passed c
    /\ (passed c = true <-> dup_passed = true /\ type_passed = true)
    /\ (passed c = true <-> score c == 1)
    /\ (score c == 0 \/ score c == 1 # 2 \/ score c == 1).
Proof.
  intros H. apply _validate_consistency_inv in H.
  destruct H as (mask & tc & ti & _ & _ & H). cbv zeta in H.
  destruct H as [-> ->].
  do 5 eexists. split; [reflexivity|]. cbn [passed score].
  split; [reflexivity|].
  destruct (Py.lt (ratio (sum_bool mask) (len df)) (1 # 100)), tc;
    vm_compute; intuition congruence.
Qed.

Lemma mark_duplicates_length (seen rs : list (list cell)) :
  List.length (mark_duplicates seen rs) = List.length rs.
Proof.
  revert seen. induction rs as [|r rs IH]; intros seen; simpl;
    [reflexivity | now rewrite IH].
Qed.

(** There are never more duplicates than rows. *)
Lemma duplicated_count_le df subset mask :
  duplicated df subset = Ok mask -> (sum_bool mask <= len df)%nat.
Proof.
  unfold duplicated, sum_bool. intros H.
  etransitivity; [apply count_le_length|].
  destruct (rows df) as [|r rs] eqn:Er.
  - assert (mask = []) by (destruct (header df); now inversion H).
    subst. simpl. lia.
  - destruct (header df) as [|c h]; [inversion H; subst; simpl; lia|].
    bind_inv H. destruct a as [|s cols]; [discriminate|].
    inversion H; subst.
    rewrite mark_duplicates_length. unfold project.
    now rewrite length_map, length_seq.
Qed.

Lemma hundredth_le (k n : nat) :
  (1 # 100) * inject_Z (Z.of_nat n) <= inject_Z (Z.of_nat k) <->
  (n <= 100 * k)%nat.
Proof. unfold Qle, Qmult, inject_Z. cbn [Qnum Qden]. lia. Qed.

(** X10.  The duplicate check passes exactly when fewer than 1% of the rows are
    duplicates of an earlier row on the business columns (or the frame has
    no rows); on a frame of at most 100 rows it passes exactly when there
    is no duplicate at all. *)
Theorem duplicate_check_threshold df b c :
  _validate_consistency df = Ok (b, c) ->
  exists mask duplicate_rate dup_passed type_check,
    duplicated df (business_columns df) = Ok mask
    /\ details c
       = ConsistencyChecks
           [DuplicateRecords (sum_bool mask) duplicate_rate dup_passed;
            type_check]
    /\ duplicate_rate = ratio (sum_bool mask) (len df)
    /\ (dup_passed = true <->
        len df = 0%nat \/ (100 * sum_bool mask < len df)%nat)
    /\ ((len df <= 100)%nat ->
        (dup_passed = true <-> sum_bool mask = 0%nat)).
Proof.
  intros H. apply _validate_consistency_inv in H.
  destruct H as (mask & tc & ti & Hd & _ & H). cbv zeta in H.
  destruct H as [_ ->].
  do 4 eexists. split; [exact Hd|]. split; [reflexivity|].
  split; [reflexivity|].
  pose proof (duplicated_count_le _ _ Hd) as Hkn.
  set (k := sum_bool mask) in *. set (n := len df) in *.
  assert (Hiff : Py.lt (ratio k n) (1 # 100) = true <->
                 n = 0%nat \/ (100 * k < n)%nat).
  { unfold Py.lt, ratio. rewrite negb_true_iff.
    destruct (Nat.ltb_spec 0 n) as [Hn|Hn].
    - unfold Py.truediv. rewrite <- not_true_iff_false, Qle_bool_iff.
      pose proof (inject_nat_pos Hn) as Hpos.
      split.
      + intros Hnle. right.
        destruct (Nat.lt_ge_cases (100 * k) n) as [Hlt|Hge]; [assumption|].
        exfalso. apply Hnle. apply Qle_shift_div_l; [assumption|].
        now apply hundredth_le.
      + intros [->|Hlt] Hle; [inversion Hn|].
        assert (Hmul : (1 # 100) * inject_Z (Z.of_nat n)
                       <= inject_Z (Z.of_nat k)).
        { apply Qmult_le_r with (z := inject_Z (Z.of_nat n)) in Hle;
            [|assumption].
          eapply Qle_trans; [exact Hle|].
          rewrite Qmult_comm, Qmult_div_r; [apply Qle_refl|].
          intros E. rewrite E in Hpos. now apply Qlt_irrefl in Hpos. }
        apply hundredth_le in Hmul. lia.
    - assert (n = 0%nat) by lia. split; [auto | reflexivity]. }
  split; [exact Hiff|].
  intros Hle. rewrite Hiff. lia.
Qed.

Lemma pytype_eqb_eq (a b : pytype) : pytype_eqb a b = true <-> a = b.
Proof. destruct a, b; simpl; split; congruence. Qed.

Lemma existsb_pytype (t : pytype) (seen : list pytype) :
  existsb (pytype_eqb t) seen = true <-> In t seen.
Proof.
  rewrite existsb_exists. split.
  - intros (x & Hx & E). apply pytype_eqb_eq in E. now subst.
  - intros H. exists t. split; [assumption | now apply pytype_eqb_eq].
Qed.

Lemma unique_In (t : pytype) (l seen : list pytype) :
  In t (unique seen l) <-> In t l /\ ~ In t seen.
Proof.
  revert seen. induction l as [|x l IH]; intros seen; simpl; [tauto|].
  destruct (existsb (pytype_eqb x) seen) eqn:E.
  - apply existsb_pytype in E. rewrite IH. split.
    + tauto.
    + intros [[->|H] Hn]; tauto.
  - assert (Hx : ~ In x seen).
    { intros H. apply existsb_pytype in H. congruence. }
    simpl. rewrite IH. simpl. split.
    + intros [->|[H1 H2]]; [tauto|]. split; [tauto|]. tauto.
    + intros [[->|H] Hn]; [tauto|].
      destruct x, t; try (left; reflexivity); right; split; auto;
        intros [H'|H']; try discriminate; tauto.
Qed.

Lemma unique_NoDup (l seen : list pytype) : NoDup (unique seen l).
Proof.
  revert seen. induction l as [|x l IH]; intros seen; simpl; [constructor|].
  destruct (existsb (pytype_eqb x) seen); [apply IH|].
  constructor; [|apply IH].
  rewrite unique_In. simpl. tauto.
Qed.

(** [unique] returns at most one type exactly when all the types are the
    same. *)
Lemma unique_at_most_one (l : list pytype) :
  (List.length (unique [] l) <= 1)%nat <->
  forall a b, In a l -> In b l -> a = b.
Proof.
  split.
  - intros Hlen a b Ha Hb.
    assert (Ha' : In a (unique [] l)) by (apply unique_In; simpl; tauto).
    assert (Hb' : In b (unique [] l)) by (apply unique_In; simpl; tauto).
    destruct (unique [] l) as [|x [|y u]]; simpl in *; [tauto| |lia].
    destruct Ha' as [<-|[]], Hb' as [<-|[]]. reflexivity.
  - intros Hall. pose proof (unique_NoDup l []) as Hnd.
    destruct (unique [] l) as [|x [|y u]] eqn:E; simpl; [lia|lia|].
    exfalso.
    assert (Hx : In x l).
    { apply (proj1 (unique_In x l [])). rewrite E. now left. }
    assert (Hy : In y l).
    { apply (proj1 (unique_In y l [])). rewrite E. right. now left. }
    rewrite (Hall x y Hx Hy) in Hnd. inversion Hnd as [|? ? Hnin _]; subst.
    apply Hnin. now left.
Qed.

Lemma dropna_types_In (t : pytype) (s : Series) :
  In t (flat_map (fun c => match type_of c with
                           | Some t => [t]
                           | None => []
                           end) (values s))
  <-> exists c, In c (values s) /\ type_of c = Some t.
Proof using Type.
  clear_unused.
  rewrite in_flat_map. split.
  - intros (c & Hc & Ht). exists c. split; [assumption|].
    destruct (type_of c); simpl in Ht; [|tauto].
    destruct Ht as [->|[]]. reflexivity.
  - intros (c & Hc & Ht). exists c. split; [assumption|].
    rewrite Ht. now left.
Qed.

(** The type loop keeps the flag only if every column it looks at is
    consistent, and reports the others in order. *)
Lemma type_loop_spec df cols :
  (forall c, In c cols -> In c (columns df)) ->
  forall type_consistency type_issues,
  exists new,
    type_loop df cols type_consistency type_issues
    = Ok (type_consistency && forallb (column_types_consistent df) cols,
          type_issues ++ new)
    /\ map fst new
       = filter (fun c => negb (column_types_consistent df c)) cols.
Proof.
  induction cols as [|c cols IH]; intros Hin tc ti.
  - exists []. simpl. now rewrite andb_true_r, app_nil_r.
  - assert (Hin' : forall c', In c' cols -> In c' (columns df))
      by (intros c' Hc'; apply Hin; now right).
    cbn [type_loop forallb filter]. unfold column_types_consistent at 1 3.
    destruct (Py.startswith c "_"); cbn [orb negb andb].
    { destruct (IH Hin' tc ti) as (new & -> & Hnew). exists new. auto. }
    destruct (getitem_In df c) as (s & Hs); [apply Hin; now left|].
    rewrite Hs. cbn [Py.bind].
    destruct (is_object (dtype s)); cbn [negb orb].
    + destruct (Nat.ltb_spec 1 (List.length (dropna_types_unique s)))
        as [Hgt|Hle].
      * assert (E : (List.length (dropna_types_unique s) <=? 1)%nat = false)
          by (apply Nat.leb_gt; assumption).
        rewrite E. cbn [negb andb].
        destruct (IH Hin' false
                    (ti ++ [(c, map type_name (dropna_types_unique s))]))
          as (new & -> & Hnew).
        exists ((c, map type_name (dropna_types_unique s)) :: new).
        rewrite <- app_assoc, andb_false_r. cbn [andb].
        split; [reflexivity | simpl; now rewrite Hnew].
      * assert (E : (List.length (dropna_types_unique s) <=? 1)%nat = true)
          by (apply Nat.leb_le; assumption).
        rewrite E. cbn [negb andb].
        destruct (IH Hin' tc ti) as (new & -> & Hnew). exists new. auto.
    + destruct (IH Hin' tc ti) as (new & -> & Hnew). exists new. auto.
Qed.

(** X11.  The type check passes exactly when, in every business column of dtype
    [object], all non-null values have the same runtime type; metadata
    columns and columns of another dtype are never reported.  The reported
    columns are the inconsistent ones, in column order. *)
Theorem type_check_characterisation df b c :
  _validate_consistency df = Ok (b, c) ->
  exists dup_check type_passed type_issues,
    details c
    = ConsistencyChecks [dup_check; TypeConsistency type_passed type_issues]
    /\ map fst type_issues
       = filter (fun column => negb (column_types_consistent df column))
                (columns df)
    /\ (type_passed = true <->
        forall column s,
          In column (columns df) ->
          Py.startswith column "_" = false ->
          getitem df column = Ok s ->
          dtype s = object ->
          forall c1 c2 t1 t2,
            In c1 (values s) -> In c2 (values s) ->
            type_of c1 = Some t1 -> type_of c2 = Some t2 -> t1 = t2).
Proof using Type.
  clear_unused.
  intros H. apply _validate_consistency_inv in H.
  destruct H as (mask & tc & ti & _ & Hloop & H). cbv zeta in H.
  destruct H as [_ ->].
  destruct (@type_loop_spec df (columns df) (fun c Hc => Hc) true [])
    as (new & Hspec & Hnew).
  rewrite Hspec in Hloop. inversion Hloop; subst; clear Hloop.
  do 3 eexists. split; [reflexivity|]. split; [exact Hnew|].
  cbn [andb]. rewrite forallb_forall. split.
  - intros Hall column s Hin Hb Hs Hobj c1 c2 t1 t2 H1 H2 Ht1 Ht2.
    specialize (Hall _ Hin). unfold column_types_consistent in Hall.
    rewrite Hb, Hs, Hobj in Hall. cbn [orb negb is_object] in Hall.
    apply Nat.leb_le in Hall. unfold dropna_types_unique in Hall.
    apply (proj1 (unique_at_most_one _) Hall);
      apply dropna_types_In; eauto.
  - intros Hall column Hin. unfold column_types_consistent.
    destruct (Py.startswith column "_") eqn:Hb; [reflexivity|].
    destruct (getitem df column) as [s|e] eqn:Hs; [|reflexivity].
    destruct (dtype s) eqn:Hobj; try reflexivity.
    cbn [orb negb is_object]. apply Nat.leb_le.
    unfold dropna_types_unique. apply unique_at_most_one.
    intros t1 t2 Ht1 Ht2.
    apply dropna_types_In in Ht1, Ht2.
    destruct Ht1 as (c1 & H1 & Ht1), Ht2 as (c2 & H2 & Ht2).
    exact (Hall column s Hin Hb Hs Hobj c1 c2 t1 t2 H1 H2 Ht1 Ht2).
Qed.

(* ------------------------------------------------------------------ *)
(** ** More on the freshness scorer *)

Lemma max_datetime_None (ts : list (option Z)) :
  max_datetime ts = None <-> forall t, ~ In (Some t) ts.
Proof.
  induction ts as [|[t|] ts IH]; simpl.
  - split; [intros _ t []|reflexivity].
  - destruct (max_datetime ts); split; try discriminate;
      intros H; exfalso; apply (H t); now left.
  - rewrite IH. split.
    + intros H t [E|Hin]; [discriminate | now apply (H t)].
    + intros H t Hin. apply (H t). now right.
Qed.

(** [max] returns the latest of the timestamps. *)
Lemma max_datetime_Some (ts : list (option Z)) (m : Z) :
  max_datetime ts = Some m ->
  In (Some m) ts /\ forall t, In (Some t) ts -> (t <= m)%Z.
Proof.
  revert m. induction ts as [|[t|] ts IH]; simpl; intros m H.
  - discriminate.
  - destruct (max_datetime ts) as [m'|] eqn:E.
    + inversion H; subst; clear H. destruct (IH m' eq_refl) as [Hin Hmax].
      split.
      * destruct (Z.max_spec t m') as [[_ ->]|[_ ->]]; auto.
      * intros t' [E'|Hin']; [inversion E'; subst; lia|].
        specialize (Hmax _ Hin'). lia.
    + inversion H; subst; clear H. split; [now left|].
      intros t' [E'|Hin']; [inversion E'; subst; lia|].
      exfalso. exact (proj1 (max_datetime_None ts) E t' Hin').
  - destruct (IH m H) as [Hin Hmax]. split; [now right|].
    intros t' [E'|Hin']; [discriminate | now apply Hmax].
Qed.

(** Some timestamp of the column is younger than the limit exactly when
    the latest one is. *)
Lemma latest_within (ts : list (option Z)) (limit : Z) :
  (exists t, In (Some t) ts /\ (utcnow - t < limit)%Z) <->
  (exists m, max_datetime ts = Some m /\ (utcnow - m < limit)%Z).
Proof.
  split.
  - intros (t & Hin & Hlt).
    destruct (max_datetime ts) as [m|] eqn:E.
    + exists m. split; [reflexivity|].
      pose proof (proj2 (max_datetime_Some _ E) t Hin). lia.
    + exfalso. exact (proj1 (max_datetime_None ts) E t Hin).
  - intros (m & E & Hlt). exists m. split; [|assumption].
    exact (proj1 (max_datetime_Some _ E)).
Qed.

Lemma hours_lt_24 (d : Z) :
  Py.lt (inject_Z d / inject_Z ns_per_hour) 24 = true <->
  (d < 24 * ns_per_hour)%Z.
Proof.
  unfold Py.lt. rewrite negb_true_iff, <- not_true_iff_false, Qle_bool_iff.
  assert (Hpos : 0 < inject_Z ns_per_hour) by reflexivity.
  assert (Hmul : forall x, 24 * inject_Z ns_per_hour <= inject_Z x <->
                           (24 * ns_per_hour <= x)%Z).
  { intros x. unfold Qle, Qmult, inject_Z. cbn [Qnum Qden]. lia. }
  split.
  - intros Hn. destruct (Z.lt_ge_cases d (24 * ns_per_hour)) as [|Hge];
      [assumption|].
    exfalso. apply Hn. apply Qle_shift_div_l; [assumption|].
    exact (proj2 (Hmul d) Hge).
  - intros Hlt Hle. apply Qmult_le_r with (z := inject_Z ns_per_hour) in Hle;
      [|assumption].
    assert (H : 24 * inject_Z ns_per_hour <= inject_Z d).
    { eapply Qle_trans; [exact Hle|].
      rewrite Qmult_comm, Qmult_div_r; [apply Qle_refl | discriminate]. }
    apply (proj1 (Hmul d)) in H. lia.
Qed.

(** X12.  The ingestion check passes exactly when some row was ingested less
    than 24 hours before the validation; a column without any timestamp
    fails.  A timestamp in the future passes. *)
Theorem ingestion_freshness_window df s ts :
  getitem df "_ingestion_timestamp" = Ok s ->
  to_datetime s = Ok ts ->
  exists hours_since_ingestion ingestion_passed,
    ingestion_check df
    = Ok [IngestionFreshness hours_since_ingestion ingestion_passed]
    /\ (ingestion_passed = true <->
        exists t, In (Some t) ts /\ (utcnow - t < 24 * ns_per_hour)%Z)
    /\ ((forall t, ~ In (Some t) ts) -> ingestion_passed = false).
Proof.
  intros Hs Ht. unfold ingestion_check.
  rewrite (getitem_Ok_mem _ _ Hs), Hs. cbn [Py.bind]. rewrite Ht.
  cbn [Py.bind]. do 2 eexists. split; [reflexivity|].
  rewrite latest_within. unfold hours_since.
  destruct (max_datetime ts) as [m|] eqn:E.
  - split.
    + rewrite hours_lt_24. split.
      * intros H. exists m. auto.
      * intros (m' & Em & H). inversion Em; subst. assumption.
    + intros Hnone. exfalso.
      exact (Hnone m (proj1 (max_datetime_Some _ E))).
  - split; [|reflexivity]. split; [discriminate|].
    intros (m' & Em & _). discriminate.
Qed.

(** X13.  The check of a business date column passes exactly when the column
    holds a date less than 7 days before the validation. *)
Theorem business_date_freshness_window df date_col s ts :
  getitem df date_col = Ok s ->
  to_datetime s = Ok ts ->
  exists days_since_latest date_passed,
    business_date_check df date_col
    = Ok (BusinessDateFreshness (date_col ++ "_freshness")%string
                                days_since_latest date_passed)
    /\ (date_passed = true <->
        exists t, In (Some t) ts /\ (utcnow - t < 7 * ns_per_day)%Z).
Proof.
  intros Hs Ht. unfold business_date_check. rewrite Hs. cbn [Py.bind].
  rewrite Ht. cbn [Py.bind]. do 2 eexists. split; [reflexivity|].
  rewrite latest_within. unfold days_since.
  assert (Hday : (0 < ns_per_day)%Z) by reflexivity.
  destruct (max_datetime ts) as [m|] eqn:E.
  - rewrite Z.ltb_lt. split.
    + intros H. exists m. split; [reflexivity|].
      destruct (Z.lt_ge_cases (utcnow - m) (7 * ns_per_day)) as [|Hge];
        [assumption|].
      assert (7 <= (utcnow - m) / ns_per_day)%Z
        by (apply Z.div_le_lower_bound; lia).
      lia.
    + intros (m' & Em & H). inversion Em; subst.
      apply Z.div_lt_upper_bound; lia.
  - split; [discriminate|]. intros (m' & Em & _). discriminate.
Qed.

Lemma date_loop_all_skipped df cols :
  (forall c, In c cols -> exists e, business_date_check df c = Raise e) ->
  forall freshness_checks, date_loop df cols freshness_checks = freshness_checks.
Proof.
  induction cols as [|c cols IH]; intros H fc; simpl; [reflexivity|].
  destruct (H c (or_introl eq_refl)) as (e & ->).
  apply IH. intros c' Hc'. apply H. now right.
Qed.

(** X14.  Without an ingestion timestamp column, and when no business date
    column can be checked (there is none, or the conversion of each one
    raises), the freshness scorer assumes fresh data: score 1.0, passed,
    no sub-check. *)
Theorem freshness_defaults_to_fresh df :
  Py.mem "_ingestion_timestamp" (columns df) = false ->
  (forall c, In c (date_columns df) ->
             exists e, business_date_check df c = Raise e) ->
  _validate_freshness df
  = Ok (true, mkCheckResult true 1 None (FreshnessChecks []) "freshness").
Proof.
  intros Hm Hskip. unfold _validate_freshness, ingestion_check.
  rewrite Hm. cbn [Py.bind]. rewrite (date_loop_all_skipped _ _ Hskip).
  reflexivity.
Qed.

(* ------------------------------------------------------------------ *)
(** ** More on the aggregator *)


(** The scores of a returned validation, each between 0 and 1. *)
Lemma validate_data_scores self df source w p r w' :
  validate_data self df source w = Ok (p, r, w') ->
  let c := checks r in
  overall_score r
  == (score (schema_validation c) + score (business_rules c)
      + score (completeness_check c) + score (consistency c)
      + score (freshness c)) / 5
  /\ 0 <= score (schema_validation c) <= 1
  /\ 0 <= score (business_rules c) <= 1
  /\ 0 <= score (completeness_check c) <= 1
  /\ 0 <= score (consistency c) <= 1
  /\ 0 <= score (freshness c) <= 1.
Proof.
  intros H. apply validate_data_inv in H.
  destruct H as (bv & br & cv & cr & kv & kr & fv & fr
                 & Hb & Hc & Hk & Hf & Hchecks & Hscore & _).
  cbv zeta. rewrite Hchecks, Hscore. cbn [schema_validation business_rules
    completeness_check consistency freshness].
  split; [apply mean5|].
  split; [apply schema_score_bounds|].
  split; [eapply business_rules_score_bounds; eassumption|].
  split; [eapply completeness_score_bounds; eassumption|].
  split; [eapply consistency_score_bounds; eassumption|].
  eapply freshness_score_bounds; eassumption.
Qed.

(** The rows a failing validation reports as quarantined. *)
Lemma quarantined_rows_of_failure self df source w p r w' :
  validate_data self df source w = Ok (p, r, w') ->
  vr_passed r = false ->
  quarantined_rows r
  = if passed (schema_validation (checks r)) then 0%nat else total_rows r.
Proof.
  intros H Hfail. apply validate_data_inv in H.
  destruct H as (bv & br & cv & cr & kv & kr & fv & fr
                 & _ & _ & _ & _ & _ & _ & _ & _ & Hrows & _ & Hq).
  rewrite Hfail, _quarantine_bad_data_spec in Hq. cbn [checks] in Hq.
  rewrite Hrows. destruct (passed (schema_validation (checks r)));
    now inversion Hq.
Qed.

Lemma fifth_le (x y : Q) : x <= 5 * y -> x / 5 <= y.
Proof.
  intros H. apply Qle_shift_div_r; [reflexivity|]. lra.
Qed.

(** X17.  With a coverage threshold above 0.8 (0.95 by default) a dataset that
    fails the schema check never passes the validation, whatever the other
    four checks score, and all its rows are quarantined. *)
Theorem schema_failure_fails_validation self df source w p r w' :
  validate_data self df source w = Ok (p, r, w') ->
  passed (schema_validation (checks r)) = false ->
  4 # 5 < Py.get (coverage_threshold (quality_config self)) (95 # 100) ->
  p = false /\ quarantined_rows r = total_rows r.
Proof.
  intros H Hschema Hthr.
  pose proof (validate_data_scores _ _ _ _ H) as Hs. cbv zeta in Hs.
  destruct Hs as (Hmean & _ & Hb & Hc & Hk & Hf).
  pose proof H as Hinv. apply validate_data_inv in Hinv.
  destruct Hinv as (bv & br & cv & cr & kv & kr & fv & fr
                    & _ & _ & _ & _ & Hchecks & _ & Hpass & Hp & _).
  assert (Hzero : score (schema_validation (checks r)) = 0).
  { rewrite Hchecks in *. cbn [schema_validation] in *.
    destruct (_validate_schema_score df source) as [E _]. cbv zeta in E.
    rewrite E, Hschema. reflexivity. }
  assert (Hfail : vr_passed r = false).
  { rewrite Hpass. unfold Py.ge. apply not_true_iff_false.
    rewrite Qle_bool_iff. intros Hle.
    assert (Hov : overall_score r <= 4 # 5).
    { rewrite Hmean, Hzero. apply fifth_le. lra. }
    lra. }
  split; [congruence|].
  rewrite (quarantined_rows_of_failure _ _ _ _ H Hfail), Hschema.
  reflexivity.
Qed.

(** A failed consistency check scores at most 1/2. *)
Lemma consistency_failed_score df b c :
  _validate_consistency df = Ok (b, c) ->
  passed c = false -> score c <= 1 # 2.
Proof.
  intros H. apply _validate_consistency_inv in H.
  destruct H as (mask & tc & ti & _ & _ & H). cbv zeta in H.
  destruct H as [_ ->]. cbn [passed score].
  destruct (Py.lt (ratio (sum_bool mask) (len df)) (1 # 100)), tc;
    vm_compute; congruence.
Qed.

(** X18.  With a coverage threshold above 0.9 (0.95 by default) a dataset that
    fails the consistency check (a duplicate rate of 1% or more, or a
    column of mixed types) never passes the validation; its rows are
    quarantined only if the schema check failed too. *)
Theorem consistency_failure_fails_validation self df source w p r w' :
  validate_data self df source w = Ok (p, r, w') ->
  passed (consistency (checks r)) = false ->
  9 # 10 < Py.get (coverage_threshold (quality_config self)) (95 # 100) ->
  p = false
  /\ (passed (schema_validation (checks r)) = true ->
      quarantined_rows r = 0%nat).
Proof.
  intros H Hcons Hthr.
  pose proof (validate_data_scores _ _ _ _ H) as Hs. cbv zeta in Hs.
  destruct Hs as (Hmean & Hsch & Hb & Hc & _ & Hf).
  pose proof H as Hinv. apply validate_data_inv in Hinv.
  destruct Hinv as (bv & br & cv & cr & kv & kr & fv & fr
                    & _ & _ & Hk & _ & Hchecks & _ & Hpass & Hp & _).
  assert (Hhalf : score (consistency (checks r)) <= 1 # 2).
  { rewrite Hchecks in *. cbn [consistency] in *.
    eapply consistency_failed_score; eassumption. }
  assert (Hfail : vr_passed r = false).
  { rewrite Hpass. unfold Py.ge. apply not_true_iff_false.
    rewrite Qle_bool_iff. intros Hle.
    assert (Hov : overall_score r <= 9 # 10).
    { rewrite Hmean. apply fifth_le. lra. }
    lra. }
  split; [congruence|].
  intros Hschema.
  rewrite (quarantined_rows_of_failure _ _ _ _ H Hfail), Hschema.
  reflexivity.
Qed.

(* ------------------------------------------------------------------ *)
(** ** The quality report *)

(** The recommendations are the messages of the failing categories, in the
    fixed order schema, completeness, consistency, freshness, business
    rules. *)
Lemma _generate_recommendations_spec r :
  _generate_recommendations r
  = (if passed (schema_validation (checks r)) then []
     else ["Review and update schema definitions to match incoming data structure"%string])
    ++ (if Py.lt (score (completeness_check (checks r))) (9 # 10)
        then ["Investigate data sources for missing values and implement data collection improvements"%string]
        else [])
    ++ (if passed (consistency (checks r)) then []
        else ["Implement data standardization processes to ensure consistency"%string])
    ++ (if passed (freshness (checks r)) then []
        else ["Review data ingestion schedules to ensure timely data delivery"%string])
    ++ (if passed (business_rules (checks r)) then []
        else ["Review business rules and data validation logic"%string]).
Proof.
  unfold _generate_recommendations.
  destruct (passed (schema_validation (checks r))),
           (Py.lt (score (completeness_check (checks r))) (9 # 10)),
           (passed (consistency (checks r))),
           (passed (freshness (checks r))),
           (passed (business_rules (checks r))); reflexivity.
Qed.

(** X19.  No recommendation is made exactly when the schema, consistency,
    freshness and business-rule checks passed and the completeness score is
    at least 0.9; there are never more than five recommendations. *)
Theorem recommendations_empty_iff r :
  (_generate_recommendations r = [] <->
   passed (schema_validation (checks r)) = true
   /\ 9 # 10 <= score (completeness_check (checks r))
   /\ passed (consistency (checks r)) = true
   /\ passed (freshness (checks r)) = true
   /\ passed (business_rules (checks r)) = true)
  /\ (List.length (_generate_recommendations r) <= 5)%nat.
Proof.
  rewrite _generate_recommendations_spec.
  assert (Hlt : Py.lt (score (completeness_check (checks r))) (9 # 10) = false
                <-> 9 # 10 <= score (completeness_check (checks r))).
  { unfold Py.lt. rewrite negb_false_iff. apply Qle_bool_iff. }
  destruct (passed (schema_validation (checks r))),
           (Py.lt (score (completeness_check (checks r))) (9 # 10)),
           (passed (consistency (checks r))),
           (passed (freshness (checks r))),
           (passed (business_rules (checks r)));
    cbn [app List.length]; (split; [|lia]);
    (split; [try discriminate; intros _; repeat split; now apply Hlt
            | intros (H1 & H2 & H3 & H4 & H5); try discriminate;
              try reflexivity; apply Hlt in H2; discriminate]).
Qed.

(** For the completeness check of a validation, [score < 0.9] is the
    negation of [passed]. *)
Lemma completeness_lt_is_not_passed df b c :
  _validate_completeness df = Ok (b, c) ->
  Py.lt (score c) (9 # 10) = negb (passed c).
Proof.
  rewrite _validate_completeness_spec. cbv zeta. intros H.
  inversion H; subst. reflexivity.
Qed.

(** X20.  The report of a validation carries its verdict, score and row counts
    and its five check results unchanged, and makes one recommendation per
    failed check: none exactly when the five checks passed. *)
Theorem report_of_validation self df source w p r w' :
  validate_data self df source w = Ok (p, r, w') ->
  let report := generate_quality_report r in
  report_source_name report = source
  /\ overall_assessment report
     = mkOverallAssessment p (overall_score r) (len df) (quarantined_rows r)
  /\ detailed_results report = checks r
  /\ List.length (recommendations report) = failed_checks (checks r)
  /\ (recommendations report = [] <->
      forall c, In c (checks_list (checks r)) -> passed c = true).
Proof.
  intros H. apply validate_data_inv in H.
  destruct H as (bv & br & cv & cr & kv & kr & fv & fr
                 & _ & Hc & _ & _ & Hchecks & _ & _ & Hp & Hrows & Hsrc & _).
  cbv zeta. unfold generate_quality_report.
  cbn [report_source_name overall_assessment detailed_results recommendations].
  split; [assumption|]. split; [now rewrite Hp, Hrows|].
  split; [reflexivity|].
  rewrite _generate_recommendations_spec.
  unfold failed_checks, checks_list, Py.count.
  rewrite Hchecks.
  cbn [schema_validation business_rules completeness_check consistency
       freshness filter].
  rewrite (completeness_lt_is_not_passed _ Hc).
  destruct (passed (snd (_validate_schema df source))) eqn:E1,
           (passed br) eqn:E2, (passed cr) eqn:E3, (passed kr) eqn:E4,
           (passed fr) eqn:E5;
    cbn [negb app List.length]; (split; [reflexivity|]);
    (split;
     [try discriminate; intros _ c Hin; simpl in Hin;
      repeat (destruct Hin as [<-|Hin]; [assumption|]); contradiction
     | intros Hall; try reflexivity; exfalso;
       pose proof (Hall _ (or_introl eq_refl));
       pose proof (Hall _ (or_intror (or_introl eq_refl)));
       pose proof (Hall _ (or_intror (or_intror (or_introl eq_refl))));
       pose proof (Hall _ (or_intror (or_intror (or_intror
                                                  (or_introl eq_refl)))));
       pose proof (Hall _ (or_intror (or_intror (or_intror (or_intror
                                                  (or_introl eq_refl))))));
       congruence]).
Qed.

(* ------------------------------------------------------------------ *)
(** ** Dicts *)

Lemma dict_get_set_same (V : Type) (k : string) (v : V) d :
  dict_get k (dict_set k v d) = Some v.
Proof.
  induction d as [|[k' v'] d IH]; simpl.
  - now rewrite String.eqb_refl.
  - destruct (String.eqb k k') eqn:E; simpl; rewrite ?String.eqb_refl, ?E;
      [reflexivity | assumption].
Qed.

Lemma dict_get_set_other (V : Type) (k k0 : string) (v : V) d :
  String.eqb k0 k = false -> dict_get k0 (dict_set k v d) = dict_get k0 d.
Proof.
  intros Hne. induction d as [|[k' v'] d IH]; simpl.
  - now rewrite Hne.
  - destruct (String.eqb k k') eqn:E; simpl.
    + apply String.eqb_eq in E. subst k'. now rewrite Hne.
    + now rewrite IH.
Qed.

Lemma dict_set_keys (V : Type) (k k0 : string) (v : V) d :
  In k0 (map fst (dict_set k v d)) <-> k0 = k \/ In k0 (map fst d).
Proof using Type.
  clear_unused.
  induction d as [|[k' v'] d IH]; simpl; [intuition|].
  destruct (String.eqb_spec k k') as [->|Hne]; simpl; [intuition|].
  rewrite IH. intuition.
Qed.

Lemma dict_set_NoDup (V : Type) (k : string) (v : V) d :
  NoDup (map fst d) -> NoDup (map fst (dict_set k v d)).
Proof using Type.
  clear_unused.
  induction d as [|[k' v'] d IH]; simpl; intros H.
  - constructor; [intros []|constructor].
  - inversion H as [|? ? Hnin Hnd]; subst.
    destruct (String.eqb_spec k k') as [->|Hne]; simpl.
    + now constructor.
    + constructor; [|now apply IH].
      rewrite dict_set_keys. intros [E|Hin]; [congruence | contradiction].
Qed.

Lemma dict_get_In (V : Type) (k : string) (v : V) d :
  NoDup (map fst d) -> In (k, v) d -> dict_get k d = Some v.
Proof.
  induction d as [|[k' v'] d IH]; simpl; intros Hnd Hin; [contradiction|].
  inversion Hnd as [|? ? Hnin Hnd']; subst.
  destruct Hin as [E|Hin].
  - inversion E; subst. now rewrite String.eqb_refl.
  - destruct (String.eqb_spec k k') as [->|Hne].
    + exfalso. apply Hnin. apply in_map_iff. now exists (k', v).
    + now apply IH.
Qed.

Lemma dict_get_Some_In (V : Type) (k : string) (v : V) d :
  dict_get k d = Some v -> In (k, v) d.
Proof.
  induction d as [|[k' v'] d IH]; simpl; [discriminate|].
  destruct (String.eqb_spec k k') as [->|Hne].
  - intros H. inversion H; subst. now left.
  - intros H. right. now apply IH.
Qed.

Lemma dict_mem_keys (V : Type) (k : string) (d : list (string * V)) :
  dict_mem k d = true <-> In k (map fst d).
Proof.
  unfold dict_mem. induction d as [|[k' v'] d IH]; simpl.
  - split; [discriminate | contradiction].
  - destruct (String.eqb_spec k k') as [->|Hne].
    + split; auto.
    + rewrite IH. split; [auto|]. intros [E|H]; [congruence | assumption].
Qed.

Lemma find_app (A : Type) (p : A -> bool) (l1 l2 : list A) :
  find p (l1 ++ l2)
  = match find p l1 with Some x => Some x | None => find p l2 end.
Proof.
  induction l1 as [|x l1 IH]; simpl; [reflexivity|].
  destruct (p x); [reflexivity | assumption].
Qed.

(** After a sequence of assignments a key holds the value assigned last. *)
Lemma dict_get_fold (A V : Type) (key : A -> string) (val : A -> V)
      (l : list A) (k : string) :
  forall d,
    dict_get k (fold_left (fun d x => dict_set (key x) (val x) d) l d)
    = match last_with_key key k l with
      | Some x => Some (val x)
      | None => dict_get k d
      end.
Proof.
  unfold last_with_key.
  induction l as [|x l IH]; intros d; simpl; [reflexivity|].
  rewrite IH, find_app. simpl.
  destruct (find (fun y => String.eqb k (key y)) (rev l)); [reflexivity|].
  destruct (String.eqb k (key x)) eqn:E.
  - apply String.eqb_eq in E. subst k. apply dict_get_set_same.
  - now apply dict_get_set_other.
Qed.

Lemma dict_fold_NoDup (A V : Type) (key : A -> string) (val : A -> V)
      (l : list A) :
  forall d, NoDup (map fst d) ->
            NoDup (map fst (fold_left (fun d x => dict_set (key x) (val x) d)
                                      l d)).
Proof using Type.
  clear_unused.
  induction l as [|x l IH]; intros d H; simpl; [assumption|].
  apply IH. now apply dict_set_NoDup.
Qed.

Lemma dict_comprehension_get (V : Type) (key : V -> string) (l : list V) k :
  dict_get k (dict_comprehension key l) = last_with_key key k l.
Proof.
  unfold dict_comprehension.
  rewrite (dict_get_fold key (fun x => x) l k []). simpl.
  destruct (last_with_key key k l); reflexivity.
Qed.

Lemma dict_comprehension_NoDup (V : Type) (key : V -> string) (l : list V) :
  NoDup (map fst (dict_comprehension key l)).
Proof using Type.
  clear_unused.
  unfold dict_comprehension.
  apply (dict_fold_NoDup key (fun x => x)). constructor.
Qed.

Lemma last_with_key_Some (V : Type) (key : V -> string) k (l : list V) x :
  last_with_key key k l = Some x -> In x l /\ key x = k.
Proof.
  unfold last_with_key. intros H. apply find_some in H.
  destruct H as [Hin E]. apply String.eqb_eq in E.
  split; [now apply in_rev | congruence].
Qed.

Lemma last_with_key_None (V : Type) (key : V -> string) k (l : list V) :
  last_with_key key k l = None <-> forall x, In x l -> key x <> k.
Proof.
  unfold last_with_key. split.
  - intros H x Hin E. apply in_rev in Hin.
    pose proof (find_none _ _ H x Hin) as Hf. simpl in Hf.
    subst k. now rewrite String.eqb_refl in Hf.
  - intros H. destruct (find _ (rev l)) as [x|] eqn:E; [|reflexivity].
    apply find_some in E. destruct E as [Hin E].
    apply String.eqb_eq in E. apply in_rev in Hin.
    exfalso. exact (H x Hin (eq_sym E)).
Qed.

(* ------------------------------------------------------------------ *)
(** ** Schema comparison *)

Lemma modified_loop_spec current_fields reference_fields :
  forall type_changes nullable_changes,
    modified_loop current_fields reference_fields type_changes nullable_changes
    = (type_changes ++ flat_map (type_change_of reference_fields) current_fields,
       nullable_changes
       ++ flat_map (nullable_change_of reference_fields) current_fields).
Proof.
  induction current_fields as [|[k f] cur IH]; intros tc nc; simpl.
  - now rewrite !app_nil_r.
  - unfold type_change_of at 1, nullable_change_of at 1. cbn [fst snd].
    destruct (dict_get k reference_fields) as [g|]; [|apply IH].
    rewrite IH.
    destruct (negb (String.eqb (sf_dtype f) (sf_dtype g))),
             (negb (Bool.eqb (sf_nullable f) (sf_nullable g)));
      cbn [app]; rewrite <- ?app_assoc; reflexivity.
Qed.

(** What [compare_schemas] returns, in terms of the two dicts. *)
Lemma compare_schemas_spec current_schema reference_schema dir :
  let current_fields := dict_comprehension sf_name (fields current_schema) in
  let reference_fields :=
    dict_comprehension sf_name (fields reference_schema) in
  let differences :=
    mkDifferences (keys_not_in current_fields reference_fields)
                  (keys_not_in reference_fields current_fields)
                  []
                  (flat_map (type_change_of reference_fields) current_fields)
                  (flat_map (nullable_change_of reference_fields)
                            current_fields) in
  compare_schemas current_schema reference_schema dir
  = (differences, mkSchemaDir (Some differences)).
Proof.
  cbv zeta. unfold compare_schemas. rewrite modified_loop_spec. reflexivity.
Qed.

Lemma field_named_keys schema name :
  In name (map fst (dict_comprehension sf_name (fields schema))) <->
  field_named schema name <> None.
Proof.
  rewrite <- dict_mem_keys. unfold dict_mem, field_named.
  rewrite dict_comprehension_get.
  destruct (last_with_key sf_name name (fields schema));
    split; congruence.
Qed.

Lemma keys_not_in_In current reference name :
  In name (keys_not_in (dict_comprehension sf_name (fields current))
                       (dict_comprehension sf_name (fields reference)))
  <-> field_named current name <> None /\ field_named reference name = None.
Proof.
  unfold keys_not_in. rewrite in_map_iff. split.
  - intros ([k f] & <- & Hin). apply filter_In in Hin.
    destruct Hin as [Hin Hmem]. cbn [fst] in *. split.
    + apply field_named_keys. apply in_map_iff. now exists (k, f).
    + apply negb_true_iff in Hmem. unfold dict_mem in Hmem.
      rewrite dict_comprehension_get in Hmem. unfold field_named.
      destruct (last_with_key sf_name k (fields reference));
        [discriminate | reflexivity].
  - intros [Hcur Href]. apply field_named_keys in Hcur.
    apply in_map_iff in Hcur. destruct Hcur as ([k f] & <- & Hin).
    exists (k, f). split; [reflexivity|]. apply filter_In.
    split; [assumption|]. cbn [fst] in *. apply negb_true_iff.
    unfold dict_mem. rewrite dict_comprehension_get.
    unfold field_named in Href. now rewrite Href.
Qed.

Lemma dict_comprehension_In schema name f :
  In (name, f) (dict_comprehension sf_name (fields schema)) <->
  field_named schema name = Some f.
Proof using Type.
  clear_unused.
  unfold field_named. rewrite <- dict_comprehension_get. split.
  - apply dict_get_In. apply dict_comprehension_NoDup.
  - apply dict_get_Some_In.
Qed.

(** X21.  [compare_schemas] reports as added the field names of the current
    schema that the reference schema lacks, as removed those of the
    reference schema that the current one lacks, and a type or nullability
    change exactly for the names present in both schemas whose dtype or
    nullability differ.  [modified_fields] is always empty, and the
    differences returned are the ones written to [schema_diff.json]. *)
Theorem compare_schemas_reports current_schema reference_schema dir :
  let d := fst (compare_schemas current_schema reference_schema dir) in
  (forall name,
     In name (added_fields d) <->
     field_named current_schema name <> None
     /\ field_named reference_schema name = None)
  /\ (forall name,
        In name (removed_fields d) <->
        field_named reference_schema name <> None
        /\ field_named current_schema name = None)
  /\ (forall name old new,
        In (mkTypeChange name old new) (type_changes d) <->
        exists f g,
          field_named current_schema name = Some f
          /\ field_named reference_schema name = Some g
          /\ sf_dtype f <> sf_dtype g
          /\ old = sf_dtype g /\ new = sf_dtype f)
  /\ (forall name old new,
        In (mkNullableChange name old new) (nullable_changes d) <->
        exists f g,
          field_named current_schema name = Some f
          /\ field_named reference_schema name = Some g
          /\ sf_nullable f <> sf_nullable g
          /\ old = sf_nullable g /\ new = sf_nullable f)
  /\ modified_fields d = []
  /\ schema_diff (snd (compare_schemas current_schema reference_schema dir))
     = Some d.
Proof using Type.
  clear_unused.
  rewrite compare_schemas_spec. cbv zeta.
  cbn [fst snd added_fields removed_fields type_changes nullable_changes
       modified_fields schema_diff].
  split; [intros name; apply keys_not_in_In|].
  split; [intros name; apply keys_not_in_In|].
  split; [|split; [|split; reflexivity]].
  - intros name old new. rewrite in_flat_map. split.
    + intros ([k f] & Hin & Hc). unfold type_change_of in Hc. cbn [fst snd] in Hc.
      destruct (dict_get k _) as [g|] eqn:Eg; [|contradiction].
      destruct (String.eqb_spec (sf_dtype f) (sf_dtype g)) as [E|Hne];
        [contradiction|].
      destruct Hc as [Hc|[]]. inversion Hc; subst.
      exists f, g. rewrite dict_comprehension_get in Eg.
      apply dict_comprehension_In in Hin. auto.
    + intros (f & g & Hf & Hg & Hne & -> & ->).
      exists (name, f). split; [now apply dict_comprehension_In|].
      unfold type_change_of. cbn [fst snd]. rewrite dict_comprehension_get.
      unfold field_named in Hg. rewrite Hg.
      destruct (String.eqb_spec (sf_dtype f) (sf_dtype g)) as [E|_];
        [contradiction | now left].
  - intros name old new. rewrite in_flat_map. split.
    + intros ([k f] & Hin & Hc). unfold nullable_change_of in Hc.
      cbn [fst snd] in Hc.
      destruct (dict_get k _) as [g|] eqn:Eg; [|contradiction].
      destruct (Bool.eqb (sf_nullable f) (sf_nullable g)) eqn:E;
        [contradiction|].
      destruct Hc as [Hc|[]]. inversion Hc; subst.
      exists f, g. rewrite dict_comprehension_get in Eg.
      apply dict_comprehension_In in Hin.
      repeat split; auto. intros E'. rewrite E' in E.
      now rewrite Bool.eqb_reflx in E.
    + intros (f & g & Hf & Hg & Hne & -> & ->).
      exists (name, f). split; [now apply dict_comprehension_In|].
      unfold nullable_change_of. cbn [fst snd]. rewrite dict_comprehension_get.
      unfold field_named in Hg. rewrite Hg.
      destruct (Bool.eqb (sf_nullable f) (sf_nullable g)) eqn:E;
        [apply Bool.eqb_prop in E; contradiction | now left].
Qed.

Lemma filter_none (A : Type) (p : A -> bool) (l : list A) :
  (forall x, In x l -> p x = false) -> filter p l = [].
Proof.
  induction l as [|x l IH]; intros H; simpl; [reflexivity|].
  rewrite (H x (or_introl eq_refl)). apply IH.
  intros y Hy. apply H. now right.
Qed.

Lemma flat_map_none (A B : Type) (f : A -> list B) (l : list A) :
  (forall x, In x l -> f x = []) -> flat_map f l = [].
Proof.
  induction l as [|x l IH]; intros H; simpl; [reflexivity|].
  rewrite (H x (or_introl eq_refl)). apply IH.
  intros y Hy. apply H. now right.
Qed.

(** X22.  A schema compared with itself shows no difference. *)
Theorem compare_schemas_same schema dir :
  fst (compare_schemas schema schema dir) = mkDifferences [] [] [] [] [].
Proof using Type.
  clear_unused.
  rewrite compare_schemas_spec. cbv zeta. cbn [fst].
  set (d := dict_comprehension sf_name (fields schema)).
  assert (Hnd : NoDup (map fst d)) by apply dict_comprehension_NoDup.
  assert (Hkeys : keys_not_in d d = []).
  { unfold keys_not_in. rewrite filter_none; [reflexivity|].
    intros [k f] Hin. cbn [fst]. apply negb_false_iff.
    apply dict_mem_keys. apply in_map_iff. now exists (k, f). }
  assert (Htc : flat_map (type_change_of d) d = []).
  { apply flat_map_none. intros [k f] Hin. unfold type_change_of.
    cbn [fst snd]. rewrite (@dict_get_In _ k f d Hnd Hin).
    now rewrite String.eqb_refl. }
  assert (Hnc : flat_map (nullable_change_of d) d = []).
  { apply flat_map_none. intros [k f] Hin. unfold nullable_change_of.
    cbn [fst snd]. rewrite (@dict_get_In _ k f d Hnd Hin).
    now rewrite Bool.eqb_reflx. }
  now rewrite Hkeys, Htc, Hnc.
Qed.

(** Exchanging the two schemas exchanges the added and the removed
    fields. *)
Lemma compare_schemas_swap a b dir dir' :
  added_fields (fst (compare_schemas a b dir))
  = removed_fields (fst (compare_schemas b a dir'))
  /\ removed_fields (fst (compare_schemas a b dir))
     = added_fields (fst (compare_schemas b a dir')).
Proof. rewrite !compare_schemas_spec. split; reflexivity. Qed.

(* ------------------------------------------------------------------ *)
(** ** The quality assessment stage of the pipeline *)

(** The verdict and the results of a validation do not depend on the
    state of the quarantine store and of the log. *)
Lemma validate_data_world self df source w1 w2 :
  match validate_data self df source w1, validate_data self df source w2 with
  | Ok (p1, r1, _), Ok (p2, r2, _) => p1 = p2 /\ r1 = r2
  | Raise e1, Raise e2 => e1 = e2
  | _, _ => False
  end.
Proof.
  unfold validate_data.
  destruct (_validate_schema df source) as [sv sr].
  destruct (_validate_business_rules self df source) as [[bv br]|e];
    cbn [Py.bind]; [|reflexivity].
  destruct (_validate_completeness df) as [[cv cr]|e];
    cbn [Py.bind]; [|reflexivity].
  destruct (_validate_consistency df) as [[kv kr]|e];
    cbn [Py.bind]; [|reflexivity].
  destruct (_validate_freshness df) as [[fv fr]|e];
    cbn [Py.bind]; [|reflexivity].
  cbv zeta.
  match goal with |- context [negb ?b] => destruct b end; cbn [negb];
    [split; reflexivity|].
  rewrite !_quarantine_bad_data_spec. cbn [checks schema_validation].
  destruct (passed sr); split; reflexivity.
Qed.

(** The loop stores, file after file, the outcome of each file. *)
Lemma assessment_loop_spec self bronze_files :
  forall quality_results w,
    fst (assessment_loop self bronze_files quality_results w)
    = fold_left (fun d f => dict_set (fst (file_outcome self f))
                                     (snd (file_outcome self f)) d)
                bronze_files quality_results.
Proof.
  induction bronze_files as [|f files IH]; intros d w; [reflexivity|].
  cbn [assessment_loop fold_left].
  destruct (read_parquet f) as [df|e] eqn:Er; cbn [Py.bind].
  - pose proof (validate_data_world self df (split_first (stem f)) w
                                    (mkWorld [] [])) as Hw.
    destruct (validate_data self df (split_first (stem f)) w)
      as [[[p1 r1] w1]|e1] eqn:E1;
      destruct (validate_data self df (split_first (stem f)) (mkWorld [] []))
      as [[[p2 r2] w2]|e2] eqn:E2; try contradiction.
    + assert (Ho : file_outcome self f
                   = (split_first (stem f), ValidationEntry r2)).
      { unfold file_outcome. rewrite Er. cbn [Py.bind]. now rewrite E2. }
      destruct Hw as [_ ->]. rewrite IH, Ho. reflexivity.
    + assert (Ho : file_outcome self f = (stem f, ErrorEntry (Py.str e2))).
      { unfold file_outcome. rewrite Er. cbn [Py.bind]. now rewrite E2. }
      subst e2. rewrite IH, Ho. reflexivity.
  - assert (Ho : file_outcome self f = (stem f, ErrorEntry (Py.str e))).
    { unfold file_outcome. now rewrite Er. }
    rewrite IH, Ho. reflexivity.
Qed.

(** X23.  After the assessment, the entry stored under a key is the outcome of
    the last Bronze file with that key: the validation results under the
    source name, or the error (with [passed = False]) under the stem of a
    file that could not be read or validated.  A later file of the same
    source replaces the results of an earlier one; every file's key holds
    an entry. *)
Theorem quality_assessment_keeps_last_result self bronze_files w key :
  let quality_results := fst (_run_quality_assessment self bronze_files w) in
  dict_get key quality_results
  = match last_with_key (fun f => fst (file_outcome self f)) key bronze_files
    with
    | Some f => Some (snd (file_outcome self f))
    | None => None
    end
  /\ (forall f, In f bronze_files ->
                dict_get (fst (file_outcome self f)) quality_results <> None).
Proof.
  cbv zeta. unfold _run_quality_assessment. rewrite assessment_loop_spec.
  split.
  - rewrite dict_get_fold. reflexivity.
  - intros f Hin. rewrite dict_get_fold. cbn [dict_get].
    destruct (last_with_key (fun f0 => fst (file_outcome self f0))
                            (fst (file_outcome self f)) bronze_files)
      as [f'|] eqn:E; [discriminate|].
    exfalso. exact (proj1 (last_with_key_None _ _ _) E f Hin eq_refl).
Qed.

(** X24.  The pipeline sees a quality failure exactly when, for some key, the
    last Bronze file with that key did not pass: its validation failed, or
    reading or validating it raised.  A failure of an earlier file of the
    same source is not seen. *)
Theorem quality_failures_come_from_last_files self bronze_files w :
  quality_has_failures (fst (_run_quality_assessment self bronze_files w))
  = true
  <-> exists key f,
        last_with_key (fun f => fst (file_outcome self f)) key bronze_files
        = Some f
        /\ entry_passed (snd (file_outcome self f)) = false.
Proof.
  unfold quality_has_failures, _run_quality_assessment.
  rewrite assessment_loop_spec.
  set (d := fold_left _ bronze_files []).
  assert (Hnd : NoDup (map fst d)).
  { apply (dict_fold_NoDup (fun f => fst (file_outcome self f))
                           (fun f => snd (file_outcome self f))).
    constructor. }
  assert (Hget : forall key,
             dict_get key d
             = match last_with_key (fun f => fst (file_outcome self f)) key
                                   bronze_files with
               | Some f => Some (snd (file_outcome self f))
               | None => None
               end).
  { intros key. unfold d. rewrite dict_get_fold. reflexivity. }
  rewrite existsb_exists. split.
  - intros ([k e] & Hin & Hp). cbn [snd] in Hp.
    apply negb_true_iff in Hp.
    apply (@dict_get_In _ k e d Hnd) in Hin. rewrite Hget in Hin.
    destruct (last_with_key _ k bronze_files) as [f|] eqn:E;
      [|discriminate].
    inversion Hin; subst. exists k, f. auto.
  - intros (k & f & E & Hp).
    exists (k, snd (file_outcome self f)). split.
    + apply dict_get_Some_In. rewrite Hget, E. reflexivity.
    + cbn [snd]. now rewrite Hp.
Qed.

Lemma truediv_ge_four_fifths (k n : nat) :
  (0 < n)%nat ->
  (Py.ge (Py.truediv k n) (8 # 10) = true <-> (4 * n <= 5 * k)%nat).
Proof.
  intros Hn. rewrite ge_iff. unfold Py.truediv.
  pose proof (inject_nat_pos Hn) as Hpos.
  assert (Hmul : (8 # 10) * inject_Z (Z.of_nat n) <= inject_Z (Z.of_nat k)
                 <-> (4 * n <= 5 * k)%nat).
  { unfold Qle, Qmult, inject_Z. cbn [Qnum Qden]. lia. }
  rewrite <- Hmul. split.
  - intros H. apply Qmult_le_r with (z := inject_Z (Z.of_nat n)) in H;
      [|assumption].
    eapply Qle_trans; [exact H|].
    rewrite Qmult_comm, Qmult_div_r; [apply Qle_refl|].
    intros E. rewrite E in Hpos. now apply Qlt_irrefl in Hpos.
  - intros H. now apply Qle_shift_div_l.
Qed.

Lemma count_full_iff (A : Type) (p : A -> bool) (l : list A) :
  Py.count p l = List.length l <-> forall x, In x l -> p x = true.
Proof.
  unfold Py.count. induction l as [|x l IH]; simpl.
  - split; [intros _ y [] | reflexivity].
  - pose proof (count_le_length p l) as Hle. unfold Py.count in Hle.
    destruct (p x) eqn:E; simpl.
    + split.
      * intros H y [<-|Hy]; [assumption|]. apply IH; [lia | assumption].
      * intros H. f_equal. apply IH. intros y Hy. apply H. now right.
    + split; [lia|]. intros H. specialize (H x (or_introl eq_refl)).
      congruence.
Qed.

(** X15.  When the freshness scorer returns sub-checks, its score is the
    fraction of them that pass, and it passes when at least four fifths of
    them do: with fewer than five sub-checks, only if all of them pass. *)
Theorem freshness_needs_four_fifths df b c :
  _validate_freshness df = Ok (b, c) ->
  exists freshness_checks,
    details c = FreshnessChecks freshness_checks
    /\ b = passed c
    /\ (freshness_checks <> [] ->
        score c = Py.truediv (Py.count freshness_passed freshness_checks)
                             (List.length freshness_checks)
        /\ (passed c = true <->
            (4 * List.length freshness_checks
             <= 5 * Py.count freshness_passed freshness_checks)%nat)
        /\ ((List.length freshness_checks < 5)%nat ->
            (passed c = true <->
             forall x, In x freshness_checks -> freshness_passed x = true))).
Proof.
  unfold _validate_freshness. intros H. bind_inv H.
  destruct (date_loop df (date_columns df) a) as [|fc fcs] eqn:E.
  - inversion H; subst. exists []. repeat split; congruence.
  - inversion H; subst; clear H. exists (fc :: fcs).
    cbn [details passed score].
    split; [reflexivity|]. split; [reflexivity|]. intros _.
    split; [reflexivity|].
    assert (Hiff : Py.ge (Py.truediv (Py.count freshness_passed (fc :: fcs))
                                     (List.length (fc :: fcs))) (8 # 10)
                   = true <->
                   (4 * List.length (fc :: fcs)
                    <= 5 * Py.count freshness_passed (fc :: fcs))%nat)
      by (apply truediv_ge_four_fifths; simpl; lia).
    split; [exact Hiff|].
    intros Hlen. rewrite Hiff, <- count_full_iff.
    pose proof (count_le_length freshness_passed (fc :: fcs)). lia.
Qed.

End Validator.

(* ------------------------------------------------------------------ *)
(** ** The engine on the sample data *)

Abbreviation sample_validate_data :=
  (validate_data sample_load_schema sample_pandera_validate
                 sample_to_datetime_scalar sample_utcnow).
Abbreviation sample_rules_loop := (rules_loop sample_to_datetime_scalar).
Abbreviation sample_business_rules :=
  (_validate_business_rules sample_to_datetime_scalar).

(** The scenario of the specification: schema, consistency and freshness
    pass, the [not_null] rule and completeness score 0.5, the overall score
    is 0.80. *)
Lemma half_null_run :
  exists r w',
    sample_validate_data (validator_with [amount_not_null]) half_null_frame
                         "transactions" empty_world
    = Ok (false, r, w')
    /\ overall_score r == 8 # 10
    /\ passed (schema_validation (checks r)) = true
    /\ passed (business_rules (checks r)) = false
    /\ quarantined_rows r = 0%nat
    /\ quarantine_files w' = [].
Proof.
  do 2 eexists. split; [lazy; reflexivity|].
  repeat split.
Defined.

(** With an unknown source the schema check fails and both rows are
    quarantined. *)
Lemma unknown_source_run :
  exists r w' q,
    sample_validate_data (validator_with [amount_not_null]) half_null_frame
                         "unknown" empty_world
    = Ok (false, r, w')
    /\ overall_score r == 6 # 10
    /\ passed (schema_validation (checks r)) = false
    /\ quarantined_rows r = 2%nat
    /\ quarantine_files w' = [q]
    /\ q_data q = half_null_frame.
Proof.
  do 3 eexists. split; [lazy; reflexivity|].
  repeat split.
Defined.

Lemma overall_score_is_mean_witness :
  exists p r w',
    sample_validate_data (validator_with [amount_not_null]) half_null_frame
                         "transactions" empty_world
    = Ok (p, r, w')
    /\ overall_score r
       == (score (schema_validation (checks r)) + score (business_rules (checks r))
           + score (completeness_check (checks r)) + score (consistency (checks r))
           + score (freshness (checks r))) / 5
    /\ 0 <= overall_score r <= 1.
Proof.
  do 3 eexists.
  match goal with
  | |- ?E /\ _ => assert (H : E) by (lazy; reflexivity)
  end.
  split; [exact H|].
  pose proof (overall_score_is_mean _ _ _ _ _ _ _ _ H) as T. cbv zeta in T.
  destruct T as (_ & _ & _ & _ & _ & Hmean & Hbounds).
  split; assumption.
Defined.

Lemma passed_iff_score_reaches_threshold_witness :
  exists p r w',
    sample_validate_data (validator_with [amount_not_null]) half_null_frame
                         "transactions" empty_world
    = Ok (p, r, w')
    /\ p = vr_passed r
    /\ (vr_passed r = true <-> 95 # 100 <= overall_score r).
Proof.
  do 3 eexists.
  match goal with
  | |- ?E /\ _ => assert (H : E) by (lazy; reflexivity)
  end.
  split; [exact H|].
  destruct (passed_iff_score_reaches_threshold _ _ _ _ _ _ _ _ H)
    as (Hp & Hsome & _).
  split; [exact Hp | exact (Hsome _ eq_refl)].
Defined.

Lemma quarantine_only_on_schema_failure_witness :
  exists p r w',
    sample_validate_data (validator_with [amount_not_null]) half_null_frame
                         "transactions" empty_world
    = Ok (p, r, w')
    /\ vr_passed r = false
    /\ passed (business_rules (checks r)) = false
    /\ quarantined_rows r = 0%nat
    /\ quarantine_files w' = quarantine_files empty_world
    /\ warnings w' = [BusinessRuleFailed "amount_not_null"].
Proof.
  do 3 eexists.
  match goal with
  | |- ?E /\ _ => assert (H : E) by (lazy; reflexivity)
  end.
  split; [exact H|]. split; [reflexivity|]. split; [reflexivity|].
  destruct (quarantine_only_on_schema_failure _ _ _ _ _ _ _ _ H eq_refl)
    as (_ & Hschema).
  exact (Hschema eq_refl).
Defined.

Lemma quarantine_all_or_nothing_witness :
  exists p r w',
    sample_validate_data (validator_with [amount_not_null]) half_null_frame
                         "unknown" empty_world
    = Ok (p, r, w')
    /\ (quarantined_rows r = 0%nat \/ quarantined_rows r = total_rows r).
Proof.
  do 3 eexists.
  match goal with
  | |- ?E /\ _ => assert (H : E) by (lazy; reflexivity)
  end.
  split; [exact H|].
  exact (quarantine_all_or_nothing _ _ _ _ _ _ _ _ H).
Defined.

Lemma no_rules_vacuous_pass_witness :
  sample_business_rules (validator_with []) half_null_frame "transactions"
  = Ok (true, mkCheckResult true 1 None (RuleResults []) "business_rules").
Proof.
  apply no_rules_vacuous_pass. reflexivity.
Defined.

(** 100 rows with 5 nulls pass at the boundary; 100 rows with 6 nulls
    fail. *)
Lemma not_null_rule_boundary_witness :
  (exists s,
     getitem (amount_frame 5 95) "amount" = Ok s
     /\ isna_sum s = 5%nat
     /\ sample_rules_loop (amount_frame 5 95) [amount_not_null] [] 0
        = Ok ([RuleScored "amount_not_null" true (ratio 95 100) 95 100],
              0 + ratio 95 100)
     /\ ratio 95 100 == 95 # 100)
  /\ (exists s,
        getitem (amount_frame 6 94) "amount" = Ok s
        /\ notna_sum s = 94%nat
        /\ Py.ge (ratio (notna_sum s) (len (amount_frame 6 94))) (95 # 100)
           = false).
Proof.
  split.
  - eexists.
    match goal with
    | |- ?E /\ _ => assert (Hs : E) by (vm_compute; reflexivity)
    end.
    split; [exact Hs|]. split; [vm_compute; reflexivity|].
    destruct (@not_null_rule_boundary sample_to_datetime_scalar
                (amount_frame 5 95) amount_not_null _ _ _
                eq_refl eq_refl eq_refl Hs)
      as (Hloop & _ & Hpass & _).
    split; [exact Hloop|].
    exact (proj1 (Hpass eq_refl eq_refl)).
  - eexists.
    match goal with
    | |- ?E /\ _ => assert (Hs : E) by (vm_compute; reflexivity)
    end.
    split; [exact Hs|]. split; [vm_compute; reflexivity|].
    destruct (@not_null_rule_boundary sample_to_datetime_scalar
                (amount_frame 6 94) amount_not_null _ _ _
                eq_refl eq_refl eq_refl Hs)
      as (_ & _ & _ & Hfail).
    exact (Hfail eq_refl eq_refl).
Defined.

(** Three rows without nulls: completeness 1.0. *)
Lemma completeness_is_mean_of_ratios_witness :
  exists r,
    _validate_completeness (amount_frame 0 3) = Ok (passed r, r)
    /\ passed r = true
    /\ score r == 1.
Proof.
  destruct (completeness_is_mean_of_ratios (amount_frame 0 3))
    as (r & Hrun & _ & _ & Hpassed & _ & Hfull).
  exists r. split; [exact Hrun|].
  assert (Hscore : score r == 1).
  { apply Hfull; [vm_compute; lia|].
    intros column s [<-|[]] Hs. vm_compute in Hs.
    inversion Hs; subst. reflexivity. }
  split; [|exact Hscore].
  apply Hpassed. rewrite Hscore. discriminate.
Defined.

(** The two sample frames differ only in the value of [_batch]. *)
Lemma batch_frames_same_business_data (a b : cell) :
  same_business_data (batch_frame a) (batch_frame b).
Proof.
  split; [reflexivity|]. split; [reflexivity|].
  intros column Hb. unfold getitem. simpl.
  destruct (String.eqb column "amount"); [reflexivity|].
  destruct (String.eqb_spec column "_batch") as [->|_]; [discriminate|].
  reflexivity.
Qed.

Lemma metadata_values_do_not_influence_witness :
  _validate_completeness (batch_frame NA)
  = _validate_completeness (batch_frame (PyStr "b1"))
  /\ _validate_consistency (batch_frame NA)
     = _validate_consistency (batch_frame (PyStr "b1"))
  /\ sample_business_rules (validator_with [amount_not_null])
                           (batch_frame NA) "transactions"
     = sample_business_rules (validator_with [amount_not_null])
                             (batch_frame (PyStr "b1")) "transactions".
Proof.
  destruct (@metadata_values_do_not_influence sample_to_datetime_scalar
              (validator_with [amount_not_null])
              (batch_frame NA) (batch_frame (PyStr "b1")) "transactions"
              (batch_frames_same_business_data _ _))
    as (Hc & Hk & Hb).
  split; [exact Hc|]. split; [exact Hk|].
  apply Hb. constructor; [|constructor].
  intros column Hcol. inversion Hcol; subst. reflexivity.
Defined.

(** A rule that names the metadata column [_batch] is evaluated on it: the
    two frames have the same business data and get business-rule scores 0
    and 1. *)
Lemma metadata_rule_counterexample :
  same_business_data (batch_frame NA) (batch_frame (PyStr "b1"))
  /\ exists c1 c2,
       sample_business_rules (validator_with [batch_not_null])
                             (batch_frame NA) "transactions"
       = Ok (false, c1)
       /\ sample_business_rules (validator_with [batch_not_null])
                                (batch_frame (PyStr "b1")) "transactions"
          = Ok (true, c2)
       /\ score c1 == 0
       /\ score c2 == 1
       /\ ~ score c1 == score c2.
Proof.
  split; [apply batch_frames_same_business_data|].
  do 2 eexists. split; [lazy; reflexivity|]. split; [lazy; reflexivity|].
  cbn [score]. repeat split; discriminate.
Qed.

(** A null row counts as a failing row of a [greater_than] rule. *)
Lemma greater_than_rule_score_witness :
  sample_rules_loop half_null_frame [amount_positive] [] 0
  = Ok ([RuleScored "amount_positive" false (ratio 1 2) 1 2], 0 + ratio 1 2).
Proof.
  destruct (@greater_than_rule_score sample_to_datetime_scalar
              half_null_frame amount_positive _ _ _
              (mkSeries float64 [NA; PyFloat 25])
              eq_refl eq_refl eq_refl eq_refl eq_refl)
    as (Hnum & _).
  exact (Hnum eq_refl).
Defined.

(** A string in the column does not lower the fraction to 1/2: the rule
    has an error and no score, and the engine scores 0. *)
Lemma greater_than_non_numeric_counterexample :
  sample_rules_loop mixed_amount_frame [amount_positive] [] 0
  = Ok ([RuleFailed "amount_positive"
           "'>' not supported between instances of 'str' and 'int'"], 0)
  /\ exists c,
       sample_business_rules (validator_with [amount_positive])
                             mixed_amount_frame "transactions"
       = Ok (false, c)
       /\ score c == 0
       /\ ~ score c == 1 # 2.
Proof.
  split; [reflexivity|].
  eexists. split; [lazy; reflexivity|].
  cbn [score]. split; [reflexivity | discriminate].
Qed.

(** The engine on a frame whose ingestion timestamp cannot be converted,
    with well-formed rules: [validate_data] raises. *)
Lemma bad_ingestion_run :
  sample_validate_data (validator_with [amount_not_null]) bad_ingestion_frame
                       "transactions" empty_world
  = Raise (ValueError "Unknown datetime string format").
Proof. reflexivity. Qed.

(* ------------------------------------------------------------------ *)
(** ** More runs on the sample data *)

Abbreviation sample_validate_dataframe :=
  (validate_dataframe sample_load_schema sample_pandera_validate).
Abbreviation sample_validate_freshness :=
  (_validate_freshness sample_to_datetime_scalar sample_utcnow).


(** A schema file that cannot be decoded gives a failed schema check with
    the message of the exception. *)
Lemma _validate_schema_absorbs_errors_witness :
  snd (_validate_schema broken_load_schema sample_pandera_validate
                        half_null_frame "transactions")
  = mkCheckResult false 0
      (Some "Expecting value: line 1 column 1 (char 0)"%string) NoDetails
      "schema_validation".
Proof.
  destruct (_validate_schema_absorbs_errors broken_load_schema
              sample_pandera_validate half_null_frame "transactions")
    as (_ & _ & _ & Hraise & _).
  exact (Hraise _ eq_refl).
Defined.

Lemma business_rules_raise_only_on_missing_key_witness :
  exists b c,
    sample_business_rules (validator_with [amount_not_null; branch_not_null])
                          half_null_frame "transactions"
    = Ok (b, c).
Proof.
  destruct (business_rules_raise_only_on_missing_key
              sample_to_datetime_scalar
              (validator_with [amount_not_null; branch_not_null])
              half_null_frame "transactions") as (Hiff & _).
  apply Hiff. repeat constructor; discriminate.
Defined.

(** A rule on a missing column counts in the denominator: the score of
    [amount_not_null] (1/2) is halved. *)
Lemma business_rules_score_counts_every_rule_witness :
  exists c entries,
    sample_business_rules (validator_with [amount_not_null; branch_not_null])
                          half_null_frame "transactions"
    = Ok (false, c)
    /\ details c = RuleResults entries
    /\ map rule_of entries = ["amount_not_null"; "branch_not_null"]%string
    /\ score c == 1 # 4.
Proof.
  eexists.
  assert (H : sample_business_rules
                (validator_with [amount_not_null; branch_not_null])
                half_null_frame "transactions" = Ok (false, _))
    by (lazy; reflexivity).
  destruct (business_rules_score_counts_every_rule _ _ _ _ H)
    as (entries & Hd & _ & Hnames & Hscore & _).
  exists entries. split; [exact H|]. split; [exact Hd|].
  split; [exact Hnames|]. reflexivity.
Defined.


Lemma rule_parameter_errors_are_caught_witness :
  sample_rules_loop half_null_frame [amount_min_no_value] [] 0
  = Ok ([RuleFailed "amount_min" "'value'"], 0).
Proof.
  destruct (@rule_parameter_errors_are_caught sample_to_datetime_scalar
              half_null_frame amount_min_no_value _ _
              (mkSeries float64 [NA; PyFloat 25]) eq_refl eq_refl eq_refl)
    as (Hvalue & _).
  exact (Hvalue eq_refl eq_refl).
Defined.


Lemma business_rules_unknown_or_missing_score_zero_witness :
  exists c,
    sample_business_rules (validator_with [amount_format; branch_not_null])
                          half_null_frame "transactions"
    = Ok (false, c)
    /\ score c == 0.
Proof.
  destruct (@business_rules_unknown_or_missing_score_zero
              sample_to_datetime_scalar
              (validator_with [amount_format; branch_not_null])
              half_null_frame "transactions")
    as (c & Hrun & Hscore & _).
  - discriminate.
  - constructor; [|constructor; [|constructor]].
    + exists "amount_format"%string, "amount"%string, "regex"%string.
      repeat split. now right.
    + exists "branch_not_null"%string, "branch"%string, "not_null"%string.
      repeat split. now left.
  - exists c. split; assumption.
Defined.

Lemma consistency_needs_both_checks_witness :
  exists c types,
    _validate_consistency mixed_amount_frame = Ok (false, c)
    /\ details c
       = ConsistencyChecks
           [DuplicateRecords 0 (ratio 0 2) true;
            TypeConsistency false [("amount"%string, types)]]
    /\ ~ score c == 1.
Proof.
  destruct (_validate_consistency mixed_amount_frame) as [[b c]|e] eqn:E;
    [|lazy in E; discriminate].
  destruct (consistency_needs_both_checks _ E)
    as (dc & dr & dp & tp & ti & Hd & Hb & Hboth & Hone & _).
  lazy in E. inversion E; subst. do 2 eexists.
  split; [reflexivity|]. split; [reflexivity|].
  intros Hs. apply Hone in Hs. discriminate.
Defined.

(** Three equal rows: two duplicates, the duplicate check fails. *)
Lemma duplicate_check_threshold_witness :
  exists c type_check,
    _validate_consistency (amount_frame 0 3) = Ok (false, c)
    /\ details c
       = ConsistencyChecks [DuplicateRecords 2 (ratio 2 3) false; type_check].
Proof.
  destruct (_validate_consistency (amount_frame 0 3)) as [[b c]|e] eqn:E;
    [|lazy in E; discriminate].
  destruct (duplicate_check_threshold _ E)
    as (mask & rate & dp & tcheck & Hmask & Hd & Hrate & _ & Hsmall).
  assert (Hdp : dp = false).
  { destruct dp; [|reflexivity].
    assert (Hzero : sum_bool mask = 0%nat)
      by (apply Hsmall; [vm_compute; lia | reflexivity]).
    vm_compute in Hmask. inversion Hmask; subst. discriminate. }
  lazy in E. inversion E; subst. do 2 eexists.
  split; reflexivity.
Defined.

(** The column holding an int and a str is the one reported. *)
Lemma type_check_characterisation_witness :
  exists c dup_check type_issues,
    _validate_consistency mixed_amount_frame = Ok (false, c)
    /\ details c
       = ConsistencyChecks [dup_check; TypeConsistency false type_issues]
    /\ map fst type_issues = ["amount"%string].
Proof.
  destruct (_validate_consistency mixed_amount_frame) as [[b c]|e] eqn:E;
    [|lazy in E; discriminate].
  destruct (type_check_characterisation _ E)
    as (dup & tp & ti & Hd & Hissues & _).
  lazy in E. inversion E; subst. cbn [details] in Hd.
  inversion Hd; subst. do 3 eexists.
  split; [reflexivity|]. split; [reflexivity|]. exact Hissues.
Defined.

(** A row ingested 12 hours before the validation. *)
Lemma ingestion_freshness_window_witness :
  exists hours,
    ingestion_check sample_to_datetime_scalar sample_utcnow dated_frame
    = Ok [IngestionFreshness hours true].
Proof.
  destruct (@ingestion_freshness_window sample_to_datetime_scalar
              sample_utcnow dated_frame
              (mkSeries datetime64 [Timestamp ts_recent; NA])
              [Some ts_recent; None] eq_refl eq_refl)
    as (hours & p & Hrun & Hiff & _).
  exists hours. rewrite Hrun.
  assert (Hp : p = true).
  { apply Hiff. exists ts_recent. split; [now left | reflexivity]. }
  now rewrite Hp.
Defined.

(** The latest business date is 12 hours old. *)
Lemma business_date_freshness_window_witness :
  exists days,
    business_date_check sample_to_datetime_scalar sample_utcnow dated_frame
                        "transaction_date"
    = Ok (BusinessDateFreshness "transaction_date_freshness" days true).
Proof.
  destruct (@business_date_freshness_window sample_to_datetime_scalar
              sample_utcnow dated_frame "transaction_date"
              (mkSeries datetime64 [Timestamp ts_recent; Timestamp ts_old])
              [Some ts_recent; Some ts_old] eq_refl eq_refl)
    as (days & p & Hrun & Hiff).
  exists days. rewrite Hrun.
  assert (Hp : p = true).
  { apply Hiff. exists ts_recent. split; [now left | reflexivity]. }
  now rewrite Hp.
Defined.

(** A date column of text is skipped, and the data is assumed fresh. *)
Lemma freshness_defaults_to_fresh_witness :
  sample_validate_freshness text_date_frame
  = Ok (true, mkCheckResult true 1 None (FreshnessChecks []) "freshness").
Proof.
  apply freshness_defaults_to_fresh; [reflexivity|].
  intros c [<-|[]]. eexists. reflexivity.
Defined.


Lemma schema_failure_fails_validation_witness :
  exists r w',
    sample_validate_data (validator_with [amount_not_null]) half_null_frame
                         "unknown" empty_world
    = Ok (false, r, w')
    /\ quarantined_rows r = total_rows r.
Proof.
  destruct (sample_validate_data (validator_with [amount_not_null])
              half_null_frame "unknown" empty_world)
    as [[[p r] w']|e] eqn:E; [|lazy in E; discriminate].
  assert (Hschema : passed (schema_validation (checks r)) = false)
    by (lazy in E; inversion E; reflexivity).
  destruct (schema_failure_fails_validation _ _ _ _ _ _ _ _ E Hschema)
    as (Hp & Hq); [reflexivity|].
  subst p. exists r, w'. split; [reflexivity | exact Hq].
Defined.

Lemma consistency_failure_fails_validation_witness :
  exists r w',
    sample_validate_data (validator_with []) mixed_amount_frame
                         "transactions" empty_world
    = Ok (false, r, w')
    /\ quarantined_rows r = 0%nat.
Proof.
  destruct (sample_validate_data (validator_with []) mixed_amount_frame
                                 "transactions" empty_world)
    as [[[p r] w']|e] eqn:E; [|lazy in E; discriminate].
  assert (Hcons : passed (consistency (checks r)) = false)
    by (lazy in E; inversion E; reflexivity).
  assert (Hschema : passed (schema_validation (checks r)) = true)
    by (lazy in E; inversion E; reflexivity).
  destruct (consistency_failure_fails_validation _ _ _ _ _ _ _ _ E Hcons)
    as (Hp & Hq); [reflexivity|].
  subst p. exists r, w'. split; [reflexivity | exact (Hq Hschema)].
Defined.

(** A clean frame gets no recommendation. *)
Lemma recommendations_empty_iff_witness :
  exists r w',
    sample_validate_data (validator_with [amount_not_null]) (amount_frame 0 1)
                         "transactions" empty_world
    = Ok (true, r, w')
    /\ _generate_recommendations r = [].
Proof.
  do 2 eexists.
  match goal with
  | |- ?E /\ _ => assert (H : E) by (lazy; reflexivity)
  end.
  split; [exact H|].
  apply recommendations_empty_iff.
  repeat split; try reflexivity. discriminate.
Defined.

(** The 0.80 scenario: two failed checks (business rules, completeness),
    two recommendations. *)
Lemma report_of_validation_witness :
  exists r w',
    sample_validate_data (validator_with [amount_not_null]) half_null_frame
                         "transactions" empty_world
    = Ok (false, r, w')
    /\ List.length
         (recommendations (generate_quality_report sample_utcnow r))
       = 2%nat
    /\ oa_passed (overall_assessment (generate_quality_report sample_utcnow r))
       = false.
Proof.
  do 2 eexists.
  match goal with
  | |- ?E /\ _ => assert (H : E) by (lazy; reflexivity)
  end.
  split; [exact H|].
  pose proof (report_of_validation _ _ _ _ _ _ _ _ H) as T. cbv zeta in T.
  destruct T as (_ & Hoa & _ & Hlen & _).
  split; [rewrite Hlen; reflexivity | now rewrite Hoa].
Defined.

(** From version 1 to version 2 the field [branch] is added and [amount]
    changes from float64 to int64. *)
Lemma compare_schemas_reports_witness :
  let d := fst (compare_schemas schema_v2 schema_v1 (mkSchemaDir None)) in
  In "branch"%string (added_fields d)
  /\ ~ In "amount"%string (added_fields d)
  /\ In (mkTypeChange "amount" "float64" "int64") (type_changes d)
  /\ modified_fields d = [].
Proof.
  cbv zeta.
  destruct (compare_schemas_reports schema_v2 schema_v1 (mkSchemaDir None))
    as (Hadded & _ & Htypes & _ & Hmod & _).
  cbv zeta in *.
  split; [apply Hadded; split; [discriminate | reflexivity]|].
  split.
  - intros Hin. apply Hadded in Hin. destruct Hin as [_ Hin]. discriminate.
  - split; [|exact Hmod]. apply Htypes.
    exists (mkSchemaField "amount" "int64" false),
           (mkSchemaField "amount" "float64" true).
    repeat split. discriminate.
Defined.

Abbreviation sample_run_quality_assessment :=
  (_run_quality_assessment sample_load_schema sample_pandera_validate
     sample_to_datetime_scalar sample_utcnow sample_read_parquet).
Abbreviation sample_file_outcome :=
  (file_outcome sample_load_schema sample_pandera_validate
     sample_to_datetime_scalar sample_utcnow sample_read_parquet).

(** Two files of the source "transactions": the stored results are those
    of the second one, which passes, although the first one fails. *)
Lemma quality_assessment_keeps_last_result_witness :
  exists r,
    dict_get "transactions"
      (fst (sample_run_quality_assessment
              (validator_with [amount_not_null])
              [transactions_2024; transactions_2025] empty_world))
    = Some (ValidationEntry r)
    /\ vr_passed r = true
    /\ entry_passed
         (snd (sample_file_outcome (validator_with [amount_not_null])
                                   transactions_2024))
       = false.
Proof.
  destruct (quality_assessment_keeps_last_result sample_load_schema
              sample_pandera_validate sample_to_datetime_scalar sample_utcnow
              sample_read_parquet (validator_with [amount_not_null])
              [transactions_2024; transactions_2025] empty_world
              "transactions") as (Hget & _).
  cbv zeta in Hget. rewrite Hget.
  eexists. split; [lazy; reflexivity|]. split; reflexivity.
Defined.

(** A file that cannot be read is the last one of its key: the pipeline
    sees a failure. *)
Lemma quality_failures_come_from_last_files_witness :
  quality_has_failures
    (fst (sample_run_quality_assessment
            (validator_with [amount_not_null])
            [transactions_2025; accounts_2024] empty_world))
  = true.
Proof.
  apply quality_failures_come_from_last_files.
  exists "accounts_2024"%string, accounts_2024. split; reflexivity.
Defined.

(** The failure of the first file of a source is not seen when a later
    file of the same source passes. *)
Lemma masked_quality_failure :
  quality_has_failures
    (fst (sample_run_quality_assessment
            (validator_with [amount_not_null])
            [transactions_2024; transactions_2025] empty_world))
  = false.
Proof. reflexivity. Qed.

(** The ingestion check and the business date check both pass. *)
Lemma freshness_needs_four_fifths_witness :
  exists c,
    sample_validate_freshness dated_frame = Ok (true, c)
    /\ score c = Py.truediv 2 2.
Proof.
  destruct (sample_validate_freshness dated_frame) as [[b c]|e] eqn:E;
    [|lazy in E; discriminate].
  destruct (freshness_needs_four_fifths _ _ _ E)
    as (l & Hd & Hb & Hne).
  assert (Hl : exists x y, l = [x; y]).
  { lazy in E. inversion E; subst. cbn [details] in Hd.
    inversion Hd; subst. eauto. }
  destruct Hl as (x & y & ->).
  destruct Hne as (Hscore & _ & Hall); [discriminate|].
  assert (Hp : passed c = true).
  { apply Hall; [simpl; lia|].
    lazy in E. inversion E; subst. cbn [details] in Hd.
    inversion Hd; subst. intros z [<-|[<-|[]]]; reflexivity. }
  exists c. rewrite Hb, Hp. split; [reflexivity|].
  rewrite Hscore. lazy in E. inversion E; subst. cbn [details] in Hd.
  inversion Hd; subst. reflexivity.
Defined.
